(** * Idempotent dispatch pipeline of jde-to-datalake: a shallow embedding

    The development embeds the parts of the Python backend that make up the
    dispatch pipeline and proves properties of them:

    - [backend/utility.py]: quantity normalisation, units ([convert_unit],
      [validate_unit]), the retrying HTTP client ([retry_request],
      [retry_request_lru]), the request cache ([_create_cache_key],
      [get_from_lru_cache], [set_in_lru_cache], [delete_from_lru_cache],
      [invalidate_lru_cache]) and [safe_get_from_response];
    - [backend/dags/dag_bakery_system_to_jde.py]: [parse_bakery_system_json],
      [post_data_to_jde], [fetch_from_bakery_system_api],
      [fetch_bakery_system_task] and [post_backup_data_to_stical_api];
    - [backend/jde_helper.py]: [dispatch_single_batch_to_jde],
      [prepare_jde_payload], [dispatch_prepared_payload_to_jde] and
      [fetch_existing_ingredient].

    Part I holds the definitions, Part II the lemmas and theorems.

    Conventions.  Python [None] is [PyNone]; a Python [str] is a Rocq
    [string] (one [ascii] per character, ASCII input); a Python [int] is a
    [Z]; a Python [float] is a binary64 value kept as sign, integer
    significand and binary exponent, with the conversions of the interpreter
    (correct rounding, ties to even) computed in exact integer arithmetic.
    SQL tables are explicit values threaded through the functions that touch
    them; the network is a function from the attempt number to what the
    transport yields. *)

From Stdlib Require Import ZArith String Ascii List Lia Bool DecimalString.
From Stdlib Require Import Sorting.Sorted OrderedTypeEx.
From Stdlib Require DecimalPos.
From stdpp Require Import base list gmap strings.

Set Warnings "-register-all".

Local Open Scope string_scope.
Local Open Scope Z_scope.

(* ================================================================= *)
(** * Part I: the embedding *)
(* ================================================================= *)

(** ** Python values, strings and numbers *)

Module Py.

(** A binary64 float: [F_fin neg m e] is [(-1)^neg * m * 2^e].  The values
    built by [float_of_ratio] are canonical: zero is [F_fin _ 0 0], a
    subnormal has [e = -1074], a normal number has [2^52 <= m < 2^53]. *)
Inductive float64 : Type :=
| F_nan
| F_inf (neg : bool)
| F_fin (neg : bool) (m : Z) (e : Z).

(** The scalars that occur as quantities and as JSON leaves. *)
Inductive pyval : Type :=
| PyNone
| PyBool (b : bool)
| PyInt (z : Z)
| PyFloat (f : float64)
| PyStr (s : string).

(** A [decimal.Decimal]: sign, coefficient and exponent, or a special. *)
Inductive decimal : Type :=
| D_fin (neg : bool) (coeff : Z) (exp : Z)
| D_inf (neg : bool)
| D_nan
| D_snan.

(** *** Strings *)

Definition string_of_Z (z : Z) : string := NilZero.string_of_int (Z.to_int z).

Definition code (c : ascii) : nat := nat_of_ascii c.

(** [str.isspace] on ASCII. *)
Definition is_space (c : ascii) : bool :=
  ((9 <=? code c) && (code c <=? 13) || (28 <=? code c) && (code c <=? 32))%nat.

Definition is_digit (c : ascii) : bool :=
  ((48 <=? code c) && (code c <=? 57))%nat.

Definition digit_val (c : ascii) : Z := Z.of_nat (code c) - 48.

Definition lower (c : ascii) : ascii :=
  if ((65 <=? code c) && (code c <=? 90))%nat then ascii_of_nat (code c + 32) else c.

Fixpoint lowercase (s : string) : string :=
  match s with
  | EmptyString => EmptyString
  | String c s' => String (lower c) (lowercase s')
  end.

Fixpoint lstrip (s : string) : string :=
  match s with
  | EmptyString => EmptyString
  | String c s' => if is_space c then lstrip s' else s
  end.

(** [s.rstrip(chars)] for the characters accepted by [p]. *)
Fixpoint rstrip_by (p : ascii -> bool) (s : string) : string :=
  match s with
  | EmptyString => EmptyString
  | String c s' =>
      match rstrip_by p s' with
      | EmptyString => if p c then EmptyString else String c EmptyString
      | r => String c r
      end
  end.

Definition strip (s : string) : string := lstrip (rstrip_by is_space s).

Definition rstrip_char (c : ascii) (s : string) : string :=
  rstrip_by (Ascii.eqb c) s.

Fixpoint remove_underscores (s : string) : string :=
  match s with
  | EmptyString => EmptyString
  | String c s' =>
      if Ascii.eqb c "_"%char then remove_underscores s' else String c (remove_underscores s')
  end.

(** [s[:n]] *)
Fixpoint take_chars (n : nat) (s : string) : string :=
  match n, s with
  | S n', String c s' => String c (take_chars n' s')
  | _, _ => EmptyString
  end.

(** [s[n:]] *)
Fixpoint drop_chars (n : nat) (s : string) : string :=
  match n, s with
  | S n', String _ s' => drop_chars n' s'
  | _, _ => s
  end.

Definition startswith (s p : string) : bool := String.prefix p s.

(** [s.replace(old, new, 1)] for a non-empty [old]. *)
Fixpoint replace_first (old new s : string) : string :=
  if String.prefix old s then new +:+ drop_chars (String.length old) s
  else match s with
       | EmptyString => EmptyString
       | String c s' => String c (replace_first old new s')
       end.

Fixpoint zeros (n : nat) : string :=
  match n with
  | O => EmptyString
  | S n' => String "0"%char (zeros n')
  end.

(** *** Reading a decimal numeral *)

(** Leading digits of [s]: accumulated value, their number, the rest. *)
Fixpoint take_digits (acc : Z) (n : nat) (s : string) : Z * nat * string :=
  match s with
  | String c s' =>
      if is_digit c then take_digits (10 * acc + digit_val c) (S n) s' else (acc, n, s)
  | EmptyString => (acc, n, s)
  end.

Fixpoint all_digits (s : string) : bool :=
  match s with
  | EmptyString => true
  | String c s' => is_digit c && all_digits s'
  end.

Definition parse_sign (s : string) : bool * string :=
  match s with
  | String "-"%char r => (true, r)
  | String "+"%char r => (false, r)
  | _ => (false, s)
  end.

(** The exponent part after the indicator: an optional sign and at least
    one digit. *)
Definition parse_exponent (s : string) : option Z :=
  let '(neg, r) := parse_sign s in
  let '(v, n, rest) := take_digits 0 0 r in
  if (0 <? n)%nat && String.eqb rest "" then Some (if neg then - v else v) else None.

(** Digits, an optional point followed by digits, an optional exponent
    part; at least one digit before the exponent.  The result is the
    coefficient and the exponent of the numeral. *)
Definition parse_number (s : string) : option (Z * Z) :=
  let '(ip, n1, r1) := take_digits 0 0 s in
  let '(co, n2, r2) :=
    match r1 with
    | String "."%char r => take_digits ip 0 r
    | _ => (ip, O, r1)
    end in
  if (n1 + n2 =? 0)%nat then None else
  match r2 with
  | EmptyString => Some (co, - Z.of_nat n2)
  | String c r3 =>
      if Ascii.eqb (lower c) "e"%char then
        match parse_exponent r3 with
        | Some x => Some (co, x - Z.of_nat n2)
        | None => None
        end
      else None
  end.

(** [Decimal(s)]; [None] is [decimal.InvalidOperation].  The constructor
    strips white space and drops every underscore before matching. *)
Definition Decimal (s : string) : option decimal :=
  let '(neg, r) := parse_sign (remove_underscores (strip s)) in
  let lr := lowercase r in
  if String.eqb lr "inf" || String.eqb lr "infinity" then Some (D_inf neg)
  else if String.prefix "nan" lr && all_digits (drop_chars 3 lr) then Some D_nan
  else if String.prefix "snan" lr && all_digits (drop_chars 4 lr) then Some D_snan
  else match parse_number r with
       | Some (c, e) => Some (D_fin neg c e)
       | None => None
       end.

(** *** binary64 arithmetic in [Z] *)

(** Nearest integer to [n/d], ties to even ([0 <= n], [0 < d]). *)
Definition round_half_even (n d : Z) : Z :=
  let q := n / d in
  match 2 * (n mod d) ?= d with
  | Lt => q
  | Gt => q + 1
  | Eq => if Z.even q then q else q + 1
  end.

(** Nearest integer to [n/d], ties away from zero ([0 <= n], [0 < d]). *)
Definition round_half_up (n d : Z) : Z := (2 * n + d) / (2 * d).

(** [2^k <= n/d] *)
Definition pow2_le (k n d : Z) : bool :=
  if 0 <=? k then d * 2 ^ k <=? n else d <=? n * 2 ^ (- k).

(** [floor (log2 (n/d))] for positive [n] and [d]. *)
Definition ilog2_ratio (n d : Z) : Z :=
  let g := Z.log2 n - Z.log2 d in
  if pow2_le g n d then g else g - 1.

(** The binary64 nearest to [(-1)^neg * n/d], ties to even; overflow gives
    an infinity, underflow a signed zero. *)
Definition float_of_ratio (neg : bool) (n d : Z) : float64 :=
  if n =? 0 then F_fin neg 0 0 else
  let q := Z.max (ilog2_ratio n d - 52) (-1074) in
  let m := if 0 <=? q then round_half_even n (d * 2 ^ q)
           else round_half_even (n * 2 ^ (- q)) d in
  let '(m, q) := if m =? 2 ^ 53 then (2 ^ 52, q + 1) else (m, q) in
  if 971 <? q then F_inf neg
  else if m =? 0 then F_fin neg 0 0
  else F_fin neg m q.

(** [float(d)] for a [Decimal]; [None] is the [ValueError] raised for a
    signaling NaN. *)
Definition float_of_decimal (d : decimal) : option float64 :=
  match d with
  | D_snan => None
  | D_nan => Some F_nan
  | D_inf neg => Some (F_inf neg)
  | D_fin neg c e =>
      Some (if 0 <=? e then float_of_ratio neg (c * 10 ^ e) 1
            else float_of_ratio neg c (10 ^ (- e)))
  end.

(** Nine digits, left-padded with zeros. *)
Definition pad9 (x : Z) : string := drop_chars 1 (string_of_Z (10 ^ 9 + x)).

(** [f"{x:.9f}"]: the exact binary value rounded to nine decimals, ties to
    even. *)
Definition format_9f (f : float64) : string :=
  match f with
  | F_nan => "nan"
  | F_inf neg => if neg then "-inf" else "inf"
  | F_fin neg m e =>
      let N := if 0 <=? e then m * 2 ^ e * 10 ^ 9
               else round_half_even (m * 10 ^ 9) (2 ^ (- e)) in
      (if neg then "-" else "") +:+ string_of_Z (N / 10 ^ 9) +:+ "." +:+ pad9 (N mod 10 ^ 9)
  end.

(** *** [repr] of a float: the shortest numeral that reads back *)

Definition float64_eqb (a b : float64) : bool :=
  match a, b with
  | F_nan, F_nan => true
  | F_inf s, F_inf t => Bool.eqb s t
  | F_fin s m e, F_fin t n x => Bool.eqb s t && (m =? n) && (e =? x)
  | _, _ => false
  end.

(** Number of decimal digits of a positive integer. *)
Definition ndigits (z : Z) : Z := Z.of_nat (String.length (string_of_Z z)).

(** [floor (log10 (n/d))] for [n/d] in the range of positive binary64
    values (at least [2^-1074]). *)
Definition ilog10_ratio (n d : Z) : Z := ndigits (n * 10 ^ 400 / d) - 401.

(** [c * 10^x] as a fraction. *)
Definition decimal_ratio (c x : Z) : Z * Z :=
  if 0 <=? x then (c * 10 ^ x, 1) else (c, 10 ^ (- x)).

(** Does the numeral [c * 10^x] read back as the positive float [m * 2^e]? *)
Definition roundtrips (m e c x : Z) : bool :=
  let '(n, d) := decimal_ratio c x in
  float64_eqb (float_of_ratio false n d) (F_fin false m e).

(** The numeral with [p] significant digits nearest to [m * 2^e] that reads
    back as that float, if there is one; [k] is the decimal exponent of the
    leading digit.  Both neighbours are tried, the nearer one first. *)
Definition shortest_at (m e k p : Z) : option (Z * Z) :=
  let x := k - p + 1 in
  let '(vn, vd) := if 0 <=? e then (m * 2 ^ e, 1) else (m, 2 ^ (- e)) in
  let '(n, d) := if 0 <=? x then (vn, vd * 10 ^ x) else (vn * 10 ^ (- x), vd) in
  let lo := n / d in
  let first := round_half_even n d in
  let second := if first =? lo then lo + 1 else lo in
  if roundtrips m e first x then Some (first, x)
  else if roundtrips m e second x then Some (second, x)
  else None.

Fixpoint shortest_digits (fuel : nat) (m e k p : Z) : Z * Z :=
  match fuel with
  | O => (0, 0)
  | S fuel' =>
      match shortest_at m e k p with
      | Some r => r
      | None => shortest_digits fuel' m e k (p + 1)
      end
  end.

Fixpoint strip_zeros (fuel : nat) (c x : Z) : Z * Z :=
  match fuel with
  | O => (c, x)
  | S fuel' =>
      if (c mod 10 =? 0) && negb (c =? 0) then strip_zeros fuel' (c / 10) (x + 1) else (c, x)
  end.

(** [repr(f)], which is also [str(f)]: fixed notation when the decimal point
    position [decpt] satisfies [-4 < decpt <= 16], exponent notation with at
    least two exponent digits otherwise. *)
Definition float_repr (f : float64) : string :=
  match f with
  | F_nan => "nan"
  | F_inf neg => if neg then "-inf" else "inf"
  | F_fin neg m e =>
      (if neg then "-" else "") +:+
      (if m =? 0 then "0.0" else
       let '(vn, vd) := if 0 <=? e then (m * 2 ^ e, 1) else (m, 2 ^ (- e)) in
       let k := ilog10_ratio vn vd in
       let '(c0, x0) := shortest_digits 17 m e k 1 in
       let '(c, x) := strip_zeros 20 c0 x0 in
       let ds := string_of_Z c in
       let n := ndigits c in
       let decpt := n + x in
       if (-4 <? decpt) && (decpt <=? 16) then
         if decpt <=? 0 then "0." +:+ zeros (Z.to_nat (- decpt)) +:+ ds
         else if n <=? decpt then ds +:+ zeros (Z.to_nat (decpt - n)) +:+ ".0"
         else take_chars (Z.to_nat decpt) ds +:+ "." +:+ drop_chars (Z.to_nat decpt) ds
       else
         let ex := decpt - 1 in
         take_chars 1 ds +:+ (if 1 <? n then "." +:+ drop_chars 1 ds else "")
           +:+ "e" +:+ (if ex <? 0 then "-" else "+")
           +:+ (if Z.abs ex <? 10 then "0" else "") +:+ string_of_Z (Z.abs ex))
  end.

(** *** Conversions of scalars *)

(** [str(v)] *)
Definition py_str (v : pyval) : string :=
  match v with
  | PyNone => "None"
  | PyBool b => if b then "True" else "False"
  | PyInt z => string_of_Z z
  | PyFloat f => float_repr f
  | PyStr s => s
  end.

Definition float_zero : float64 := F_fin false 0 0.
Definition float_one : float64 := F_fin false (2 ^ 52) (-52).

(** An underscore in a [float] literal must stand between two digits. *)
Fixpoint underscores_ok (prev_digit : bool) (s : string) : bool :=
  match s with
  | EmptyString => true
  | String c s' =>
      if Ascii.eqb c "_"%char then
        prev_digit && match s' with String c' _ => is_digit c' | EmptyString => false end
        && underscores_ok false s'
      else underscores_ok (is_digit c) s'
  end.

(** [float(s)] for a string; [None] is [ValueError]. *)
Definition float_of_string (s : string) : option float64 :=
  let s := strip s in
  if negb (underscores_ok false s) then None else
  let '(neg, r) := parse_sign (remove_underscores s) in
  let lr := lowercase r in
  if String.eqb lr "inf" || String.eqb lr "infinity" then Some (F_inf neg)
  else if String.eqb lr "nan" then Some F_nan
  else match parse_number r with
       | Some (c, e) => float_of_decimal (D_fin neg c e)
       | None => None
       end.

(** [float(v)]; [None] is the exception raised ([TypeError] for [None],
    [ValueError] for a malformed string, [OverflowError] for an integer
    beyond the binary64 range). *)
Definition py_float (v : pyval) : option float64 :=
  match v with
  | PyNone => None
  | PyBool b => Some (if b then float_one else float_zero)
  | PyInt z =>
      match float_of_ratio (z <? 0) (Z.abs z) 1 with
      | F_inf _ => None
      | f => Some f
      end
  | PyFloat f => Some f
  | PyStr s => float_of_string s
  end.

(** [v == 0] (and [v == 0.0]): numeric comparison, false for [None] and
    strings. *)
Definition py_eq_zero (v : pyval) : bool :=
  match v with
  | PyBool b => negb b
  | PyInt z => z =? 0
  | PyFloat (F_fin _ m _) => m =? 0
  | _ => false
  end.

(** Truth value of a scalar ([not v] is its negation). *)
Definition py_truthy (v : pyval) : bool :=
  match v with
  | PyNone => false
  | PyBool b => b
  | PyInt z => negb (z =? 0)
  | PyFloat (F_fin _ m _) => negb (m =? 0)
  | PyFloat _ => true
  | PyStr s => negb (String.eqb s "")
  end.

(** *** [decimal] quantisation *)

(** [d.quantize(Decimal('0.000000000'), rounding=ROUND_HALF_UP)] in the
    default context (precision 28); [None] is [InvalidOperation]. *)
Definition quantize9_half_up (d : decimal) : option decimal :=
  match d with
  | D_fin neg c e =>
      let c' := if -9 <=? e then c * 10 ^ (e + 9) else round_half_up c (10 ^ (- 9 - e)) in
      if 10 ^ 28 <=? c' then None else Some (D_fin neg c' (-9))
  | D_inf _ => None
  | D_nan => Some D_nan
  | D_snan => None
  end.

(** Product of two floats: the exact product rounded to nearest. *)
Definition float_mul (a b : float64) : float64 :=
  match a, b with
  | F_nan, _ | _, F_nan => F_nan
  | F_inf s, F_inf t => F_inf (xorb s t)
  | F_inf s, F_fin t m _ | F_fin t m _, F_inf s => if m =? 0 then F_nan else F_inf (xorb s t)
  | F_fin s m e, F_fin t n x =>
      if 0 <=? e + x then float_of_ratio (xorb s t) (m * n * 2 ^ (e + x)) 1
      else float_of_ratio (xorb s t) (m * n) (2 ^ (- (e + x)))
  end.

(** *** Upper and lower case *)

Definition upper (c : ascii) : ascii :=
  if ((97 <=? code c) && (code c <=? 122))%nat then ascii_of_nat (code c - 32) else c.

Fixpoint uppercase (s : string) : string :=
  match s with
  | EmptyString => EmptyString
  | String c s' => String (upper c) (uppercase s')
  end.

(** *** JSON documents *)

(** What [json.loads] and [response.json()] produce.  A [dict] keeps its
    items in insertion order; its keys are strings. *)
Inductive json : Type :=
| JAtom (a : pyval)
| JList (l : list json)
| JDict (d : list (string * json)).

Definition JNone : json := JAtom PyNone.

(** [d.get(k)] on the items of a dict. *)
Fixpoint dict_get {A : Type} (k : string) (d : list (string * A)) : option A :=
  match d with
  | [] => None
  | (k', v) :: d' => if String.eqb k' k then Some v else dict_get k d'
  end.

(** [d[k] = v]: an existing key keeps its place, a new key goes last. *)
Fixpoint dict_set {A : Type} (k : string) (v : A) (d : list (string * A)) : list (string * A) :=
  match d with
  | [] => [(k, v)]
  | (k', v') :: d' => if String.eqb k' k then (k', v) :: d' else (k', v') :: dict_set k v d'
  end.

(** [d.update(other)] *)
Definition dict_update {A : Type} (d other : list (string * A)) : list (string * A) :=
  fold_left (fun acc kv => dict_set (fst kv) (snd kv) acc) other d.

(** [x is None] *)
Definition is_none (x : json) : bool :=
  match x with
  | JAtom PyNone => true
  | _ => false
  end.

(** [x == [] or (isinstance(x, list) and len(x) == 0)] *)
Definition is_empty_list (x : json) : bool :=
  match x with
  | JList [] => true
  | _ => false
  end.

(** *** Exceptions *)

Inductive exn : Type :=
| TypeError
| ValueError
| OverflowError
| AttributeError
| KeyError
| RequestException
| OtherException.

Inductive result (A : Type) : Type :=
| Ok (a : A)
| Raise (e : exn).

Arguments Ok {A} a.
Arguments Raise {A} e.

Definition bind {A B : Type} (r : result A) (k : A -> result B) : result B :=
  match r with
  | Ok a => k a
  | Raise e => Raise e
  end.

End Py.

Notation "'try!' x := r 'in' k" := (Py.bind r (fun x => k))
  (at level 10, x pattern, r at level 100, k at level 200).

(** ** [backend/utility.py]: quantities and units *)

Module Utility.
Import Py.

(** [normalize_quantity_for_transaction_id]: the quantity is rendered with
    [str], read as a [Decimal], converted to [float], formatted with nine
    decimals and stripped of trailing zeros and of a trailing point.  Any
    exception on the way makes the function return [str(quantity_value)]. *)
Definition normalize_quantity_for_transaction_id (quantity_value : pyval) : string :=
  match Decimal (py_str quantity_value) with
  | Some decimal_value =>
      match float_of_decimal decimal_value with
      | Some f => rstrip_char "."%char (rstrip_char "0"%char (format_9f f))
      | None => py_str quantity_value
      end
  | None => py_str quantity_value
  end.

(** [preserve_quantity_precision] with [max_decimals = 9]: round half up to
    nine decimals and convert to [float]; on any exception fall back to
    [float(quantity_value)], and to [0.0] when that raises as well. *)
Definition preserve_quantity_precision (quantity_value : pyval) : float64 :=
  let fallback :=
    match py_float quantity_value with
    | Some f => f
    | None => float_zero
    end in
  match Decimal (py_str quantity_value) with
  | Some decimal_value =>
      match quantize9_half_up decimal_value with
      | Some rounded_value =>
          match float_of_decimal rounded_value with
          | Some f => f
          | None => fallback
          end
      | None => fallback
      end
  | None => fallback
  end.

Definition unit_map : list (string * string) :=
  [("KG", "kg"); ("EA", "each"); ("LT", "L"); ("M2", "m2"); ("C2", "c2");
   ("PK", "pack"); ("ST", "ST"); ("FN", "FN"); ("GR", "g"); ("ML", "mL")].

(** [{v: k for k, v in unit_map.items()}] *)
Definition reverse_unit_map : list (string * string) :=
  fold_left (fun acc kv => dict_set (snd kv) (fst kv) acc) unit_map [].

(** [convert_unit(unit, direction='to_jde')] for a [str]. *)
Definition convert_unit_to_jde (unit : string) : string :=
  match dict_get unit reverse_unit_map with
  | Some u => u
  | None =>
      match dict_get (lowercase unit) reverse_unit_map with
      | Some u => u
      | None => uppercase unit
      end
  end.

Definition is_jde (unit : string) : bool :=
  match dict_get unit unit_map with
  | Some _ => true
  | None => false
  end.

(** The multipliers of [conversion_factors]; [1000] and [1] are Python
    ints, [0.001] is the float nearest to one thousandth. *)
Definition conversion_factors : list (string * string * float64) :=
  let one := float_one in
  let thousand := float_of_ratio false 1000 1 in
  let thousandth := float_of_ratio false 1 1000 in
  [("KG", "g", thousand); ("KG", "L", one); ("g", "KG", thousandth);
   ("L", "KG", one); ("L", "ml", thousand); ("ml", "L", thousandth);
   ("EA", "EA", one); ("each", "EA", one); ("pack", "PK", one);
   ("c2", "M2", one); ("m2", "C2", one); ("KG", "kg", one); ("kg", "KG", one)].

Fixpoint factor_get (s t : string) (l : list (string * string * float64)) : float64 :=
  match l with
  | [] => float_one
  | (s', t', m) :: l' =>
      if String.eqb s' s && String.eqb t' t then m else factor_get s t l'
  end.

(** [convert_unit_quantity]: [ValueError] and [TypeError] of [float] are
    caught and give [None]; an [OverflowError] is not caught. *)
Definition convert_unit_quantity (source_unit target_unit : string) (quantity : pyval)
  : result pyval :=
  let normalized_source :=
    if is_jde source_unit then uppercase source_unit else lowercase source_unit in
  let normalized_target :=
    if is_jde target_unit then uppercase target_unit else lowercase target_unit in
  if String.eqb normalized_source normalized_target then Ok quantity
  else
    let multiplier := factor_get normalized_source normalized_target conversion_factors in
    match quantity with
    | PyInt z =>
        match py_float quantity with
        | Some f => Ok (PyFloat (float_mul f multiplier))
        | None => Raise OverflowError
        end
    | _ =>
        match py_float quantity with
        | Some f => Ok (PyFloat (float_mul f multiplier))
        | None => Ok PyNone
        end
    end.

(** *** Library functions taken as given

    The standard-library and [requests] functions the client relies on and
    whose inner working plays no part below. *)
Class PyStdlib : Type := {
  (** [hashlib.sha256(s.encode('utf-8')).hexdigest()] *)
  sha256_hexdigest : string -> string;
  (** [f"{u.scheme}://{u.netloc}{u.path}"] for [u = urlparse(url)] *)
  url_base : string -> string;
  (** the items of [parse_qs(urlparse(url).query, keep_blank_values=True)] *)
  url_query : string -> list (string * list string);
  (** the JSON string literal for [s], quotes included *)
  json_encode_string : string -> string;
  (** [json.loads(s)]; [None] is [json.JSONDecodeError] *)
  json_loads : string -> option json;
  (** [str(x)] for a decoded JSON document *)
  json_str : json -> string
}.

(** *** The network *)

(** A [requests.Response]: [json_of] is what [response.json()] and
    [json.loads(response.text)] return, [None] when they raise
    [JSONDecodeError]. *)
Record response : Type := {
  status_code : Z;
  text : string;
  json_of : option json
}.

(** What one call of [requests.get/post/put/delete] does. *)
Inductive transport_result : Type :=
| Answered (r : response)
| RequestFailed    (* a [requests.exceptions.RequestException]: timeout, connection error *)
| OtherFailure.    (* any other exception *)

(** The network: what the [n]-th request of a run meets. *)
Definition transport : Type := nat -> transport_result.

(** The observable effects of the client, in order. *)
Inductive event : Type :=
| Request (n : nat)                         (* the [n]-th HTTP request is issued *)
| Sleep (secs : pyval)                      (* [time.sleep(secs)] *)
| LogEmptyResponse                          (* [[EMPTY RESPONSE]] warning *)
| LogJsonError (body : string)              (* [[JSON ERROR]] with the response text *)
| LogFailed (status : Z) (body : string)    (* [[FAILED] Request failed with status code ...: text] *)
| LogRequestException                       (* [Request exception occurred] *)
| LogUnexpected.                            (* [Unexpected error during request] *)

(** What a call yields: the value returned ([JNone] for [None]), or nothing
    within the recursion depth explored. *)
Inductive outcome : Type :=
| Returned (v : json)
| Unfinished.

Definition count_requests (evs : list event) : nat :=
  List.length (List.filter (fun e => match e with Request _ => true | _ => false end) evs).

Definition sleeps (evs : list event) : list pyval :=
  flat_map (fun e => match e with Sleep w => [w] | _ => [] end) evs.

Definition supported_method (method : string) : bool :=
  String.eqb method "GET" || String.eqb method "POST"
  || String.eqb method "PUT" || String.eqb method "DELETE".

(** [wait_seconds > 0] and the sleep that follows: the argument passed to
    [time.sleep], or the exception of the comparison.  (The upper limit of
    [time.sleep] on integers is not modelled.) *)
Definition rate_limit_sleep (wait_seconds : json) : result pyval :=
  match wait_seconds with
  | JAtom (PyInt z) => Ok (if 0 <? z then PyInt z else PyInt 10)
  | JAtom (PyBool b) => Ok (if b then PyBool true else PyInt 10)
  | JAtom (PyFloat (F_fin neg m e)) =>
      Ok (if negb neg && (0 <? m) then PyFloat (F_fin neg m e) else PyInt 10)
  | JAtom (PyFloat F_nan) => Ok (PyInt 10)
  | JAtom (PyFloat (F_inf neg)) => if neg then Ok (PyInt 10) else Raise OverflowError
  | _ => Raise TypeError
  end.

(** The body of the [429/423] branch up to the sleep:
    [parsed_response.get("metadata", {}).get("wait", 10)].  A body that is
    not JSON is handled by the inner [except] (sleep 10); an
    [AttributeError] or [TypeError] is not. *)
Definition rate_limit_wait (r : response) : result pyval :=
  match json_of r with
  | None => Ok (PyInt 10)
  | Some (JDict d) =>
      match dict_get "metadata" d with
      | None => Ok (PyInt 10)
      | Some (JDict md) =>
          match dict_get "wait" md with
          | None => Ok (PyInt 10)
          | Some w => rate_limit_sleep w
          end
      | Some _ => Raise AttributeError
      end
  | Some _ => Raise AttributeError
  end.

(** [retry_request].  The function calls itself in the [429/423] branch;
    [fuel] is the recursion depth explored, the source carries no attempt
    counter.  Every exception is caught by the handlers at the end of the
    function, which return [None]. *)
Fixpoint retry_request (fuel : nat) (net : transport) (n : nat) (method : string)
  : outcome * list event :=
  match fuel with
  | O => (Unfinished, [])
  | S fuel' =>
      if negb (supported_method method) then (Returned JNone, [LogUnexpected])
      else
        match net n with
        | RequestFailed => (Returned JNone, [Request n; LogRequestException])
        | OtherFailure => (Returned JNone, [Request n; LogUnexpected])
        | Answered r =>
            if (status_code r =? 200) || (status_code r =? 201) then
              match json_of r with
              | None => (Returned JNone, [Request n; LogJsonError (text r)])
              | Some data_json =>
                  if is_empty_list data_json
                  then (Returned JNone, [Request n; LogEmptyResponse])
                  else (Returned data_json, [Request n])
              end
            else if (status_code r =? 429) || (status_code r =? 423) then
              match rate_limit_wait r with
              | Ok w =>
                  let '(o, evs) := retry_request fuel' net (S n) method in
                  (o, Request n :: Sleep w :: evs)
              | Raise _ => (Returned JNone, [Request n; LogUnexpected])
              end
            else if status_code r =? 400 then
              (* the [raise Exception("API Error (400): ...")] is caught by
                 the function's own [except Exception] *)
              (Returned JNone, [Request n; LogFailed (status_code r) (text r); LogUnexpected])
            else (Returned JNone, [Request n; LogFailed (status_code r) (text r)])
        end
  end.

(** *** The request cache: table [app_requests_lru_cache] *)

(** The [response TEXT] column: SQL [NULL], or a text, kept as what
    [json.loads] makes of it ([None]: not JSON).  [json.dumps] followed by
    [json.loads] gives back the document. *)
Inductive column : Type :=
| Null
| Text (parsed : option json).

Record cache_row : Type := {
  cached : column;
  timestamp : Z     (* seconds *)
}.

(** The table; [cache_key] is [UNIQUE NOT NULL]. *)
Abbreviation cache_table := (gmap string cache_row).

(** [timestamp > NOW() - INTERVAL '3600 seconds'] *)
Definition fresh (now : Z) (row : cache_row) : bool := now - 3600 <? timestamp row.

(** [delete_from_lru_cache]: [True] when a row was deleted. *)
Definition delete_from_lru_cache (cache_key : string) (t : cache_table) : bool * cache_table :=
  (bool_decide (is_Some (t !! cache_key)), delete cache_key t).

(** [get_from_lru_cache] at time [now]: the value returned and the table
    left behind.  [json.loads(None)] on a [NULL] column raises a
    [TypeError], which the outer handler turns into [None]. *)
Definition get_from_lru_cache (now : Z) (cache_key : string) (t : cache_table)
  : json * cache_table :=
  match t !! cache_key with
  | Some row =>
      if fresh now row then
        match cached row with
        | Null => (JNone, t)
        | Text None => (JNone, snd (delete_from_lru_cache cache_key t))
        | Text (Some parsed_response) =>
            if is_empty_list parsed_response
            then (JNone, snd (delete_from_lru_cache cache_key t))
            else (parsed_response, t)
        end
      else (JNone, t)
  | None => (JNone, t)
  end.

(** [set_in_lru_cache] at time [now]:
    [INSERT ... ON CONFLICT (cache_key) DO NOTHING]. *)
Definition set_in_lru_cache (now : Z) (cache_key : string) (response : json)
    (t : cache_table) : cache_table :=
  let normalized_response :=
    match response with
    | JList [x] => x
    | _ => response
    end in
  match t !! cache_key with
  | Some _ => t
  | None => <[cache_key := {| cached := Text (Some normalized_response); timestamp := now |}]> t
  end.

(** *** [_create_cache_key] *)

(** The result of [normalize_dict]: leaves are strings or [None]. *)
Inductive norm : Type :=
| NNone
| NStr (s : string)
| NList (l : list norm)
| NDict (d : list (string * norm)).

(** Insertion into a list sorted by key. *)
Fixpoint insert_by_key {A : Type} (kv : string * A) (l : list (string * A))
  : list (string * A) :=
  match l with
  | [] => [kv]
  | x :: l' =>
      if String.leb (fst kv) (fst x) then kv :: l else x :: insert_by_key kv l'
  end.

(** [sorted(d.items())]: the keys of a dict are distinct, so the order is
    the order of the keys. *)
Definition sorted_items {A : Type} (d : list (string * A)) : list (string * A) :=
  fold_right insert_by_key [] d.

(** [normalize_dict].  The values are normalised before the items are
    sorted; sorting looks at the keys only, so the result is that of the
    source, which sorts first. *)
Fixpoint normalize_dict (d : json) : norm :=
  match d with
  | JAtom PyNone => NNone
  | JAtom a => NStr (py_str a)
  | JList l => NList (List.map normalize_dict l)
  | JDict items =>
      NDict (sorted_items (List.map (fun kv => (fst kv, normalize_dict (snd kv))) items))
  end.

Fixpoint join (sep : string) (l : list string) : string :=
  match l with
  | [] => ""
  | [x] => x
  | x :: l' => x +:+ sep +:+ join sep l'
  end.

(** [json.dumps(v, sort_keys=True, separators=(',', ':'))] on a normalised
    document. *)
Fixpoint json_dumps_sorted `{PyStdlib} (v : norm) : string :=
  match v with
  | NNone => "null"
  | NStr s => json_encode_string s
  | NList l => "[" +:+ join "," (List.map json_dumps_sorted l) +:+ "]"
  | NDict d =>
      "{" +:+ join "," (List.map snd (sorted_items
             (List.map (fun kv => (fst kv, json_encode_string (fst kv) +:+ ":"
                                             +:+ json_dumps_sorted (snd kv))) d)))
          +:+ "}"
  end.

(** Truth value of a document ([if payload]). *)
Definition json_truthy (j : json) : bool :=
  match j with
  | JAtom a => py_truthy a
  | JList [] | JDict [] => false
  | _ => true
  end.

(** [v[0] if len(v) == 1 else v] *)
Definition flatten_single (v : list string) : json :=
  match v with
  | [x] => JAtom (PyStr x)
  | _ => JList (List.map (fun x => JAtom (PyStr x)) v)
  end.

(** [_create_cache_key(url, params, payload)]; [params] is [None] or a
    dict. *)
Definition _create_cache_key `{PyStdlib} (url : string)
    (params : option (list (string * json))) (payload : json) : string :=
  let url_params := url_query url in
  let all_params :=
    fold_left (fun acc kv => dict_set (fst kv) (flatten_single (snd kv)) acc) url_params [] in
  let all_params :=
    match params with
    | Some (x :: p) => dict_update all_params (x :: p)
    | _ => all_params
    end in
  let normalized_params :=
    match all_params with
    | [] => NDict []
    | _ => normalize_dict (JDict all_params)
    end in
  let normalized_payload :=
    if json_truthy payload then normalize_dict payload else NDict [] in
  let base_url := url_base url in
  let params_json := json_dumps_sorted normalized_params in
  let payload_json := json_dumps_sorted normalized_payload in
  let cache_key_data := base_url +:+ "||" +:+ params_json +:+ "||" +:+ payload_json in
  sha256_hexdigest cache_key_data.

(** *** [retry_request_lru] *)

(** The cache is read at time [t_get] and written at time [t_set]; the
    result is the value returned, the table left behind and the effects of
    the request, if one was made. *)
Definition retry_request_lru `{PyStdlib} (fuel : nat) (net : transport)
    (t_get t_set : Z) (t : cache_table) (url : string) (method : string)
    (payload : json) (params : option (list (string * json)))
  : outcome * cache_table * list event :=
  let cache_key := _create_cache_key url params payload in
  let request (t : cache_table) :=
    let '(result, evs) := retry_request fuel net 0 method in
    match result with
    | Returned v =>
        if negb (is_none v) && String.eqb method "GET" && negb (is_empty_list v)
        then (result, set_in_lru_cache t_set cache_key v t, evs)
        else (result, t, evs)
    | Unfinished => (result, t, evs)
    end in
  if String.eqb method "GET" then
    let '(cached_response, t) := get_from_lru_cache t_get cache_key t in
    match cached_response with
    | JAtom PyNone => request t
    | JList [] => request (snd (delete_from_lru_cache cache_key t))
    | JAtom (PyStr s) =>
        match json_loads s with
        | Some v => (Returned v, t, [])
        | None => request (snd (delete_from_lru_cache cache_key t))
        end
    | _ => (Returned cached_response, t, [])
    end
  else request t.

(** *** Documents that are equal as maps

    Two documents are the same when they agree up to the order in which the
    items of their dicts were inserted, at every depth.  The keys of a dict
    are distinct. *)
Inductive same_json : json -> json -> Prop :=
| same_atom (a : pyval) : same_json (JAtom a) (JAtom a)
| same_list (l1 l2 : list json) :
    Forall2 same_json l1 l2 -> same_json (JList l1) (JList l2)
| same_dict (d1 d2 : list (string * json)) :
    List.NoDup (List.map fst d1) ->
    List.NoDup (List.map fst d2) ->
    (forall k v1, dict_get k d1 = Some v1 ->
                  exists v2, dict_get k d2 = Some v2 /\ same_json v1 v2) ->
    (forall k, dict_get k d1 = None -> dict_get k d2 = None) ->
    same_json (JDict d1) (JDict d2).

(** Size of a document. *)
Fixpoint json_size (j : json) : nat :=
  match j with
  | JAtom _ => 1
  | JList l => S (list_sum (List.map json_size l))
  | JDict d => S (list_sum (List.map (fun kv => json_size (snd kv)) d))
  end.

(** A stand-in for the library functions, to run the definitions on
    examples: the digest is the text itself, a URL has no query string. *)
Definition plain_stdlib : PyStdlib :=
  {| sha256_hexdigest := fun s => s;
     url_base := fun url => url;
     url_query := fun _ => [];
     json_encode_string := fun s => String (ascii_of_nat 34) s +:+ String (ascii_of_nat 34) "";
     json_loads := fun _ => None;
     json_str := fun _ => "" |}.

End Utility.

(** ** The dispatch ledger and the JDE endpoint *)

Module Jde.
Import Py Utility.

(** A row of [ingredient_submitted_status], with the columns the
    dispatchers write.  [PyNone] in a column is SQL [NULL]. *)
Record row : Type := {
  action_id : pyval;
  ingredient_id : pyval;
  lot_id : pyval;
  vessel_id : pyval;
  vessel_code : pyval;
  ingredient_name : pyval;
  addition_unit : pyval;
  status_text : string;
  status : string;
  unique_transaction_id : string
}.

Definition table : Type := list row.

(** [ADD CONSTRAINT unique_ingredient_submission UNIQUE (unique_transaction_id)] *)
Definition unique_constraint (t : table) : Prop :=
  List.NoDup (List.map unique_transaction_id t).

(** [DO UPDATE SET status_text = EXCLUDED.status_text, status = ...] *)
Definition do_update (existing excluded : row) : row :=
  {| action_id := action_id existing;
     ingredient_id := ingredient_id existing;
     lot_id := lot_id existing;
     vessel_id := vessel_id existing;
     vessel_code := vessel_code existing;
     ingredient_name := ingredient_name existing;
     addition_unit := addition_unit existing;
     status_text := status_text excluded;
     status := status excluded;
     unique_transaction_id := unique_transaction_id existing |}.

(** [INSERT INTO ingredient_submitted_status (...) VALUES (...)
     ON CONFLICT (unique_transaction_id) DO UPDATE SET ...] *)
Fixpoint upsert (r : row) (t : table) : table :=
  match t with
  | [] => [r]
  | x :: t' =>
      if String.eqb (unique_transaction_id x) (unique_transaction_id r)
      then do_update x r :: t'
      else x :: upsert r t'
  end.

(** The rows of one identity. *)
Definition rows_of (uid : string) (t : table) : list row :=
  List.filter (fun x => String.eqb (unique_transaction_id x) uid) t.

(** [SELECT status ... WHERE unique_transaction_id = %s] and [fetchone];
    the test that follows is [result and result[0] == 'done']. *)
Definition is_done (uid : string) (t : table) : bool :=
  match rows_of uid t with
  | x :: _ => String.eqb (status x) "done"
  | [] => false
  end.

(** [... WHERE unique_transaction_id = %s AND status = 'done'] *)
Definition is_done_filtered (uid : string) (t : table) : bool :=
  match List.filter (fun x => String.eqb (status x) "done") (rows_of uid t) with
  | _ :: _ => true
  | [] => false
  end.

(** The JSON body posted to [JDE_IA_URL].  [UM] and [LOTN] are sent by
    [jde_helper.py] only. *)
Record jde_payload : Type := {
  Branch_Plant : string;
  Document_Type : string;
  Explanation : string;
  Select_Row : string;
  Item_Number : string;
  Quantity : string;
  UM : option string;
  LOTN : option pyval;
  G_L_Date : string;
  Transaction_Date : string
}.

(** A method of [str] called on a value: [AttributeError] unless the value
    is a string. *)
Definition as_str (v : pyval) : result string :=
  match v with
  | PyStr s => Ok s
  | _ => Raise AttributeError
  end.

(** [convert_unit(unit, direction='to_jde')]: the default of [dict.get] is
    evaluated first, so [unit.lower()] runs on every call. *)
Definition convert_unit (unit : pyval) : result string :=
  try! u := as_str unit in Ok (convert_unit_to_jde u).

(** [v == ""] *)
Definition is_empty_str (v : pyval) : bool :=
  match v with
  | PyStr s => String.eqb s ""
  | _ => false
  end.

Definition is_success (status : Z) : bool := (status =? 200) || (status =? 201).

(** The identity of a transaction:
    [f"{name}_{lot_number}_{vessel_code}_{normalized_quantity}"], as built in
    [parse_bakery_system_json] and in [dispatch_single_batch_to_jde]. *)
Definition unique_transaction_id_for (name lot_number vessel_code quantity : pyval) : string :=
  py_str name +:+ "_" +:+ py_str lot_number +:+ "_" +:+ py_str vessel_code
  +:+ "_" +:+ normalize_quantity_for_transaction_id quantity.

End Jde.

(** ** [backend/dags/dag_bakery_system_to_jde.py] *)

Module Dag.
Import Py Utility Jde.

(** The documents returned by the actions endpoint, with the keys the
    parser reads.  A key that is absent holds the default of the [.get]
    that reads it. *)
Record Ingredient : Type := {
  ing__id : pyval;
  productName : pyval;
  inventoryUnit : pyval;
  additionUnit : pyval;
  additionRateValue : pyval;
  additionRateUnit : pyval
}.

Record batch : Type := {
  batch__id : pyval;
  batchNumber : pyval;
  depleted : pyval
}.

Record ingredient_entry : Type := {
  ingredient : Ingredient;
  batches : list batch
}.

Record vessel_entry : Type := {
  vessel__id : pyval;
  vesselCode : pyval;
  additions : list (string * pyval)
}.

Record lot_entry : Type := {
  lot__id : pyval;
  lotNumber : pyval;
  vessels : list vessel_entry
}.

Record action_entry : Type := {
  actionType : pyval;
  action__id : pyval;
  ingredients : list ingredient_entry;
  lots : list lot_entry
}.

(** An element of [batch_summary]. *)
Record batch_record : Type := {
  b_key : string;
  b_action_id : pyval;
  b_ingredient_id : string;
  b_productName : pyval;
  b_inventoryUnit : pyval;
  b_additionUnit : pyval;
  b_additionRateValue : pyval;
  b_additionRateUnit : pyval;
  b_batch_id : pyval;
  b_batchNumber : pyval;
  b_depleted : pyval
}.

(** The [value] of an element of [flattened_entries]. *)
Record flat_record : Type := {
  f_action_id : pyval;
  f_ingredient_id : string;
  f_ingredient_name : pyval;
  f_addition_unit : pyval;
  f_lot_id : pyval;
  f_lot_number : pyval;
  f_vessel_id : pyval;
  f_vessel_code : pyval;
  f_change_value : pyval;
  f_batches : list batch_record;
  f_unique_transaction_id : string
}.

Record item : Type := {
  key : string;
  value : flat_record
}.

(** [change_value is None or change_value == 0 or
     (isinstance(change_value, str) and change_value.strip() in ['0', '', '0.0'])] *)
Definition skip_quantity (change_value : pyval) : bool :=
  match change_value with
  | PyNone => true
  | PyStr s =>
      let s' := strip s in
      String.eqb s' "0" || String.eqb s' "" || String.eqb s' "0.0"
  | v => py_eq_zero v
  end.

(** Run [f] on the elements in order and concatenate what it appends; the
    first exception ends the loop. *)
Fixpoint collect {A B : Type} (f : A -> result (list B)) (l : list A) : result (list B) :=
  match l with
  | [] => Ok []
  | x :: l' =>
      try! a := f x in
      try! b := collect f l' in
      Ok (a ++ b)%list
  end.

(** The batches of one ingredient entry, appended to [batch_summary]. *)
Definition batch_records (action_id : pyval) (ie : ingredient_entry) : list batch_record :=
  let i := ingredient ie in
  let ingredient_id := py_str (ing__id i) in
  List.map (fun b =>
    {| b_key := "Ingredient:" +:+ ingredient_id +:+ ":batch:" +:+ py_str (batch__id b);
       b_action_id := action_id;
       b_ingredient_id := ingredient_id;
       b_productName := productName i;
       b_inventoryUnit := inventoryUnit i;
       b_additionUnit := additionUnit i;
       b_additionRateValue := additionRateValue i;
       b_additionRateUnit := additionRateUnit i;
       b_batch_id := batch__id b;
       b_batchNumber := batchNumber b;
       b_depleted := depleted b |}) (batches ie).

(** The body of the loop over [additions.items()]. *)
Definition parse_addition (action_id : pyval)
    (ingredient_summary ingredient_units : list (string * pyval))
    (batch_summary : list batch_record) (l : lot_entry) (v : vessel_entry)
    (addition : string * pyval) : result (list item) :=
  let '(ingredient_id, change_value) := addition in
  if skip_quantity change_value then Ok []
  else
    let key := "Ingredient:" +:+ ingredient_id +:+ ":lot:" +:+ py_str (lot__id l)
               +:+ ":vessel:" +:+ py_str (vessel__id v) in
    let batch_summary_entries :=
      List.filter (fun b => startswith (b_key b) ("Ingredient:" +:+ ingredient_id +:+ ":batch:"))
        batch_summary in
    match dict_get ingredient_id ingredient_summary, dict_get ingredient_id ingredient_units with
    | Some name, Some unit =>
        let unique_transaction_id :=
          unique_transaction_id_for name (lotNumber l) (vesselCode v) change_value in
        Ok [ {| key := key;
                value := {| f_action_id := action_id;
                            f_ingredient_id := ingredient_id;
                            f_ingredient_name := name;
                            f_addition_unit := unit;
                            f_lot_id := lot__id l;
                            f_lot_number := lotNumber l;
                            f_vessel_id := vessel__id v;
                            f_vessel_code := vesselCode v;
                            f_change_value := PyFloat (preserve_quantity_precision change_value);
                            f_batches := batch_summary_entries;
                            f_unique_transaction_id := unique_transaction_id |} |} ]
    | _, _ => Raise KeyError
    end.

(** [entry.get("actionType") == "ADDITION"] *)
Definition is_addition (actionType : pyval) : bool :=
  match actionType with
  | PyStr s => String.eqb s "ADDITION"
  | _ => false
  end.

(** The body of the loop over the entries. *)
Definition parse_entry (entry : action_entry) : result (list item) :=
  if is_addition (actionType entry) then
    let action_id := action__id entry in
    let ingredient_summary :=
      fold_left (fun acc ie => dict_set (py_str (ing__id (ingredient ie)))
                                        (productName (ingredient ie)) acc)
                (ingredients entry) [] in
    let ingredient_units :=
      fold_left (fun acc ie => dict_set (py_str (ing__id (ingredient ie)))
                                        (additionUnit (ingredient ie)) acc)
                (ingredients entry) [] in
    let batch_summary := flat_map (batch_records action_id) (ingredients entry) in
    collect (fun l =>
      collect (fun v =>
        collect (parse_addition action_id ingredient_summary ingredient_units
                                batch_summary l v)
                (additions v))
        (vessels l))
      (lots entry)
  else Ok [].

(** [parse_bakery_system_json]: the flattened entries, or the exception
    that leaves the function. *)
Definition parse_bakery_system_json (data : list action_entry) : result (list item) :=
  collect parse_entry data.

(** The same data without the additions whose quantity is skipped. *)
Definition drop_skipped_vessel (v : vessel_entry) : vessel_entry :=
  {| vessel__id := vessel__id v;
     vesselCode := vesselCode v;
     additions := List.filter (fun a => negb (skip_quantity (snd a))) (additions v) |}.

Definition drop_skipped_lot (l : lot_entry) : lot_entry :=
  {| lot__id := lot__id l;
     lotNumber := lotNumber l;
     vessels := List.map drop_skipped_vessel (vessels l) |}.

Definition drop_skipped_entry (e : action_entry) : action_entry :=
  {| actionType := actionType e;
     action__id := action__id e;
     ingredients := ingredients e;
     lots := List.map drop_skipped_lot (lots e) |}.

Definition drop_skipped (data : list action_entry) : list action_entry :=
  List.map drop_skipped_entry data.

(** An element of [resp_arr]. *)
Inductive resp_entry : Type :=
| INFO_processing (it : item)
| ERROR_already_done (uid : string)
| ERROR_required_field_empty (productName : pyval)
| info_posted (p : jde_payload)
| response_json (j : json)
| ERROR_processing (productName : pyval) (r : response)
| api_ERROR.

(** What a run has done so far: the ledger, the payloads posted, the
    result list. *)
Record run : Type := {
  ledger : table;
  sent : list jde_payload;
  resp_arr : list resp_entry
}.

(** The loop goes on, or an exception leaves the function. *)
Inductive flow : Type :=
| Next (r : run)
| Abort (e : exn) (r : run).

(** The surroundings of a run: the network and [datetime.utcnow()] rendered
    as day/month/year. *)
Record env : Type := {
  net : transport;
  today : string
}.

(** [bu_map] and the prefix test. *)
Definition business_unit (productName : string) : string :=
  if startswith productName "B_" then "1110"
  else if startswith productName "P_" then "1130"
  else if startswith productName "M_" then "1120"
  else "1110".

(** The text stored in [status_text], trimmed to 699 characters. *)
Definition response_status_text `{PyStdlib} (r : response) : string :=
  take_chars 699
    match json_of r with
    | Some json_data => if is_none json_data then text r else json_str json_data
    | None => text r
    end.

Definition outcome_row (it : item) (status_text status : string) : row :=
  let v := value it in
  {| action_id := f_action_id v;
     ingredient_id := PyStr (f_ingredient_id v);
     lot_id := f_lot_id v;
     vessel_id := f_vessel_id v;
     vessel_code := f_vessel_code v;
     ingredient_name := f_ingredient_name v;
     addition_unit := f_addition_unit v;
     status_text := status_text;
     status := status;
     unique_transaction_id := f_unique_transaction_id v |}.

Definition append (e : list resp_entry) (r : run) : run :=
  {| ledger := ledger r; sent := sent r; resp_arr := (resp_arr r ++ e)%list |}.

(** The body of the loop of [post_data_to_jde]. *)
Definition process_item `{PyStdlib} (E : env) (r : run) (it : item) : flow :=
  let v := value it in
  let unique_transaction_id := f_unique_transaction_id v in
  let r := append [INFO_processing it] r in
  if is_done unique_transaction_id (ledger r) then
    Next (append [ERROR_already_done unique_transaction_id] r)
  else
    match convert_unit (f_addition_unit v) with
    | Raise e => Abort e r
    | Ok converted_unit =>
        let uom := f_addition_unit v in
        match (try! u := as_str uom in convert_unit_quantity u converted_unit (f_change_value v)) with
        | Raise e => Abort e r
        | Ok _ =>
            let change_value := f_change_value v in
            let productName := f_ingredient_name v in
            if py_eq_zero change_value || is_empty_str uom || is_empty_str productName then
              Next (append [ERROR_required_field_empty productName] r)
            else
              match as_str productName with
              | Raise e => Abort e r
              | Ok name =>
                  let sample_payload_for_jde :=
                    {| Branch_Plant := business_unit name;
                       Document_Type := "II";
                       Explanation := "BAKERYOPS. DEPL: " +:+ f_ingredient_id v +:+ ":"
                                      +:+ py_str (f_action_id v);
                       Select_Row := "1";
                       Item_Number := name;
                       Quantity := py_str change_value;
                       UM := None;
                       LOTN := None;
                       G_L_Date := today E;
                       Transaction_Date := today E |} in
                  let n := List.length (sent r) in
                  let r := {| ledger := ledger r;
                              sent := (sent r ++ [sample_payload_for_jde])%list;
                              resp_arr := resp_arr r |} in
                  match net E n with
                  | RequestFailed => Abort RequestException r
                  | OtherFailure => Abort OtherException r
                  | Answered response =>
                      let status_text := response_status_text response in
                      if is_success (status_code response) then
                        let r := {| ledger := upsert (outcome_row it status_text "done") (ledger r);
                                    sent := sent r;
                                    resp_arr := resp_arr r |} in
                        let r := append [info_posted sample_payload_for_jde] r in
                        match json_of response with
                        | Some j => Next (append [response_json j] r)
                        | None => Abort ValueError r
                        end
                      else
                        let r := {| ledger := upsert (outcome_row it status_text "error") (ledger r);
                                    sent := sent r;
                                    resp_arr := resp_arr r |} in
                        Next (append [ERROR_processing productName response; api_ERROR] r)
                  end
              end
        end
    end.

Fixpoint post_loop `{PyStdlib} (E : env) (items : list item) (r : run) : flow :=
  match items with
  | [] => Next r
  | it :: rest =>
      match process_item E r it with
      | Next r' => post_loop E rest r'
      | Abort e r' => Abort e r'
      end
  end.

(** [post_data_to_jde(data)] on a ledger [t]. *)
Definition post_data_to_jde `{PyStdlib} (E : env) (items : list item) (t : table) : flow :=
  post_loop E items {| ledger := t; sent := []; resp_arr := [] |}.

(** The tasks [parse_bakery_system_data] and [post_to_jde] in sequence. *)
Definition pipeline `{PyStdlib} (E : env) (data : list action_entry) (t : table) : result flow :=
  try! items := parse_bakery_system_json data in Ok (post_data_to_jde E items t).

End Dag.

(** ** [backend/jde_helper.py] *)

Module JdeHelper.
Import Py Utility Jde.

(** The [batch_data] dict.  The six required keys are read with [.get] and
    must be truthy, so an absent one is [PyNone]; for the others [None] is
    an absent key. *)
Record batch_data : Type := {
  bd_action_id : pyval;
  bd_ingredient_id : pyval;
  bd_ingredient_name : pyval;
  bd_batch_id : pyval;
  bd_quantity : pyval;
  bd_unit : pyval;
  bd_batch_number : option pyval;
  bd_lot_number : option pyval;
  bd_vessel_code : option pyval
}.

(** The dict returned to the caller. *)
Inductive dispatch_result : Type :=
| MissingRequiredFields (fields : list string)
| ZeroOrNullQuantity
| AlreadyDispatched (uid : string)
| UnableToConvertUnit
| UnableToDetermineLotNumber
| CredentialsNotConfigured
| Dispatched (uid : string) (status_text : string) (p : jde_payload)
| JdeApiError (status : Z) (status_text : string) (p : jde_payload)
| DatabaseOrNetworkError (e : exn).

(** The ["success"] key. *)
Definition success (r : dispatch_result) : bool :=
  match r with
  | Dispatched _ _ _ => true
  | _ => false
  end.

Record env : Type := {
  net : transport;
  today : string;
  credentials_configured : bool    (* [all([url, username, password])] *)
}.

(** [d.get(k, '')] *)
Definition get_or_empty (v : option pyval) : pyval :=
  match v with
  | Some x => x
  | None => PyStr ""
  end.

Definition missing_fields (b : batch_data) : list string :=
  List.map fst
    (List.filter (fun kv => negb (py_truthy (snd kv)))
       [("action_id", bd_action_id b); ("ingredient_id", bd_ingredient_id b);
        ("ingredient_name", bd_ingredient_name b); ("batch_id", bd_batch_id b);
        ("quantity", bd_quantity b); ("unit", bd_unit b)]).

(** [quantity is None or quantity == 0 or
     (isinstance(quantity, str) and quantity.strip() in ['0', '', '0.0'])] *)
Definition zero_or_null (quantity : pyval) : bool :=
  match quantity with
  | PyNone => true
  | PyStr s =>
      let s' := strip s in
      String.eqb s' "0" || String.eqb s' "" || String.eqb s' "0.0"
  | v => py_eq_zero v
  end.

(** The loop over [bu_map.items()] with its [break]. *)
Definition business_unit (product_name : string) : string :=
  if startswith product_name "B_" then "1110"
  else if startswith product_name "P_" then "1130"
  else if startswith product_name "M_" then "1120"
  else "1110".

(** [str(json_data)[:699]], or the text when the body is not JSON. *)
Definition response_status_text `{PyStdlib} (r : response) : string :=
  take_chars 699
    match json_of r with
    | Some json_data => json_str json_data
    | None => text r
    end.

(** The lot number sent as [LOTN]: [lot_number], or [batch_number] without
    its first ["{product_name}_"]; [None] when neither gives one. *)
Definition lot_number_of (b : batch_data) (product_name : string) : result (option pyval) :=
  let batch_number := get_or_empty (bd_batch_number b) in
  let lot_number := get_or_empty (bd_lot_number b) in
  try! lot_number :=
    (if negb (py_truthy lot_number) && py_truthy batch_number then
       try! bn := as_str batch_number in
       Ok (PyStr (replace_first (product_name +:+ "_") "" bn))
     else Ok lot_number) in
  Ok (if py_truthy lot_number then Some lot_number else None).

(** The statements of the [try] block up to the request: the payload, or
    the dict returned early, or the exception raised. *)
Definition prepare (E : env) (b : batch_data) : result (dispatch_result + jde_payload) :=
  try! converted_unit := convert_unit (bd_unit b) in
  if String.eqb converted_unit "" then Ok (inl UnableToConvertUnit) else
  try! product_name := as_str (bd_ingredient_name b) in
  try! lot_number := lot_number_of b product_name in
  match lot_number with
  | None => Ok (inl UnableToDetermineLotNumber)
  | Some lot_number =>
      if negb (credentials_configured E) then Ok (inl CredentialsNotConfigured) else
      Ok (inr {| Branch_Plant := business_unit product_name;
                 Document_Type := "II";
                 Explanation := "BAKERYOPS. DEPL: " +:+ py_str (bd_ingredient_id b) +:+ ":"
                                +:+ py_str (bd_action_id b);
                 Select_Row := "1";
                 Item_Number := product_name;
                 Quantity := py_str (bd_quantity b);
                 UM := Some converted_unit;
                 LOTN := Some lot_number;
                 G_L_Date := today E;
                 Transaction_Date := today E |})
  end.

(** [dispatch_single_batch_to_jde(batch_data)] on a ledger [t]: the dict
    returned, the ledger left behind and the payloads posted. *)
Definition dispatch_single_batch_to_jde `{PyStdlib} (E : env) (b : batch_data) (t : table)
  : dispatch_result * table * list jde_payload :=
  match missing_fields b with
  | _ :: _ => (MissingRequiredFields (missing_fields b), t, [])
  | [] =>
      if zero_or_null (bd_quantity b) then (ZeroOrNullQuantity, t, [])
      else
        let unique_transaction_id :=
          unique_transaction_id_for (bd_ingredient_name b) (get_or_empty (bd_lot_number b))
            (get_or_empty (bd_vessel_code b)) (bd_quantity b) in
        if is_done_filtered unique_transaction_id t then
          (AlreadyDispatched unique_transaction_id, t, [])
        else
          match prepare E b with
          | Raise e => (DatabaseOrNetworkError e, t, [])
          | Ok (inl early) => (early, t, [])
          | Ok (inr jde_payload) =>
              match net E 0%nat with
              | RequestFailed => (DatabaseOrNetworkError RequestException, t, [jde_payload])
              | OtherFailure => (DatabaseOrNetworkError OtherException, t, [jde_payload])
              | Answered response =>
                  let status_text := response_status_text response in
                  if is_success (status_code response) then
                    (Dispatched unique_transaction_id status_text jde_payload,
                     upsert {| action_id := bd_action_id b;
                               ingredient_id := bd_ingredient_id b;
                               lot_id := bd_batch_id b;
                               vessel_id := PyNone;
                               vessel_code := get_or_empty (bd_vessel_code b);
                               ingredient_name := bd_ingredient_name b;
                               addition_unit := bd_unit b;
                               status_text := status_text;
                               status := "done";
                               unique_transaction_id := unique_transaction_id |} t,
                     [jde_payload])
                  else
                    (JdeApiError (status_code response) status_text jde_payload, t, [jde_payload])
              end
          end
  end.

End JdeHelper.

(** ** Notions used in the statements, and sample data *)

Module Notions.
Import Py Utility Jde.

(** A ledger row for the identity of the scenario, with a given status. *)
Definition sample_row (st txt : string) : row :=
  {| action_id := PyStr "a1"; ingredient_id := PyStr "i1"; lot_id := PyStr "l1";
     vessel_id := PyStr "v1"; vessel_code := PyStr "V1"; ingredient_name := PyStr "Flour";
     addition_unit := PyStr "kg"; status_text := txt; status := st;
     unique_transaction_id := "Flour_LOT1_V1_5" |}.

(** A rate-limit answer without wait hint: the body is not JSON, or it is
    a JSON object without [metadata]. *)
Definition rate_limited (status : Z) (body : string) (is_object : bool) : response :=
  {| status_code := status;
     text := body;
     json_of := if is_object then Some (JDict []) else None |}.

(** An answer that refuses the request. *)
Definition refused (status : Z) (body : string) : response :=
  {| status_code := status; text := body; json_of := None |}.

(** A successful answer carrying [data]. *)
Definition ok_response (data : json) : response :=
  {| status_code := 200; text := ""; json_of := Some data |}.

(** A rate limit, then the empty list. *)
Definition limited_then_empty : transport :=
  fun n => match n with
           | O => Answered {| status_code := 429; text := ""; json_of := None |}
           | S _ => Answered {| status_code := 200; text := "[]"; json_of := Some (JList []) |}
           end.

(** The order of the keys of a dict. *)
Definition key_lt (a b : string) : Prop := String.compare a b = Lt.

Definition keys {A : Type} (d : list (string * A)) : list string := List.map fst d.

Definition sorted_by_key {A : Type} (l : list (string * A)) : Prop :=
  StronglySorted (fun x y => key_lt (fst x) (fst y)) l.

(** The same two parameters, inserted in either order. *)
Definition ab : list (string * json) := [("a", JAtom (PyInt 1)); ("b", JAtom (PyInt 2))].
Definition ba : list (string * json) := [("b", JAtom (PyInt 2)); ("a", JAtom (PyInt 1))].

(** The float written as the decimal literal [s]. *)
Definition float_literal (s : string) : float64 :=
  match float_of_string s with
  | Some f => f
  | None => F_nan
  end.

Definition normalized (q : pyval) : string := normalize_quantity_for_transaction_id q.

(** The state a step leaves behind, whether or not an exception ended it. *)
Definition run_of (f : Dag.flow) : Dag.run :=
  match f with
  | Dag.Next r => r
  | Dag.Abort _ r => r
  end.

(** The identity under which a batch is recorded. *)
Definition batch_identity (b : JdeHelper.batch_data) : string :=
  unique_transaction_id_for (JdeHelper.bd_ingredient_name b)
    (JdeHelper.get_or_empty (JdeHelper.bd_lot_number b))
    (JdeHelper.get_or_empty (JdeHelper.bd_vessel_code b)) (JdeHelper.bd_quantity b).

(** A destination that answers every request alike, and a run on it. *)
Definition today_ : string := "03/11/2026".

Definition flour_batch (quantity : pyval) : JdeHelper.batch_data :=
  {| JdeHelper.bd_action_id := PyStr "a1";
     JdeHelper.bd_ingredient_id := PyStr "i1";
     JdeHelper.bd_ingredient_name := PyStr "Flour";
     JdeHelper.bd_batch_id := PyStr "b1";
     JdeHelper.bd_quantity := quantity;
     JdeHelper.bd_unit := PyStr "kg";
     JdeHelper.bd_batch_number := Some (PyStr "Flour_LOT1");
     JdeHelper.bd_lot_number := Some (PyStr "LOT1");
     JdeHelper.bd_vessel_code := Some (PyStr "V1") |}.

Definition answers (status : Z) (body : string) : transport :=
  fun _ => Answered {| status_code := status; text := body; json_of := None |}.

Definition helper_env (status : Z) : JdeHelper.env :=
  {| JdeHelper.net := answers status "Internal Server Error";
     JdeHelper.today := today_;
     JdeHelper.credentials_configured := true |}.

Definition dag_env (status : Z) : Dag.env :=
  {| Dag.net := answers status "Internal Server Error"; Dag.today := today_ |}.

Definition flour_item : Dag.item :=
  {| Dag.key := "Ingredient:i1:lot:l1:vessel:v1";
     Dag.value :=
       {| Dag.f_action_id := PyStr "a1";
          Dag.f_ingredient_id := "i1";
          Dag.f_ingredient_name := PyStr "Flour";
          Dag.f_addition_unit := PyStr "kg";
          Dag.f_lot_id := PyStr "l1";
          Dag.f_lot_number := PyStr "LOT1";
          Dag.f_vessel_id := PyStr "v1";
          Dag.f_vessel_code := PyStr "V1";
          Dag.f_change_value := PyFloat (float_of_ratio false 5 1);
          Dag.f_batches := [];
          Dag.f_unique_transaction_id := "Flour_LOT1_V1_5" |} |}.

(** A destination that accepts every payload. *)
Definition accepting_env : Dag.env :=
  {| Dag.net := fun _ => Answered {| status_code := 200; text := "{}";
                                    json_of := Some (JDict []) |};
     Dag.today := today_ |}.

Definition fresh_run : Dag.run := {| Dag.ledger := []; Dag.sent := []; Dag.resp_arr := [] |}.

(** The quantities that are not to be dispatched. *)
Definition blank_quantities : list pyval :=
  [PyInt 0; PyFloat float_zero; PyStr "0"; PyStr "0.0"; PyStr ""; PyNone].

Definition vessel_with (quantity : pyval) : Dag.vessel_entry :=
  {| Dag.vessel__id := PyStr "v1"; Dag.vesselCode := PyStr "V1";
     Dag.additions := [("i1", quantity)] |}.

Definition addition_of (quantity : pyval) : Dag.action_entry :=
  {| Dag.actionType := PyStr "ADDITION";
     Dag.action__id := PyStr "a1";
     Dag.ingredients :=
       [ {| Dag.ingredient :=
              {| Dag.ing__id := PyStr "i1"; Dag.productName := PyStr "Flour";
                 Dag.inventoryUnit := PyStr "kg"; Dag.additionUnit := PyStr "kg";
                 Dag.additionRateValue := PyNone; Dag.additionRateUnit := PyNone |};
            Dag.batches := [] |} ];
     Dag.lots :=
       [ {| Dag.lot__id := PyStr "l1"; Dag.lotNumber := PyStr "LOT1";
            Dag.vessels := [vessel_with quantity] |} ] |}.

End Notions.

(** ** [backend/utility.py]: units, cache invalidation, response access *)

Module UtilityMore.
Import Py Utility.

(** [convert_unit(unit, direction='from_jde')] for a [str]:
    [unit_map.get(unit.upper(), unit.lower())]. *)
Definition convert_unit_from_jde (unit : string) : string :=
  match dict_get (uppercase unit) unit_map with
  | Some u => u
  | None => lowercase unit
  end.

(** [validate_unit(unit_value)]: [None] for a falsy value or a unit whose
    upper-case form is a key of [unit_map], [ValueError] otherwise. *)
Definition validate_unit (unit_value : pyval) : result unit :=
  if negb (py_truthy unit_value) then Ok tt
  else if is_jde (uppercase (py_str unit_value)) then Ok tt
  else Raise ValueError.

(** [invalidate_lru_cache(url, headers, method, payload, params)]: the
    table left behind.  The key does not look at the method or at the
    headers. *)
Definition invalidate_lru_cache `{PyStdlib} (url : string)
    (params : option (list (string * json))) (payload : json) (t : cache_table)
  : cache_table :=
  snd (delete_from_lru_cache (_create_cache_key url params payload) t).

(** [safe_get_from_response(response_data, index)] for an index that is
    not negative. *)
Definition safe_get_from_response (response_data : json) (index : nat) : json :=
  match response_data with
  | JList l =>
      match nth_error l index with
      | Some x => x
      | None => JNone
      end
  | _ => response_data
  end.

End UtilityMore.

(** ** [backend/dags/dag_bakery_system_to_jde.py]: the tasks around the parser *)

Module DagTasks.
Import Py Utility.

(** What a task of the DAG does: it returns a value, raises
    [AirflowSkipException], or is still waiting on the client. *)
Inductive task_outcome (A : Type) : Type :=
| TaskReturns (a : A)
| AirflowSkipException
| TaskUnfinished.

Arguments TaskReturns {A} a.
Arguments AirflowSkipException {A}.
Arguments TaskUnfinished {A}.

(** The value bound to [data] in [fetch_bakery_system_task]: the list it
    starts with, or the [str] returned by [fetch_from_bakery_system_api]. *)
Inductive fetched : Type :=
| AsList (l : list json)
| AsStr (s : string).

(** [isinstance(data, list)] *)
Definition isinstance_list (data : fetched) : bool :=
  match data with
  | AsList _ => true
  | AsStr _ => false
  end.

(** Truth value of [data]. *)
Definition fetched_truthy (data : fetched) : bool :=
  match data with
  | AsList l => match l with [] => false | _ => true end
  | AsStr s => negb (String.eqb s "")
  end.

Section Tasks.
(** [json.dumps] *)
Variable json_dumps : json -> string.

(** [fetch_from_bakery_system_api]: the JSON text of the list received, or
    the [ValueError] raised when the client did not return a list; [None]
    while the client has not returned. *)
Definition fetch_from_bakery_system_api (fuel : nat) (net : transport)
  : option (result string) * list event :=
  let '(data, evs) := retry_request fuel net 0 "GET" in
  match data with
  | Unfinished => (None, evs)
  | Returned (JList l) => (Some (Ok (json_dumps (JList l))), evs)
  | Returned _ => (Some (Raise ValueError), evs)
  end.

(** [fetch_bakery_system_task] *)
Definition fetch_bakery_system_task (fuel : nat) (net : transport)
  : task_outcome fetched * list event :=
  let '(r, evs) := fetch_from_bakery_system_api fuel net in
  match r with
  | None => (TaskUnfinished, evs)
  | Some (Raise _) => (AirflowSkipException, evs)
  | Some (Ok s) =>
      let data := AsStr s in
      if negb (isinstance_list data) || negb (fetched_truthy data)
      then (AirflowSkipException, evs)
      else (TaskReturns data, evs)
  end.

End Tasks.

(** [s.split("_")[0]] *)
Fixpoint before_underscore (s : string) : string :=
  match s with
  | EmptyString => EmptyString
  | String c s' => if Ascii.eqb c "_"%char then EmptyString else String c (before_underscore s')
  end.

(** The loop of [post_backup_data_to_stical_api]: the URL and the item of
    every request made, in order.  An exception of a request is printed and
    the loop goes on. *)
Fixpoint stical_loop {A : Type} (url : string) (idx : nat) (items : list A)
  : list (string * A) :=
  match items with
  | [] => []
  | item :: rest =>
      let url := before_underscore url +:+ "_" +:+ string_of_Z (Z.of_nat idx) in
      (url, item) :: stical_loop url (S idx) rest
  end.

(** [post_backup_data_to_stical_api(data)] for [STICAL_TARGET_API =
    stical_target_api]. *)
Definition post_backup_data_to_stical_api {A : Type} (stical_target_api : string)
    (items : list A) : list (string * A) :=
  stical_loop (stical_target_api +:+ "/bakeryopsnb_") 0 items.

End DagTasks.

(** ** [backend/jde_helper.py]: preview, prepared dispatch, product lookup *)

Module JdeHelperMore.
Import Py Utility Jde JdeHelper.

(** The dict returned by [prepare_jde_payload]. *)
Inductive preview : Type :=
| PreviewMissingRequiredFields (fields : list string)
| PreviewZeroOrNullQuantity
| PreviewAlreadyDispatched (uid : string)
| PreviewError (e : exn)
| Preview (p : jde_payload).

(** The statements of the [try] block of [prepare_jde_payload]. *)
Definition preview_payload (today : string) (b : batch_data) : result jde_payload :=
  try! unit := as_str (bd_unit b) in
  let converted_unit := convert_unit_to_jde unit in
  let converted_unit := if String.eqb converted_unit "" then unit else converted_unit in
  try! product_name := as_str (bd_ingredient_name b) in
  let batch_number := get_or_empty (bd_batch_number b) in
  let lot_number := get_or_empty (bd_lot_number b) in
  try! lot_number :=
    (if negb (py_truthy lot_number) && py_truthy batch_number then
       try! bn := as_str batch_number in
       Ok (PyStr (replace_first (product_name +:+ "_") "" bn))
     else Ok lot_number) in
  let lot_number := if negb (py_truthy lot_number) then bd_batch_id b else lot_number in
  Ok {| Branch_Plant := JdeHelper.business_unit product_name;
        Document_Type := "II";
        Explanation := "BAKERYOPS. DEPL: " +:+ py_str (bd_ingredient_id b) +:+ ":"
                       +:+ py_str (bd_action_id b);
        Select_Row := "1";
        Item_Number := product_name;
        Quantity := py_str (bd_quantity b);
        UM := Some converted_unit;
        LOTN := Some lot_number;
        G_L_Date := today;
        Transaction_Date := today |}.

(** [prepare_jde_payload(batch_data)] on a ledger [t]; nothing is written
    and nothing is sent. *)
Definition prepare_jde_payload (today : string) (b : batch_data) (t : table) : preview :=
  match missing_fields b with
  | _ :: _ => PreviewMissingRequiredFields (missing_fields b)
  | [] =>
      if zero_or_null (bd_quantity b) then PreviewZeroOrNullQuantity
      else
        let unique_transaction_id :=
          unique_transaction_id_for (bd_ingredient_name b) (get_or_empty (bd_lot_number b))
            (get_or_empty (bd_vessel_code b)) (bd_quantity b) in
        if is_done_filtered unique_transaction_id t then
          PreviewAlreadyDispatched unique_transaction_id
        else
          match preview_payload today b with
          | Ok p => Preview p
          | Raise e => PreviewError e
          end
  end.

(** The [batch_data] dict as [dispatch_prepared_payload_to_jde] reads it:
    no key is checked beforehand, so [None] is an absent key throughout. *)
Record prepared_batch : Type := {
  pb_action_id : option pyval;
  pb_ingredient_id : option pyval;
  pb_ingredient_name : option pyval;
  pb_batch_id : option pyval;
  pb_quantity : option pyval;
  pb_unit : option pyval;
  pb_lot_number : option pyval;
  pb_vessel_code : option pyval
}.

(** [d[k]] *)
Definition item_of (v : option pyval) : result pyval :=
  match v with
  | Some x => Ok x
  | None => Raise KeyError
  end.

(** The dict returned by [dispatch_prepared_payload_to_jde]. *)
Inductive prepared_result : Type :=
| PreparedCredentialsNotConfigured
| PreparedAlreadyDispatched (uid : string)
| PreparedDispatched (uid : string) (status_text : string) (payload : json)
| PreparedJdeApiError (status : Z) (status_text : string) (payload : json)
| PreparedNetworkOrDatabaseError (e : exn).

Definition prepared_success (r : prepared_result) : bool :=
  match r with
  | PreparedDispatched _ _ _ => true
  | _ => false
  end.

(** The identity computed from [batch_data]. *)
Definition prepared_identity (b : prepared_batch) : result string :=
  try! quantity := item_of (pb_quantity b) in
  try! name := item_of (pb_ingredient_name b) in
  Ok (unique_transaction_id_for name (get_or_empty (pb_lot_number b))
        (get_or_empty (pb_vessel_code b)) quantity).

(** The row written after a successful post. *)
Definition prepared_row (b : prepared_batch) (status_text uid : string) : result row :=
  try! action_id := item_of (pb_action_id b) in
  try! ingredient_id := item_of (pb_ingredient_id b) in
  try! batch_id := item_of (pb_batch_id b) in
  Ok {| action_id := action_id;
        ingredient_id := ingredient_id;
        lot_id := batch_id;
        vessel_id := PyNone;
        vessel_code := get_or_empty (pb_vessel_code b);
        ingredient_name := get_or_empty (pb_ingredient_name b);
        addition_unit := get_or_empty (pb_unit b);
        status_text := status_text;
        status := "done";
        unique_transaction_id := uid |}.

(** [dispatch_prepared_payload_to_jde(jde_payload, batch_data)] on a ledger
    [t]: the dict returned, the ledger left behind and the payloads
    posted. *)
Definition dispatch_prepared_payload_to_jde `{PyStdlib} (E : env) (jde_payload : json)
    (b : prepared_batch) (t : table) : prepared_result * table * list json :=
  if negb (credentials_configured E) then (PreparedCredentialsNotConfigured, t, [])
  else
    match prepared_identity b with
    | Raise e => (PreparedNetworkOrDatabaseError e, t, [])
    | Ok unique_transaction_id =>
        if is_done_filtered unique_transaction_id t then
          (PreparedAlreadyDispatched unique_transaction_id, t, [])
        else
          match net E 0%nat with
          | RequestFailed => (PreparedNetworkOrDatabaseError RequestException, t, [jde_payload])
          | OtherFailure => (PreparedNetworkOrDatabaseError OtherException, t, [jde_payload])
          | Answered response =>
              let status_text := JdeHelper.response_status_text response in
              if is_success (status_code response) then
                match prepared_row b status_text unique_transaction_id with
                | Raise e => (PreparedNetworkOrDatabaseError e, t, [jde_payload])
                | Ok r =>
                    (PreparedDispatched unique_transaction_id status_text jde_payload,
                     upsert r t, [jde_payload])
                end
              else
                (PreparedJdeApiError (status_code response) status_text jde_payload, t,
                 [jde_payload])
          end
    end.

(** The batch data of [dispatch_single_batch_to_jde] read as the dict
    above: every required key is present. *)
Definition as_prepared (b : batch_data) : prepared_batch :=
  {| pb_action_id := Some (bd_action_id b);
     pb_ingredient_id := Some (bd_ingredient_id b);
     pb_ingredient_name := Some (bd_ingredient_name b);
     pb_batch_id := Some (bd_batch_id b);
     pb_quantity := Some (bd_quantity b);
     pb_unit := Some (bd_unit b);
     pb_lot_number := bd_lot_number b;
     pb_vessel_code := bd_vessel_code b |}.

(** The part of [fetch_existing_ingredient] that follows the request: the
    product chosen from what [retry_request_lru] returned, [None] when an
    exception is caught or the names differ. *)
Definition select_ingredient `{PyStdlib} (data_json : json) (product_name : string) : json :=
  let ingredient_product : option json :=
    match data_json with
    | JList (x :: _) => Some x
    | JList [] => None
    | JAtom (PyStr s) => json_loads s
    | _ => Some data_json
    end in
  match ingredient_product with
  | Some (JDict d) =>
      match dict_get "name" d with
      | Some (JAtom (PyStr name)) =>
          if String.eqb (lowercase name) (lowercase product_name) then JDict d else JNone
      | _ => JNone
      end
  | _ => JNone
  end.

(** The query parameters of [fetch_existing_ingredient]. *)
Definition ingredient_params (product_name : string) : list (string * json) :=
  [("archived", JAtom (PyBool false)); ("includeAccess", JAtom (PyBool true));
   ("includeBatches", JAtom (PyBool true)); ("includeNotes", JAtom (PyBool true));
   ("offset", JAtom (PyInt 0)); ("productCategory", JAtom (PyStr "Ingredient"));
   ("size", JAtom (PyInt 200)); ("sort", JAtom (PyStr "productName:1"));
   ("q", JAtom (PyStr product_name))].

(** [fetch_existing_ingredient(product_name)] against the products
    endpoint [url]: the product, the cache left behind and the requests
    made.  While the client has not returned there is no product. *)
Definition fetch_existing_ingredient `{PyStdlib} (fuel : nat) (net : transport)
    (t_get t_set : Z) (t : cache_table) (url : string) (product_name : string)
  : option json * cache_table * list event :=
  let '(data_json, t, evs) :=
    retry_request_lru fuel net t_get t_set t url "GET" JNone
      (Some (ingredient_params product_name)) in
  match data_json with
  | Returned v => (Some (select_ingredient v product_name), t, evs)
  | Unfinished => (None, t, evs)
  end.

End JdeHelperMore.

(** ** Further notions used in the statements *)

Module MoreNotions.
Import Py Utility Jde.

(** A document with every leaf other than [None] replaced by its [str]. *)
Fixpoint stringify (j : json) : json :=
  match j with
  | JAtom PyNone => JAtom PyNone
  | JAtom a => JAtom (PyStr (py_str a))
  | JList l => JList (List.map stringify l)
  | JDict d => JDict (List.map (fun kv => (fst kv, stringify (snd kv))) d)
  end.

Definition stringify_items (d : list (string * json)) : list (string * json) :=
  List.map (fun kv => (fst kv, stringify (snd kv))) d.

(** Every [status_text] fits the column [VARCHAR(700)]. *)
Definition status_text_fits (t : table) : Prop :=
  Forall (fun x => (String.length (status_text x) <= 699)%nat) t.

(** A value that is a JSON number. *)
Definition is_number (j : json) : bool :=
  match j with
  | JAtom (PyInt _) | JAtom (PyFloat _) | JAtom (PyBool _) => true
  | _ => false
  end.

(** A rate-limit body that is JSON but carries no usable hint: it is not an
    object, or its [metadata] is not an object, or the [wait] found there is
    not a number. *)
Definition malformed_hint (j : json) : bool :=
  match j with
  | JDict d =>
      match dict_get "metadata" d with
      | None => false
      | Some (JDict md) =>
          match dict_get "wait" md with
          | None => false
          | Some w => negb (is_number w)
          end
      | Some _ => true
      end
  | _ => true
  end.


(** An item for which [post_data_to_jde] posts nothing whatever the ledger
    holds: its unit converts and a required field is empty. *)
Definition quiet (it : Dag.item) : bool :=
  let v := Dag.value it in
  match convert_unit (Dag.f_addition_unit v) with
  | Raise _ => false
  | Ok converted_unit =>
      match (try! u := as_str (Dag.f_addition_unit v) in
             convert_unit_quantity u converted_unit (Dag.f_change_value v)) with
      | Raise _ => false
      | Ok _ =>
          py_eq_zero (Dag.f_change_value v) || is_empty_str (Dag.f_addition_unit v)
          || is_empty_str (Dag.f_ingredient_name v)
      end
  end.

(** An item for which [post_data_to_jde] posts a payload unless the ledger
    holds it as done: its unit converts, no required field is empty and its
    name is a string. *)
Definition loud (it : Dag.item) : bool :=
  let v := Dag.value it in
  match convert_unit (Dag.f_addition_unit v) with
  | Raise _ => false
  | Ok converted_unit =>
      match (try! u := as_str (Dag.f_addition_unit v) in
             convert_unit_quantity u converted_unit (Dag.f_change_value v)) with
      | Raise _ => false
      | Ok _ =>
          negb (py_eq_zero (Dag.f_change_value v) || is_empty_str (Dag.f_addition_unit v)
                || is_empty_str (Dag.f_ingredient_name v))
          && match as_str (Dag.f_ingredient_name v) with
             | Ok _ => true
             | Raise _ => false
             end
      end
  end.

(** A place in the data where an addition stands: the entry, the lot, the
    vessel and the addition itself. *)
Definition site : Type :=
  (Dag.action_entry * Dag.lot_entry * Dag.vessel_entry * (string * pyval))%type.

(** The additions of the [ADDITION] entries whose quantity is not skipped,
    in the order of the document. *)
Definition addition_sites (data : list Dag.action_entry) : list site :=
  flat_map (fun e =>
    if Dag.is_addition (Dag.actionType e) then
      flat_map (fun l =>
        flat_map (fun v =>
          List.map (fun a => (e, l, v, a))
            (List.filter (fun a => negb (Dag.skip_quantity (snd a))) (Dag.additions v)))
          (Dag.vessels l))
        (Dag.lots e)
    else []) data.

(** The ingredient ids an entry declares. *)
Definition declared_ids (e : Dag.action_entry) : list string :=
  List.map (fun ie => py_str (Dag.ing__id (Dag.ingredient ie))) (Dag.ingredients e).

(** The item carries what stands at the site. *)
Definition item_of_site (it : Dag.item) (s : site) : Prop :=
  let '(e, l, v, (ingredient_id, quantity)) := s in
  let f := Dag.value it in
  Dag.key it = "Ingredient:" +:+ ingredient_id +:+ ":lot:" +:+ py_str (Dag.lot__id l)
               +:+ ":vessel:" +:+ py_str (Dag.vessel__id v) /\
  Dag.f_action_id f = Dag.action__id e /\
  Dag.f_ingredient_id f = ingredient_id /\
  dict_get ingredient_id
    (List.map (fun ie => (py_str (Dag.ing__id (Dag.ingredient ie)),
                          Dag.productName (Dag.ingredient ie)))
              (List.rev (Dag.ingredients e))) = Some (Dag.f_ingredient_name f) /\
  dict_get ingredient_id
    (List.map (fun ie => (py_str (Dag.ing__id (Dag.ingredient ie)),
                          Dag.additionUnit (Dag.ingredient ie)))
              (List.rev (Dag.ingredients e))) = Some (Dag.f_addition_unit f) /\
  Dag.f_lot_id f = Dag.lot__id l /\
  Dag.f_lot_number f = Dag.lotNumber l /\
  Dag.f_vessel_id f = Dag.vessel__id v /\
  Dag.f_vessel_code f = Dag.vesselCode v /\
  Dag.f_change_value f = PyFloat (preserve_quantity_precision quantity) /\
  Dag.f_unique_transaction_id f =
    unique_transaction_id_for (Dag.f_ingredient_name f) (Dag.lotNumber l) (Dag.vesselCode v)
      quantity.

Definition has_underscore (s : string) : bool :=
  negb (String.eqb (DagTasks.before_underscore s) s).

End MoreNotions.

(* ================================================================= *)
(** * Part II: properties *)
(* ================================================================= *)

(** ** The ledger upsert *)

Module LedgerFacts.
Import Py Utility Jde Notions.

Lemma uid_do_update (x r : row) :
  unique_transaction_id (do_update x r) = unique_transaction_id x.
Proof. reflexivity. Qed.

Lemma rows_of_nil_iff (uid : string) (t : table) :
  rows_of uid t = [] <-> ~ In uid (List.map unique_transaction_id t).
Proof.
  unfold rows_of. induction t as [|x t IH]; simpl.
  - tauto.
  - destruct (String.eqb_spec (unique_transaction_id x) uid) as [E|E].
    + split; [discriminate | intros H; exfalso; apply H; now left].
    + rewrite IH. split; [intros H [H'|H']; [congruence | tauto] | tauto].
Qed.

Lemma upsert_uids_present (r : row) (t : table) :
  In (unique_transaction_id r) (List.map unique_transaction_id t) ->
  List.map unique_transaction_id (upsert r t) = List.map unique_transaction_id t.
Proof.
  induction t as [|x t IH]; simpl; [tauto|]. intros H.
  destruct (String.eqb_spec (unique_transaction_id x) (unique_transaction_id r)) as [E|E]; simpl.
  - reflexivity.
  - f_equal. apply IH. destruct H; [contradiction | assumption].
Qed.

Lemma upsert_uids_absent (r : row) (t : table) :
  ~ In (unique_transaction_id r) (List.map unique_transaction_id t) ->
  List.map unique_transaction_id (upsert r t) =
  (List.map unique_transaction_id t ++ [unique_transaction_id r])%list.
Proof.
  induction t as [|x t IH]; simpl; [reflexivity|]. intros H.
  destruct (String.eqb_spec (unique_transaction_id x) (unique_transaction_id r)) as [E|E]; simpl.
  - exfalso. apply H. now left.
  - f_equal. apply IH. tauto.
Qed.

(** The upsert keeps the uniqueness constraint. *)
Lemma upsert_unique (r : row) (t : table) :
  unique_constraint t -> unique_constraint (upsert r t).
Proof.
  unfold unique_constraint. intros U.
  destruct (List.in_dec string_dec (unique_transaction_id r)
              (List.map unique_transaction_id t)) as [H|H].
  - now rewrite upsert_uids_present.
  - rewrite upsert_uids_absent by assumption.
    apply List.NoDup_app; [exact U | repeat constructor; simpl; tauto |].
    intros a Ha [<-|[]]. contradiction.
Qed.

Lemma rows_of_upsert_other (uid : string) (r : row) (t : table) :
  unique_transaction_id r <> uid -> rows_of uid (upsert r t) = rows_of uid t.
Proof.
  intros N. unfold rows_of. induction t as [|x t IH]; simpl.
  - destruct (String.eqb_spec (unique_transaction_id r) uid); [contradiction | reflexivity].
  - destruct (String.eqb_spec (unique_transaction_id x) (unique_transaction_id r)) as [E|E]; simpl.
    + destruct (String.eqb_spec (unique_transaction_id x) uid); [congruence | reflexivity].
    + now rewrite IH.
Qed.

Lemma rows_of_upsert_same (r : row) (t : table) :
  unique_constraint t ->
  rows_of (unique_transaction_id r) (upsert r t) =
  match rows_of (unique_transaction_id r) t with
  | [] => [r]
  | x :: _ => [do_update x r]
  end.
Proof.
  unfold unique_constraint. induction t as [|x t IH]; simpl; intros U.
  - unfold rows_of. simpl. now rewrite String.eqb_refl.
  - apply List.NoDup_cons_iff in U as [Hx U].
    unfold rows_of in *. simpl.
    destruct (String.eqb_spec (unique_transaction_id x) (unique_transaction_id r)) as [E|E]; simpl.
    + rewrite E, String.eqb_refl. f_equal.
      apply rows_of_nil_iff. now rewrite <- E.
    + destruct (String.eqb_spec (unique_transaction_id x) (unique_transaction_id r));
        [contradiction|]. now apply IH.
Qed.

(** C1.  Recording an outcome twice for one identity leaves exactly one row
    for it.  After the first write there is one row [o] (the row written,
    when the identity was new); after the second write there is still one
    row, whose [status] and [status_text] are those of the second write and
    whose other columns are those of [o].  The rows of the other identities
    are untouched and the uniqueness constraint holds. *)
Theorem upsert_twice_one_row (t : table) (first second : row) :
  unique_constraint t ->
  unique_transaction_id second = unique_transaction_id first ->
  let uid := unique_transaction_id first in
  let t2 := upsert second (upsert first t) in
  exists o x,
    rows_of uid (upsert first t) = [o] /\
    (rows_of uid t = [] -> o = first) /\
    rows_of uid t2 = [x] /\
    status x = status second /\
    status_text x = status_text second /\
    action_id x = action_id o /\
    ingredient_id x = ingredient_id o /\
    lot_id x = lot_id o /\
    vessel_id x = vessel_id o /\
    vessel_code x = vessel_code o /\
    ingredient_name x = ingredient_name o /\
    addition_unit x = addition_unit o /\
    unique_transaction_id x = uid /\
    (forall uid', uid' <> uid -> rows_of uid' t2 = rows_of uid' t) /\
    unique_constraint t2.
Proof.
  intros U E uid t2.
  pose proof (rows_of_upsert_same first t U) as H1. fold uid in H1.
  assert (exists o, rows_of uid (upsert first t) = [o] /\
                    (rows_of uid t = [] -> o = first) /\
                    unique_transaction_id o = uid) as (o & Ho & Hnew & Huid).
  { destruct (rows_of uid t) as [|y ys] eqn:R.
    - exists first. auto.
    - exists (do_update y first). repeat split; [exact H1 | discriminate |].
      rewrite uid_do_update.
      assert (In y (rows_of uid t)) as Hy by (rewrite R; now left).
      unfold rows_of in Hy. apply List.filter_In in Hy as [_ Hy].
      now apply String.eqb_eq in Hy. }
  pose proof (rows_of_upsert_same second (upsert first t) (upsert_unique first t U)) as H2.
  rewrite E in H2. fold uid in H2. rewrite Ho in H2.
  exists o, (do_update o second). repeat split; auto.
  - intros uid' N. subst t2.
    rewrite rows_of_upsert_other by (rewrite E; auto).
    apply rows_of_upsert_other; auto.
  - apply upsert_unique, upsert_unique, U.
Qed.

Lemma upsert_twice_one_row_witness :
  exists o x,
    rows_of "Flour_LOT1_V1_5" (upsert (sample_row "error" "HTTP 500") []) = [o] /\
    rows_of "Flour_LOT1_V1_5"
      (upsert (sample_row "done" "ok") (upsert (sample_row "error" "HTTP 500") [])) = [x] /\
    status x = "done".
Proof.
  destruct (upsert_twice_one_row [] (sample_row "error" "HTTP 500") (sample_row "done" "ok"))
    as (o & x & H1 & _ & H2 & H3 & _).
  - constructor.
  - reflexivity.
  - exists o, x. repeat split; assumption.
Defined.

End LedgerFacts.

(** ** The retrying HTTP client *)

Module HttpFacts.
Import Py Utility Notions.




(** C5, as stated, fails: a client that made three attempts would issue
    three requests when the transport fails every time. *)
Lemma transport_failure_three_attempts_cex :
  ~ (forall (net : transport) (fuel : nat),
       (3 <= fuel)%nat -> (forall n, net n = RequestFailed) ->
       count_requests (snd (retry_request fuel net 0 "GET")) = 3%nat).
Proof.
  intros H. specialize (H (fun _ => RequestFailed) 3%nat (le_n 3) (fun _ => eq_refl)).
  discriminate H.
Qed.

(** C5, amended.  When the transport fails (timeout, connection error),
    [retry_request] returns [None] after that single request: it does not
    issue another request and does not sleep, even if a later request would
    have been answered. *)
Theorem transport_failure_not_retried (fuel : nat) (net : transport) (n : nat)
    (method : string) :
  supported_method method = true ->
  net n = RequestFailed ->
  retry_request (S fuel) net n method = (Returned JNone, [Request n; LogRequestException]) /\
  count_requests (snd (retry_request (S fuel) net n method)) = 1%nat /\
  sleeps (snd (retry_request (S fuel) net n method)) = [].
Proof.
  intros Hm Hn. simpl. rewrite Hm, Hn. simpl. repeat split.
Qed.

Lemma transport_failure_not_retried_witness :
  let net := fun n => match n with
                      | O => RequestFailed
                      | S _ => Answered (ok_response (JAtom (PyStr "ok")))
                      end in
  retry_request 3 net 0 "GET" = (Returned JNone, [Request 0%nat; LogRequestException]).
Proof.
  intros net.
  exact (proj1 (transport_failure_not_retried 2 net 0 "GET" eq_refl eq_refl)).
Defined.

(** C6, as stated, fails: nothing the caller receives tells one response
    body from another. *)
Lemma refusal_body_lost_cex :
  ~ (exists detail_of : outcome -> string,
       forall body : string,
         detail_of (fst (retry_request 1 (fun _ => Answered (refused 404 body)) 0 "POST")) = body).
Proof.
  intros [detail_of H].
  pose proof (H "duplicate value") as H1. pose proof (H "") as H2.
  simpl in H1, H2. rewrite H1 in H2. discriminate H2.
Qed.

(** C6, amended.  On a 4xx answer other than 429 and 423, [retry_request]
    issues no further request and does not sleep; when the status is not
    400 it returns [None] and the response body goes to the error log
    only. *)
Theorem refusal_not_retried (fuel : nat) (net : transport) (n : nat) (method : string)
    (r : response) :
  supported_method method = true ->
  net n = Answered r ->
  400 <= status_code r < 500 ->
  status_code r <> 429 ->
  status_code r <> 423 ->
  count_requests (snd (retry_request (S fuel) net n method)) = 1%nat /\
  sleeps (snd (retry_request (S fuel) net n method)) = [] /\
  (status_code r <> 400 ->
   retry_request (S fuel) net n method =
   (Returned JNone, [Request n; LogFailed (status_code r) (text r)])).
Proof.
  intros Hm Hn Hr H429 H423. simpl. rewrite Hm, Hn. simpl.
  assert ((status_code r =? 200) || (status_code r =? 201) = false) as ->.
  { apply orb_false_iff. split; apply Z.eqb_neq; lia. }
  assert ((status_code r =? 429) || (status_code r =? 423) = false) as ->.
  { apply orb_false_iff. split; apply Z.eqb_neq; lia. }
  destruct (Z.eqb_spec (status_code r) 400) as [E|E]; repeat split; auto.
  intros N. contradiction.
Qed.

Lemma refusal_not_retried_witness :
  retry_request 5 (fun _ => Answered (refused 404 "duplicate value")) 0 "POST" =
  (Returned JNone, [Request 0%nat; LogFailed 404 "duplicate value"]).
Proof.
  refine (proj2 (proj2 (refusal_not_retried 4 (fun _ => Answered (refused 404 "duplicate value"))
                          0 "POST" (refused 404 "duplicate value") eq_refl eq_refl _ _ _)) _);
    simpl; lia.
Defined.

End HttpFacts.

(** ** The request cache *)

Module CacheFacts.
Import Py Utility Notions.

Lemma is_empty_list_spec (x : json) : is_empty_list x = true <-> x = JList [].
Proof.
  destruct x as [a|[|y l]|d]; simpl; split; intros H; try discriminate; reflexivity.
Qed.

(** A request answered 200 or 201 with the empty list makes [retry_request]
    return [None], whatever came before it. *)
Lemma retry_request_empty_list (fuel : nat) (net : transport) (method : string)
    (n : nat) (r : response) :
  net n = Answered r ->
  status_code r = 200 \/ status_code r = 201 ->
  json_of r = Some (JList []) ->
  forall k, In (Request n) (snd (retry_request fuel net k method)) ->
            fst (retry_request fuel net k method) = Returned JNone.
Proof.
  intros Hn Hs Hj.
  assert ((status_code r =? 200) || (status_code r =? 201) = true) as Hok.
  { apply orb_true_iff. destruct Hs as [->| ->]; auto. }
  induction fuel as [|fuel IH]; intros k; simpl; [tauto|].
  destruct (supported_method method); simpl; [|intros [H|[]]; discriminate H].
  destruct (net k) as [r'| |] eqn:Hk; simpl.
  - destruct ((status_code r' =? 200) || (status_code r' =? 201)) eqn:Hok'.
    + destruct (json_of r') as [data|] eqn:Hd; [destruct (is_empty_list data) eqn:He|];
        try reflexivity.
      simpl. intros [H|[]]. injection H as ->. rewrite Hn in Hk. injection Hk as <-.
      rewrite Hj in Hd. injection Hd as <-. discriminate He.
    + assert (k <> n) as Hkn by (intros ->; rewrite Hn in Hk; congruence).
      destruct ((status_code r' =? 429) || (status_code r' =? 423)).
      * destruct (rate_limit_wait r').
        -- specialize (IH (S k)). destruct (retry_request fuel net (S k) method) as [o evs].
           simpl in *. intros [H|[H|H]]; [congruence | discriminate | auto].
        -- reflexivity.
      * destruct (status_code r' =? 400); reflexivity.
  - reflexivity.
  - reflexivity.
Qed.

(** What a read leaves behind: the table, or the table without the row. *)
Lemma get_from_lru_cache_table (now : Z) (key : string) (t : cache_table) :
  snd (get_from_lru_cache now key t) = t \/
  snd (get_from_lru_cache now key t) = delete key t.
Proof.
  unfold get_from_lru_cache, delete_from_lru_cache.
  destruct (t !! key) as [row|]; [|now left].
  destruct (fresh now row); [|now left].
  destruct (cached row) as [|[v|]]; simpl; auto.
  destruct (is_empty_list v); simpl; auto.
Qed.

(** A read that gave nothing gives nothing later on either. *)
Lemma get_from_lru_cache_none_later (now later : Z) (key : string) (t : cache_table) :
  now <= later ->
  fst (get_from_lru_cache now key t) = JNone ->
  fst (get_from_lru_cache later key (snd (get_from_lru_cache now key t))) = JNone.
Proof.
  intros Hle. unfold get_from_lru_cache, delete_from_lru_cache.
  destruct (t !! key) as [row|] eqn:Ht; simpl; [|now rewrite Ht].
  destruct (fresh now row) eqn:Hf; simpl.
  - destruct (cached row) as [|[v|]] eqn:Hc; simpl.
    + intros _. rewrite Ht, Hc. destruct (fresh later row); reflexivity.
    + destruct (is_empty_list v) eqn:He; simpl.
      * intros _. now rewrite lookup_delete_eq.
      * intros ->. rewrite Ht, Hc. destruct (fresh later row); reflexivity.
    + intros _. now rewrite lookup_delete_eq.
  - intros _. rewrite Ht.
    assert (fresh later row = false) as ->; [|reflexivity].
    unfold fresh in *. apply Z.ltb_ge. apply Z.ltb_ge in Hf. lia.
Qed.

Lemma get_from_lru_cache_deleted (now : Z) (key : string) (t : cache_table) :
  get_from_lru_cache now key (delete key t) = (JNone, delete key t).
Proof. unfold get_from_lru_cache. now rewrite lookup_delete_eq. Qed.

(** The request phase of [retry_request_lru] when the answer is the empty
    list: [None] is returned and the table is left alone. *)
Lemma request_phase_empty_list (fuel : nat) (net : transport) (method : string)
    (n : nat) (r : response) :
  net n = Answered r ->
  status_code r = 200 \/ status_code r = 201 ->
  json_of r = Some (JList []) ->
  In (Request n) (snd (retry_request fuel net 0 method)) ->
  exists evs, retry_request fuel net 0 method = (Returned JNone, evs).
Proof.
  intros Hn Hs Hj Hin.
  pose proof (retry_request_empty_list fuel net method n r Hn Hs Hj 0%nat Hin) as H.
  destruct (retry_request fuel net 0 method) as [o evs]. simpl in H. subst. eauto.
Qed.

(** C9.  When a GET made through [retry_request_lru] is answered 200 or 201
    with the empty list, the call returns [None], stores nothing (the table
    is the one it found, possibly without the row of this key), and a read
    of the key at any later time returns [None].  Moreover a read that
    finds a fresh row holding the empty list deletes the row. *)
Theorem empty_list_never_cached `{PyStdlib} (fuel : nat) (net : transport)
    (t_get t_set t_after : Z) (t t' : cache_table) (url : string) (payload : json)
    (params : option (list (string * json))) (o : outcome) (evs : list event)
    (n : nat) (r : response) :
  retry_request_lru fuel net t_get t_set t url "GET" payload params = (o, t', evs) ->
  In (Request n) evs ->
  net n = Answered r ->
  status_code r = 200 \/ status_code r = 201 ->
  json_of r = Some (JList []) ->
  t_get <= t_after ->
  let cache_key := _create_cache_key url params payload in
  (o = Returned JNone /\
   (t' = t \/ t' = delete cache_key t) /\
   fst (get_from_lru_cache t_after cache_key t') = JNone) /\
  (forall (now : Z) (key : string) (c : cache_table) (row : cache_row),
     c !! key = Some row -> fresh now row = true -> cached row = Text (Some (JList [])) ->
     get_from_lru_cache now key c = (JNone, delete key c)).
Proof.
  intros Hrun Hin Hn Hs Hj Hle cache_key. split.
  - unfold retry_request_lru in Hrun. fold cache_key in Hrun. simpl in Hrun.
    pose proof (get_from_lru_cache_table t_get cache_key t) as Htab.
    pose proof (get_from_lru_cache_none_later t_get t_after cache_key t Hle) as Hlater.
    destruct (get_from_lru_cache t_get cache_key t) as [c t1]. simpl in Htab, Hlater.
    assert (forall t0, (t0 = t \/ t0 = delete cache_key t) ->
                       fst (get_from_lru_cache t_after cache_key t0) = JNone ->
                       (let '(result, evs0) := retry_request fuel net 0 "GET" in
                        match result with
                        | Returned v =>
                            if negb (is_none v) && (("GET" =? "GET")%string) && negb (is_empty_list v)
                            then (result, set_in_lru_cache t_set cache_key v t0, evs0)
                            else (result, t0, evs0)
                        | Unfinished => (result, t0, evs0)
                        end) = (o, t', evs) ->
                       o = Returned JNone /\ (t' = t \/ t' = delete cache_key t) /\
                       fst (get_from_lru_cache t_after cache_key t') = JNone) as Hreq.
    { intros t0 Ht0 Hget Hrun0.
      destruct (retry_request fuel net 0 "GET") as [res evs0] eqn:Hrr.
      assert (evs0 = evs) as ->.
      { destruct res as [v|]; [destruct (negb (is_none v) && _ && _)|]; congruence. }
      destruct (request_phase_empty_list fuel net "GET" n r Hn Hs Hj) as [evs1 H1].
      { rewrite Hrr. exact Hin. }
      rewrite Hrr in H1. injection H1 as -> _. simpl in Hrun0.
      injection Hrun0 as <- <-. auto. }
    assert (forall t0, t0 = t \/ t0 = delete cache_key t ->
              delete cache_key t0 = t \/ delete cache_key t0 = delete cache_key t) as Hdel.
    { intros t0 [->| ->]; right; [reflexivity | apply delete_delete_eq]. }
    destruct c as [a|l|d].
    + destruct a as [|b|z|f|s].
      * apply (Hreq t1 Htab (Hlater eq_refl) Hrun).
      * injection Hrun as _ _ <-. destruct Hin.
      * injection Hrun as _ _ <-. destruct Hin.
      * injection Hrun as _ _ <-. destruct Hin.
      * destruct (json_loads s).
        -- injection Hrun as _ _ <-. destruct Hin.
        -- apply (Hreq _ (Hdel t1 Htab)); [|exact Hrun].
           unfold delete_from_lru_cache. simpl. now rewrite get_from_lru_cache_deleted.
    + destruct l as [|x l].
      * apply (Hreq _ (Hdel t1 Htab)); [|exact Hrun].
        unfold delete_from_lru_cache. simpl. now rewrite get_from_lru_cache_deleted.
      * injection Hrun as _ _ <-. destruct Hin.
    + injection Hrun as _ _ <-. destruct Hin.
  - intros now key c row Hc Hf Hrow. unfold get_from_lru_cache.
    now rewrite Hc, Hf, Hrow.
Qed.

Lemma empty_list_never_cached_witness :
  fst (get_from_lru_cache 10 (@_create_cache_key plain_stdlib "http://h/p" None JNone) ∅) = JNone.
Proof.
  refine (proj2 (proj2 (proj1
    (@empty_list_never_cached plain_stdlib 2 limited_then_empty 0 10 10 ∅ ∅ "http://h/p" JNone None
       (Returned JNone)
       [Request 0%nat; Sleep (PyInt 10); Request 1%nat; LogEmptyResponse] 1%nat
       {| status_code := 200; text := "[]"; json_of := Some (JList []) |} _ _ _ _ _ _)))).
  - reflexivity.
  - simpl. auto.
  - reflexivity.
  - left. reflexivity.
  - reflexivity.
  - lia.
Defined.

Lemma json_not_own_singleton (x : json) : x <> JList [x].
Proof. intros E. apply (f_equal json_size) in E. simpl in E. lia. Qed.

(** C10, as stated, fails for the one-element list that holds the empty
    list: the read does not return the element. *)
Lemma put_single_then_get_cex :
  ~ (forall x : json,
       fst (get_from_lru_cache 0 "k" (set_in_lru_cache 0 "k" (JList [x]) ∅)) = x).
Proof. intros H. specialize (H (JList [])). discriminate H. Qed.

(** C10, amended.  On a key without row, storing the one-element list [[x]]
    writes [x] itself; a read within the freshness window then returns [x]
    when [x] is not the empty list, and returns [None] and deletes the row
    when it is.  A read that returns the stored response unchanged was not
    given a one-element list.  On a key that has a row, fresh or stale, the
    write changes nothing. *)
Theorem put_then_get (now later : Z) (key : string) (t : cache_table) (response : json) :
  later < now + 3600 ->
  let t' := set_in_lru_cache now key response t in
  (t !! key = None ->
   (forall x, response = JList [x] ->
      t' !! key = Some {| cached := Text (Some x); timestamp := now |} /\
      (x <> JList [] -> get_from_lru_cache later key t' = (x, t')) /\
      (x = JList [] -> get_from_lru_cache later key t' = (JNone, delete key t'))) /\
   (fst (get_from_lru_cache later key t') = response -> forall x, response <> JList [x])) /\
  (forall row, t !! key = Some row -> t' = t).
Proof.
  intros Hfresh t'.
  assert (fresh later {| cached := Text (Some response); timestamp := now |} = true) as Hf0.
  { unfold fresh. simpl. apply Z.ltb_lt. lia. }
  assert (forall x, t !! key = None -> response = JList [x] ->
            t' !! key = Some {| cached := Text (Some x); timestamp := now |} /\
            (x <> JList [] -> get_from_lru_cache later key t' = (x, t')) /\
            (x = JList [] -> get_from_lru_cache later key t' = (JNone, delete key t'))) as Hsingle.
  { intros x Hnone ->. subst t'. unfold set_in_lru_cache. rewrite Hnone.
    assert (fresh later {| cached := Text (Some x); timestamp := now |} = true) as Hf
      by (unfold fresh; simpl; apply Z.ltb_lt; lia).
    split; [apply lookup_insert_eq|]. split.
    - intros Hx. unfold get_from_lru_cache. rewrite lookup_insert_eq, Hf. simpl.
      destruct (is_empty_list x) eqn:He; [|reflexivity].
      apply is_empty_list_spec in He. contradiction.
    - intros ->. unfold get_from_lru_cache. rewrite lookup_insert_eq, Hf. reflexivity. }
  split.
  - intros Hnone. split; [intros x; apply Hsingle; assumption|].
    intros Hround x ->.
    destruct (Hsingle x Hnone eq_refl) as (_ & Hget & Hpurge).
    destruct (is_empty_list x) eqn:He.
    + apply is_empty_list_spec in He. rewrite (Hpurge He) in Hround. discriminate Hround.
    + rewrite Hget in Hround.
      * simpl in Hround. exact (json_not_own_singleton x Hround).
      * intros ->. discriminate He.
  - intros row Hrow. subst t'. unfold set_in_lru_cache. now rewrite Hrow.
Qed.

Lemma put_then_get_witness :
  get_from_lru_cache 1 "k" (set_in_lru_cache 0 "k" (JList [JAtom (PyInt 7)]) ∅) =
  (JAtom (PyInt 7), set_in_lru_cache 0 "k" (JList [JAtom (PyInt 7)]) ∅).
Proof.
  refine (proj1 (proj2 (proj1 (proj1 (put_then_get 0 1 "k" ∅ (JList [JAtom (PyInt 7)]) _) _)
                          (JAtom (PyInt 7)) eq_refl)) _).
  - lia.
  - reflexivity.
  - discriminate.
Defined.

End CacheFacts.

(** ** The cache key *)

Module CacheKeyFacts.
Import Py Utility Notions.

(** *** Structural induction on documents *)

Lemma json_induction (P : json -> Prop) :
  (forall a, P (JAtom a)) ->
  (forall l, Forall P l -> P (JList l)) ->
  (forall d, Forall (fun kv => P (snd kv)) d -> P (JDict d)) ->
  forall j, P j.
Proof.
  intros Hatom Hlist Hdict. fix IH 1. intros [a|l|d].
  - apply Hatom.
  - apply Hlist. induction l as [|x l IHl]; constructor; [apply IH | exact IHl].
  - apply Hdict. induction d as [|[k v] d IHd]; constructor; [apply IH | exact IHd].
Qed.

(** *** The order on keys *)

Lemma key_lt_trans (a b c : string) : key_lt a b -> key_lt b c -> key_lt a c.
Proof.
  unfold key_lt. intros H1 H2.
  apply String_as_OT.cmp_lt. apply String_as_OT.cmp_lt in H1, H2.
  exact (String_as_OT.lt_trans _ _ _ H1 H2).
Qed.

Lemma key_lt_irrefl (a : string) : ~ key_lt a a.
Proof.
  unfold key_lt. intros H.
  assert (String.compare a a = Eq) as E by (now apply String_as_OT.cmp_eq).
  congruence.
Qed.

Lemma leb_refl (a : string) : String.leb a a = true.
Proof.
  unfold String.leb.
  assert (String.compare a a = Eq) as -> by (now apply String_as_OT.cmp_eq).
  reflexivity.
Qed.

Lemma leb_true_lt (a b : string) : String.leb a b = true -> a <> b -> key_lt a b.
Proof.
  unfold String.leb, key_lt. destruct (String.compare a b) eqn:E; try discriminate; auto.
  intros _ N. apply String.compare_eq_iff in E. contradiction.
Qed.

Lemma leb_false_lt (a b : string) : String.leb a b = false -> key_lt b a.
Proof.
  unfold String.leb, key_lt. rewrite (String.compare_antisym a b).
  destruct (String.compare b a); simpl; try discriminate; auto.
Qed.

(** *** Lookup in the items of a dict *)

Lemma dict_get_some_in {A : Type} (k : string) (v : A) (d : list (string * A)) :
  dict_get k d = Some v -> In (k, v) d.
Proof.
  induction d as [|[k' v'] d IH]; simpl; [discriminate|].
  destruct (String.eqb_spec k' k) as [->|N].
  - intros [= ->]. now left.
  - intros H. right. auto.
Qed.

Lemma dict_get_none_iff {A : Type} (k : string) (d : list (string * A)) :
  dict_get k d = None <-> ~ In k (keys d).
Proof.
  induction d as [|[k' v'] d IH]; simpl; [tauto|].
  destruct (String.eqb_spec k' k) as [->|N].
  - split; [discriminate | intros H; exfalso; apply H; now left].
  - rewrite IH. split; [intros H [H'|H']; [contradiction | tauto] | tauto].
Qed.

Lemma dict_get_map {A B : Type} (f : A -> B) (k : string) (d : list (string * A)) :
  dict_get k (List.map (fun kv => (fst kv, f (snd kv))) d) = option_map f (dict_get k d).
Proof.
  induction d as [|[k' v'] d IH]; simpl; [reflexivity|].
  destruct (String.eqb k' k); [reflexivity | exact IH].
Qed.

Lemma keys_map {A B : Type} (f : A -> B) (d : list (string * A)) :
  keys (List.map (fun kv => (fst kv, f (snd kv))) d) = keys d.
Proof. unfold keys. rewrite List.map_map. reflexivity. Qed.

Lemma dict_get_set {A : Type} (k k' : string) (v : A) (d : list (string * A)) :
  dict_get k' (dict_set k v d) = if String.eqb k k' then Some v else dict_get k' d.
Proof.
  induction d as [|[k0 v0] d IH]; simpl.
  - reflexivity.
  - destruct (String.eqb_spec k0 k) as [->|N]; simpl.
    + destruct (String.eqb k k'); reflexivity.
    + rewrite IH. destruct (String.eqb_spec k0 k') as [->|N'];
        [destruct (String.eqb_spec k k'); [congruence | reflexivity] | reflexivity].
Qed.

Lemma dict_get_update {A : Type} (k : string) (p base : list (string * A)) :
  List.NoDup (keys p) ->
  dict_get k (dict_update base p) =
  match dict_get k p with
  | Some v => Some v
  | None => dict_get k base
  end.
Proof.
  unfold dict_update. revert base. induction p as [|[k0 v0] p IH]; intros base U; simpl.
  - reflexivity.
  - apply List.NoDup_cons_iff in U as [Hk0 U]. rewrite (IH _ U). rewrite dict_get_set. simpl.
    destruct (String.eqb_spec k0 k) as [->|N].
    + apply dict_get_none_iff in Hk0. simpl in Hk0. now rewrite Hk0.
    + reflexivity.
Qed.

(** *** Sorting the items *)

Lemma dict_get_insert {A : Type} (k : string) (kv : string * A) (l : list (string * A)) :
  dict_get k (insert_by_key kv l) =
  if String.eqb (fst kv) k then Some (snd kv) else dict_get k l.
Proof.
  destruct kv as [k0 v0]. induction l as [|[k1 v1] l IH]; simpl.
  - reflexivity.
  - destruct (String.leb k0 k1) eqn:L; simpl.
    + reflexivity.
    + rewrite IH. simpl. destruct (String.eqb_spec k1 k) as [->|N]; [|reflexivity].
      destruct (String.eqb_spec k0 k) as [->|N']; [|reflexivity].
      rewrite leb_refl in L. discriminate L.
Qed.

Lemma dict_get_sorted_items {A : Type} (k : string) (l : list (string * A)) :
  dict_get k (sorted_items l) = dict_get k l.
Proof.
  induction l as [|[k0 v0] l IH]; simpl; [reflexivity|].
  rewrite dict_get_insert. simpl. now rewrite IH.
Qed.

Lemma in_keys_iff {A : Type} (k : string) (l : list (string * A)) :
  In k (keys l) <-> dict_get k l <> None.
Proof.
  pose proof (dict_get_none_iff k l) as H.
  destruct (List.in_dec string_dec k (keys l)); split; intros; tauto.
Qed.

Lemma insert_sorted {A : Type} (kv : string * A) (l : list (string * A)) :
  sorted_by_key l -> ~ In (fst kv) (keys l) -> sorted_by_key (insert_by_key kv l).
Proof.
  unfold sorted_by_key. intros S. induction S as [|x l S IH F]; intros N; simpl.
  - repeat constructor.
  - destruct (String.leb (fst kv) (fst x)) eqn:L.
    + assert (key_lt (fst kv) (fst x)) as Hlt.
      { apply leb_true_lt; [exact L|]. intros E. apply N. left. now rewrite E. }
      constructor; [constructor; assumption|].
      constructor; [exact Hlt|].
      eapply List.Forall_impl; [|exact F]. intros y Hy. exact (key_lt_trans _ _ _ Hlt Hy).
    + constructor.
      * apply IH. intros H. apply N. now right.
      * apply List.Forall_forall. intros y Hy.
        assert (In (fst y) (keys (insert_by_key kv l))) as Hk
          by (unfold keys; apply List.in_map; exact Hy).
        apply in_keys_iff in Hk. rewrite dict_get_insert in Hk.
        destruct (String.eqb_spec (fst kv) (fst y)) as [E|E].
        -- rewrite <- E. now apply leb_false_lt.
        -- apply in_keys_iff in Hk. unfold keys in Hk. apply List.in_map_iff in Hk.
           destruct Hk as (z & Hz & Hin). rewrite <- Hz.
           rewrite List.Forall_forall in F. now apply F.
Qed.

Lemma sorted_items_sorted {A : Type} (l : list (string * A)) :
  List.NoDup (keys l) -> sorted_by_key (sorted_items l).
Proof.
  induction l as [|kv l IH]; simpl; intros U.
  - constructor.
  - apply List.NoDup_cons_iff in U as [N U]. apply insert_sorted; [auto|].
    intros H. apply N. apply in_keys_iff in H. rewrite dict_get_sorted_items in H.
    now apply in_keys_iff.
Qed.

(** Two lists sorted by key that answer every lookup alike are equal. *)
Lemma sorted_ext {A : Type} (l1 l2 : list (string * A)) :
  sorted_by_key l1 -> sorted_by_key l2 ->
  (forall k, dict_get k l1 = dict_get k l2) -> l1 = l2.
Proof.
  unfold sorted_by_key. intros S1. revert l2.
  induction S1 as [|[k1 v1] l1 S1 IH F1]; intros l2 S2 H.
  - destruct l2 as [|[k2 v2] l2]; [reflexivity|].
    specialize (H k2). simpl in H. rewrite String.eqb_refl in H. discriminate H.
  - destruct S2 as [|[k2 v2] l2 S2 F2].
    + specialize (H k1). simpl in H. rewrite String.eqb_refl in H. discriminate H.
    + assert (k1 = k2) as ->.
      { destruct (string_dec k1 k2) as [E|N]; [exact E|]. exfalso.
        pose proof (H k1) as Ha. pose proof (H k2) as Hb. simpl in Ha, Hb.
        rewrite String.eqb_refl in Ha, Hb.
        destruct (String.eqb_spec k2 k1) as [E|_]; [congruence|].
        destruct (String.eqb_spec k1 k2) as [E|_]; [congruence|].
        destruct (String.compare k1 k2) eqn:C.
        - apply String.compare_eq_iff in C. contradiction.
        - (* k1 < k2: k1 is below every key of the second list *)
          assert (dict_get k1 ((k2, v2) :: l2) = None) as Hnone.
          { apply dict_get_none_iff. intros [E|Hin]; [simpl in E; congruence|].
            unfold keys in Hin. apply List.in_map_iff in Hin. destruct Hin as (y & Ey & Hy).
            rewrite List.Forall_forall in F2. specialize (F2 y Hy). simpl in F2.
            rewrite Ey in F2. apply (key_lt_irrefl k1). exact (key_lt_trans _ _ _ C F2). }
          simpl in Hnone. destruct (String.eqb_spec k2 k1); congruence.
        - assert (key_lt k2 k1) as C'.
          { unfold key_lt. rewrite String.compare_antisym, C. reflexivity. }
          assert (dict_get k2 ((k1, v1) :: l1) = None) as Hnone.
          { apply dict_get_none_iff. intros [E|Hin]; [simpl in E; congruence|].
            unfold keys in Hin. apply List.in_map_iff in Hin. destruct Hin as (y & Ey & Hy).
            rewrite List.Forall_forall in F1. specialize (F1 y Hy). simpl in F1.
            rewrite Ey in F1. apply (key_lt_irrefl k2). exact (key_lt_trans _ _ _ C' F1). }
          simpl in Hnone. destruct (String.eqb_spec k1 k2); congruence. }
      pose proof (H k2) as Hv. simpl in Hv. rewrite String.eqb_refl in Hv.
      injection Hv as ->. f_equal. apply IH; [exact S2|].
      intros k. specialize (H k). simpl in H.
      destruct (String.eqb_spec k2 k) as [E|N]; [subst k|exact H].
      assert (forall l : list (string * A),
                Forall (fun y => key_lt k2 (fst y)) l -> dict_get k2 l = None) as Habove.
      { intros l F. apply dict_get_none_iff. intros Hin.
        unfold keys in Hin. apply List.in_map_iff in Hin. destruct Hin as (y & Ey & Hy).
        rewrite List.Forall_forall in F. specialize (F y Hy). rewrite Ey in F.
        exact (key_lt_irrefl _ F). }
      rewrite (Habove l1 F1), (Habove l2 F2). reflexivity.
Qed.

(** Items with distinct keys that answer every lookup alike sort to the
    same list. *)
Lemma sorted_items_ext {A : Type} (l1 l2 : list (string * A)) :
  List.NoDup (keys l1) -> List.NoDup (keys l2) ->
  (forall k, dict_get k l1 = dict_get k l2) ->
  sorted_items l1 = sorted_items l2.
Proof.
  intros U1 U2 H. apply sorted_ext; try (apply sorted_items_sorted; assumption).
  intros k. now rewrite !dict_get_sorted_items.
Qed.

(** *** Normalisation forgets the insertion order *)

Lemma keys_normalized (d : list (string * json)) :
  keys (List.map (fun kv => (fst kv, normalize_dict (snd kv))) d) = keys d.
Proof. apply keys_map. Qed.

Lemma normalize_dict_same_json (a : json) :
  forall b, same_json a b -> normalize_dict a = normalize_dict b.
Proof.
  induction a as [x|l IH|d IH] using json_induction; intros b Hab; inversion Hab; subst.
  - reflexivity.
  - simpl. f_equal.
    match goal with H : Forall2 same_json l ?l2 |- _ => revert IH; induction H; intros IH end.
    + reflexivity.
    + apply List.Forall_cons_iff in IH as [IHx IHl]. simpl. f_equal; [auto|].
      apply IHForall2; [constructor|]; assumption.
  - simpl. f_equal. apply sorted_items_ext.
    + now rewrite keys_normalized.
    + now rewrite keys_normalized.
    + intros k. rewrite !dict_get_map.
      destruct (dict_get k d) as [v1|] eqn:G.
      * match goal with
        | H : forall k v1, dict_get k d = Some v1 -> _ |- _ =>
            destruct (H k v1 G) as (v2 & G2 & S12)
        end.
        rewrite G2. simpl. f_equal.
        rewrite List.Forall_forall in IH.
        exact (IH (k, v1) (dict_get_some_in k v1 d G) v2 S12).
      * match goal with
        | H : forall k, dict_get k d = None -> _ |- _ => rewrite (H k G)
        end.
        reflexivity.
Qed.

Lemma dict_set_keys_nodup {A : Type} (k : string) (v : A) (d : list (string * A)) :
  List.NoDup (keys d) -> List.NoDup (keys (dict_set k v d)).
Proof.
  induction d as [|[k0 v0] d IH]; simpl; intros U.
  - repeat constructor. simpl. tauto.
  - apply List.NoDup_cons_iff in U as [N U].
    destruct (String.eqb_spec k0 k) as [->|Nk]; simpl.
    + constructor; assumption.
    + constructor; [|auto]. intros H. apply N.
      apply in_keys_iff in H. rewrite dict_get_set in H.
      destruct (String.eqb_spec k k0); [congruence|]. now apply in_keys_iff.
Qed.

Lemma dict_update_keys_nodup {A : Type} (p base : list (string * A)) :
  List.NoDup (keys base) -> List.NoDup (keys (dict_update base p)).
Proof.
  unfold dict_update. revert base. induction p as [|kv p IH]; intros base U; simpl.
  - exact U.
  - apply IH. now apply dict_set_keys_nodup.
Qed.

(** The parameters of the request merged over those of the URL normalise
    alike when the request parameters are the same map. *)
Lemma merged_params_normalize (base p1 p2 : list (string * json)) :
  List.NoDup (keys base) ->
  same_json (JDict p1) (JDict p2) ->
  normalize_dict (JDict (dict_update base p1)) = normalize_dict (JDict (dict_update base p2)).
Proof.
  intros U Hs. inversion Hs as [| |d1 d2 U1 U2 Hsome Hnone]; subst.
  simpl. f_equal. apply sorted_items_ext.
  - rewrite keys_normalized. now apply dict_update_keys_nodup.
  - rewrite keys_normalized. now apply dict_update_keys_nodup.
  - intros k. rewrite !dict_get_map, !dict_get_update by assumption.
    destruct (dict_get k p1) as [v1|] eqn:G.
    + destruct (Hsome k v1 G) as (v2 & G2 & S12). rewrite G2. simpl. f_equal.
      now apply normalize_dict_same_json.
    + now rewrite (Hnone k G).
Qed.

Lemma url_params_keys_nodup (q : list (string * list string)) :
  List.NoDup (keys (fold_left (fun acc kv => dict_set (fst kv) (flatten_single (snd kv)) acc)
                              q [])).
Proof.
  assert (forall acc : list (string * json), List.NoDup (keys acc) ->
            List.NoDup (keys (fold_left
              (fun acc kv => dict_set (fst kv) (flatten_single (snd kv)) acc) q acc))) as H.
  { induction q as [|kv q IH]; intros acc U; simpl; [exact U|].
    apply IH. now apply dict_set_keys_nodup. }
  apply H. constructor.
Qed.

(** C8.  The cache key does not depend on the order in which the query
    parameters were inserted: for a URL, a body and two parameter dicts
    that hold the same key-value pairs at every depth, [_create_cache_key]
    returns the same key. *)
Theorem create_cache_key_order_invariant `{PyStdlib} (url : string)
    (params1 params2 : list (string * json)) (payload : json) :
  same_json (JDict params1) (JDict params2) ->
  _create_cache_key url (Some params1) payload = _create_cache_key url (Some params2) payload.
Proof.
  intros Hs. unfold _create_cache_key. cbv zeta.
  set (base := fold_left (fun acc kv => dict_set (fst kv) (flatten_single (snd kv)) acc)
                         (url_query url) []).
  assert (forall p : list (string * json),
            match p with
            | x :: q => dict_update base (x :: q)
            | [] => base
            end = dict_update base p) as Hupd by (intros [|x q]; reflexivity).
  assert (forall a : list (string * json),
            match a with
            | [] => NDict []
            | _ :: _ => normalize_dict (JDict a)
            end = normalize_dict (JDict a)) as Hnorm by (intros [|x q]; reflexivity).
  rewrite !Hupd, !Hnorm.
  rewrite (merged_params_normalize base params1 params2 (url_params_keys_nodup _) Hs).
  reflexivity.
Qed.

Lemma dict_get_cons {A : Type} (k k0 : string) (v0 : A) (d : list (string * A)) :
  dict_get k ((k0, v0) :: d) = if String.eqb k0 k then Some v0 else dict_get k d.
Proof. reflexivity. Qed.

Lemma same_json_ab_ba : same_json (JDict ab) (JDict ba).
Proof.
  constructor.
  - repeat constructor; simpl; intuition discriminate.
  - repeat constructor; simpl; intuition discriminate.
  - intros k v1. unfold ab, ba. rewrite !dict_get_cons.
    destruct (String.eqb_spec "a" k) as [Ea|Na]; destruct (String.eqb_spec "b" k) as [Eb|Nb];
      try (subst k; discriminate); intros [= <-];
      (eexists; split; [reflexivity | constructor]).
  - intros k. unfold ab, ba. rewrite !dict_get_cons.
    destruct (String.eqb_spec "a" k); destruct (String.eqb_spec "b" k);
      try discriminate; reflexivity.
Defined.

Lemma create_cache_key_order_invariant_witness :
  @_create_cache_key plain_stdlib "http://h/p" (Some ab) JNone =
  @_create_cache_key plain_stdlib "http://h/p" (Some ba) JNone.
Proof.
  exact (@create_cache_key_order_invariant plain_stdlib "http://h/p" ab ba JNone
           same_json_ab_ba).
Defined.

End CacheKeyFacts.

(** ** The transaction identity *)

Module IdentityFacts.
Import Py Utility Jde Notions.

Lemma append_inj_l (p a b : string) : p +:+ a = p +:+ b -> a = b.
Proof.
  induction p as [|c p IH]; simpl; [auto|]. intros [= H]. auto.
Qed.

(** Two identities with the same name, lot and vessel are equal exactly
    when the normalised quantities are. *)
Lemma identity_equal_iff (a b c q1 q2 : pyval) :
  unique_transaction_id_for a b c q1 = unique_transaction_id_for a b c q2 <->
  normalized q1 = normalized q2.
Proof.
  unfold unique_transaction_id_for, normalized. split.
  - intros H. do 6 (apply append_inj_l in H). exact H.
  - intros ->. reflexivity.
Qed.

(** C3, as stated, fails at its last example: 5.100000001 has nine
    decimals and keeps them. *)
Lemma nine_decimals_kept_cex :
  normalized (PyFloat (float_literal "5.100000001")) <>
  normalized (PyFloat (float_literal "5.1")).
Proof. vm_compute. discriminate. Qed.

(** C3, amended.  Identity derivation collapses exactly at the nine-decimal
    normalisation: identities with equal name, lot and vessel are equal if
    and only if the normalised quantities are equal; 5, 5.0 and
    "5.000000000" normalise to "5"; 5.1 and 5.10000001 normalise
    differently; 5.100000001 keeps its nine decimals and differs from 5.1;
    the tenth decimal is the one rounded away, so 5.1000000001 normalises
    to "5.1". *)
Theorem identity_collapses_at_nine_decimals :
  (forall a b c q1 q2 : pyval,
     unique_transaction_id_for a b c q1 = unique_transaction_id_for a b c q2 <->
     normalized q1 = normalized q2) /\
  normalized (PyInt 5) = "5" /\
  normalized (PyFloat (float_literal "5.0")) = "5" /\
  normalized (PyStr "5.000000000") = "5" /\
  normalized (PyFloat (float_literal "5.1")) = "5.1" /\
  normalized (PyFloat (float_literal "5.10000001")) = "5.10000001" /\
  normalized (PyFloat (float_literal "5.100000001")) = "5.100000001" /\
  normalized (PyFloat (float_literal "5.1000000001")) = "5.1".
Proof.
  split; [exact identity_equal_iff|].
  repeat split; vm_compute; reflexivity.
Qed.

(** The identity of the scenario of the specification. *)
Example identity_of_scenario :
  unique_transaction_id_for (PyStr "Flour") (PyStr "LOT1") (PyStr "V1") (PyInt 5)
  = "Flour_LOT1_V1_5".
Proof. vm_compute. reflexivity. Qed.

End IdentityFacts.

(** ** The dispatchers *)

Module DispatchFacts.
Import Py Utility Jde Notions.

(** *** Rows written by the upsert *)

Lemma upsert_writes_row (r : row) (t : table) :
  unique_constraint t ->
  exists x, rows_of (unique_transaction_id r) (upsert r t) = [x] /\
            status x = status r /\ status_text x = status_text r.
Proof.
  intros U. rewrite (LedgerFacts.rows_of_upsert_same r t U).
  destruct (rows_of (unique_transaction_id r) t) as [|y ys]; eexists; repeat split.
Qed.


(** *** [post_data_to_jde] *)





(** *** [dispatch_single_batch_to_jde] *)


(** *** Examples *)




(** *** Quantities that are not dispatched *)

Lemma bind_ok {A : Type} (c : result A) : (try! x := c in Ok x) = c.
Proof. destruct c; reflexivity. Qed.

Lemma collect_ext {A B : Type} (f g : A -> result (list B)) (l : list A) :
  (forall x, In x l -> f x = g x) -> Dag.collect f l = Dag.collect g l.
Proof.
  induction l as [|x l IH]; intros H; simpl; [reflexivity|].
  rewrite (H x (or_introl eq_refl)), IH; [reflexivity|].
  intros y Hy. apply H. now right.
Qed.

Lemma collect_map {A B C : Type} (h : A -> B) (f : B -> result (list C)) (l : list A) :
  Dag.collect f (List.map h l) = Dag.collect (fun x => f (h x)) l.
Proof. induction l as [|x l IH]; simpl; [reflexivity | now rewrite IH]. Qed.

(** Elements on which the body appends nothing can be left out. *)
Lemma collect_filter {A B : Type} (keep : A -> bool) (f : A -> result (list B)) (l : list A) :
  (forall x, keep x = false -> f x = Ok []) ->
  Dag.collect f (List.filter keep l) = Dag.collect f l.
Proof.
  intros H. induction l as [|x l IH]; simpl; [reflexivity|].
  destruct (keep x) eqn:K; simpl.
  - now rewrite IH.
  - rewrite (H x K), IH. simpl. symmetry. apply bind_ok.
Qed.

Lemma parse_addition_skipped (action_id : pyval)
    (ingredient_summary ingredient_units : list (string * pyval))
    (batch_summary : list Dag.batch_record) (l : Dag.lot_entry) (v : Dag.vessel_entry)
    (addition : string * pyval) :
  Dag.skip_quantity (snd addition) = true ->
  Dag.parse_addition action_id ingredient_summary ingredient_units batch_summary l v addition
  = Ok [].
Proof. destruct addition as [i q]. simpl. intros ->. reflexivity. Qed.

Lemma parse_entry_drop_skipped (e : Dag.action_entry) :
  Dag.parse_entry (Dag.drop_skipped_entry e) = Dag.parse_entry e.
Proof.
  unfold Dag.parse_entry. simpl. destruct (Dag.is_addition (Dag.actionType e)); [|reflexivity].
  rewrite collect_map. apply collect_ext. intros l _. simpl.
  rewrite collect_map. apply collect_ext. intros v _. simpl.
  apply collect_filter. intros a K. apply parse_addition_skipped.
  now apply negb_false_iff in K.
Qed.

Lemma parse_drop_skipped (data : list Dag.action_entry) :
  Dag.parse_bakery_system_json (Dag.drop_skipped data) = Dag.parse_bakery_system_json data.
Proof.
  unfold Dag.parse_bakery_system_json, Dag.drop_skipped. rewrite collect_map.
  apply collect_ext. intros e _. apply parse_entry_drop_skipped.
Qed.

(** The scenario of the specification: the candidate is dispatched once,
    recorded as [done], and skipped by the next run. *)
Example scenario_first_run :
  exists r x,
    @Dag.pipeline plain_stdlib accepting_env [addition_of (PyInt 5)] [] = Ok (Dag.Next r) /\
    Dag.ledger r = [x] /\
    unique_transaction_id x = "Flour_LOT1_V1_5" /\ status x = "done" /\
    List.length (Dag.sent r) = 1%nat.
Proof. do 2 eexists. vm_compute. repeat split. Qed.

Example scenario_second_run (x : row) :
  unique_transaction_id x = "Flour_LOT1_V1_5" -> status x = "done" ->
  exists r,
    @Dag.pipeline plain_stdlib accepting_env [addition_of (PyInt 5)] [x] = Ok (Dag.Next r) /\
    Dag.ledger r = [x] /\ Dag.sent r = [] /\
    In (Dag.ERROR_already_done "Flour_LOT1_V1_5") (Dag.resp_arr r).
Proof.
  intros Huid Hst. destruct x; simpl in Huid, Hst; subst.
  eexists. vm_compute. repeat split. auto.
Qed.

(** C7, as stated, fails in the DAG: a candidate with quantity 0 leaves no
    entry in the result list. *)
Lemma zero_quantity_leaves_no_entry_cex :
  exists r,
    @Dag.pipeline plain_stdlib (dag_env 200) [addition_of (PyInt 0)] [] = Ok (Dag.Next r) /\
    Dag.sent r = [] /\ Dag.resp_arr r = [].
Proof. eexists. repeat split. Qed.

(** C7, amended.  No candidate whose quantity is 0, 0.0, "0", "0.0", "" or
    [None] reaches the HTTP client.  In the DAG such an addition is dropped
    by [parse_bakery_system_json]: the parser appends nothing for it, so
    the items, and with them the whole run of [post_data_to_jde] (payloads
    posted, ledger, result list), are those of the data without it.  An
    item whose quantity is a numeric zero is not posted by
    [post_data_to_jde] either.  [dispatch_single_batch_to_jde] posts
    nothing for such a batch, leaves the ledger as it was and returns an
    error result. *)
Theorem blank_quantity_not_dispatched `{PyStdlib} :
  (forall q, In q blank_quantities ->
             Dag.skip_quantity q = true /\ JdeHelper.zero_or_null q = true) /\
  (forall action_id ingredient_summary ingredient_units batch_summary l v ingredient_id q,
     Dag.skip_quantity q = true ->
     Dag.parse_addition action_id ingredient_summary ingredient_units batch_summary l v
       (ingredient_id, q) = Ok []) /\
  (forall data,
     Dag.parse_bakery_system_json (Dag.drop_skipped data) = Dag.parse_bakery_system_json data) /\
  (forall E data t, Dag.pipeline E (Dag.drop_skipped data) t = Dag.pipeline E data t) /\
  (forall E r it,
     py_eq_zero (Dag.f_change_value (Dag.value it)) = true ->
     Dag.sent (run_of (Dag.process_item E r it)) = Dag.sent r) /\
  (forall E b t,
     JdeHelper.zero_or_null (JdeHelper.bd_quantity b) = true ->
     exists res, JdeHelper.dispatch_single_batch_to_jde E b t = (res, t, []) /\
                 JdeHelper.success res = false).
Proof.
  split; [|split; [|split; [|split; [|split]]]].
  - intros q Hq. unfold blank_quantities in Hq. simpl in Hq.
    repeat (destruct Hq as [<-|Hq]; [split; reflexivity|]). destruct Hq.
  - intros. now apply parse_addition_skipped.
  - exact parse_drop_skipped.
  - intros E data t. unfold Dag.pipeline. now rewrite parse_drop_skipped.
  - intros E r it Hzero. unfold Dag.process_item. rewrite Hzero. simpl.
    destruct (is_done _ _); [reflexivity|].
    destruct (convert_unit _); [|reflexivity].
    destruct (try! u := as_str _ in _); reflexivity.
  - intros E b t Hz. unfold JdeHelper.dispatch_single_batch_to_jde.
    destruct (JdeHelper.missing_fields b); [|eexists; split; reflexivity].
    rewrite Hz. eexists; split; reflexivity.
Qed.

Lemma blank_quantity_not_dispatched_witness :
  exists res,
    @JdeHelper.dispatch_single_batch_to_jde plain_stdlib (helper_env 200)
      (flour_batch (PyStr "0.0")) [] = (res, [], []) /\
    JdeHelper.success res = false.
Proof.
  exact (proj2 (proj2 (proj2 (proj2 (proj2 (@blank_quantity_not_dispatched plain_stdlib)))))
           (helper_env 200) (flour_batch (PyStr "0.0")) [] eq_refl).
Defined.

End DispatchFacts.

(** ** The retrying client: what it returns and when it sleeps *)

Module ClientFacts.
Import Py Utility Jde Notions MoreNotions.

(** One step of [retry_request] on an answer that is neither a success nor
    a rate limit, on a transport failure or on a malformed hint ends the
    call; the rate-limit step is the only one that goes on. *)
Lemma retry_request_returned_cases (fuel : nat) (net : transport) (n : nat) (method : string)
    (v : json) (evs : list event) :
  retry_request (S fuel) net n method = (Returned v, evs) ->
  (v = JNone /\ count_requests evs = (if supported_method method then 1 else 0)%nat
   /\ sleeps evs = []) \/
  (exists r, supported_method method = true /\ net n = Answered r /\
             is_success (status_code r) = true /\
             json_of r = Some v /\ is_empty_list v = false /\ evs = [Request n]) \/
  (exists r w evs', supported_method method = true /\ net n = Answered r /\
                    rate_limit_wait r = Ok w /\
                    retry_request fuel net (S n) method = (Returned v, evs') /\
                    evs = Request n :: Sleep w :: evs').
Proof.
  cbn [retry_request]. destruct (supported_method method) eqn:Hm; simpl.
  2:{ intros [= <- <-]. left. repeat split; reflexivity. }
  destruct (net n) as [r| |] eqn:Hn.
  2,3: intros [= <- <-]; left; repeat split; reflexivity.
  destruct ((status_code r =? 200) || (status_code r =? 201)) eqn:Hs.
  - destruct (json_of r) as [j|] eqn:Hj.
    + destruct (is_empty_list j) eqn:He.
      * intros [= <- <-]. left. repeat split; reflexivity.
      * intros [= <- <-]. right. left. exists r. unfold is_success. repeat split; auto.
    + intros [= <- <-]. left. repeat split; reflexivity.
  - destruct ((status_code r =? 429) || (status_code r =? 423)) eqn:Hl.
    + destruct (rate_limit_wait r) as [w|e] eqn:Hw.
      * destruct (retry_request fuel net (S n) method) as [o evs'] eqn:Hr.
        intros [= -> <-]. right. right. exists r, w, evs'. repeat split; auto.
      * intros [= <- <-]. left. repeat split; reflexivity.
    + destruct (status_code r =? 400); intros [= <- <-]; left; repeat split; reflexivity.
Qed.

(** X1: whatever [retry_request] returns other than [None] is the JSON body
    of a [200] or [201] answer to one of the requests it made, and it is
    never the empty list. *)
Theorem retry_request_returns_a_success_body (fuel : nat) (net : transport) (n : nat)
    (method : string) (v : json) (evs : list event) :
  retry_request fuel net n method = (Returned v, evs) ->
  v <> JNone ->
  exists k r,
    (n <= k)%nat /\ In (Request k) evs /\ net k = Answered r /\
    (status_code r = 200 \/ status_code r = 201) /\
    json_of r = Some v /\ v <> JList [].
Proof.
  revert n v evs. induction fuel as [|fuel IH]; intros n v evs Hrun Hv.
  - discriminate.
  - destruct (retry_request_returned_cases _ _ _ _ _ _ Hrun)
      as [[-> _]|[(r & Hm & Hn & Hs & Hj & He & ->)|(r & w & evs' & Hm & Hn & Hw & Hr & ->)]].
    + now destruct Hv.
    + exists n, r. repeat split; auto.
      * now left.
      * unfold is_success in Hs. lia.
      * intros ->. discriminate.
    + destruct (IH _ _ _ Hr Hv) as (k & r' & Hk & Hin & Hnet & Hst & Hj & Hne).
      exists k, r'. repeat split; auto.
      * lia.
      * right. right. exact Hin.
Qed.

Lemma retry_request_returns_a_success_body_witness :
  exists k r,
    (0 <= k)%nat /\
    In (Request k) (snd (retry_request 3 (fun n => match n with
                                                  | O => Answered (rate_limited 429 "" false)
                                                  | S _ => Answered (ok_response (JAtom (PyInt 7)))
                                                  end) 0 "GET")) /\
    (fun n => match n with
              | O => Answered (rate_limited 429 "" false)
              | S _ => Answered (ok_response (JAtom (PyInt 7)))
              end) k = Answered r /\
    (status_code r = 200 \/ status_code r = 201) /\
    json_of r = Some (JAtom (PyInt 7)) /\ JAtom (PyInt 7) <> JList [].
Proof.
  apply (retry_request_returns_a_success_body 3 _ 0 "GET" (JAtom (PyInt 7))
           [Request 0%nat; Sleep (PyInt 10); Request 1%nat]).
  - reflexivity.
  - discriminate.
Defined.

(** X2: between two requests of one call there is exactly one sleep: a call
    that returns has made one request more than it has slept. *)
Theorem retry_request_sleeps_between_requests (fuel : nat) (net : transport) (n : nat)
    (method : string) (v : json) (evs : list event) :
  supported_method method = true ->
  retry_request fuel net n method = (Returned v, evs) ->
  count_requests evs = S (List.length (sleeps evs)).
Proof.
  intros Hm. revert n v evs. induction fuel as [|fuel IH]; intros n v evs Hrun.
  - discriminate.
  - destruct (retry_request_returned_cases _ _ _ _ _ _ Hrun)
      as [(_ & Hc & Hs)|[(r & _ & _ & _ & _ & _ & ->)|(r & w & evs' & _ & _ & _ & Hr & ->)]].
    + rewrite Hc, Hs, Hm. reflexivity.
    + reflexivity.
    + specialize (IH _ _ _ Hr). unfold count_requests in *. simpl. now rewrite IH.
Qed.

Lemma retry_request_sleeps_between_requests_witness :
  count_requests (snd (retry_request 3 limited_then_empty 0 "GET")) =
  S (List.length (sleeps (snd (retry_request 3 limited_then_empty 0 "GET")))).
Proof.
  apply (retry_request_sleeps_between_requests 3 limited_then_empty 0 "GET" JNone).
  - reflexivity.
  - reflexivity.
Defined.



(** X4: a rate-limit answer whose body is JSON without a usable hint (not an
    object, [metadata] not an object, [wait] not a number) is not retried:
    the call returns [None] after this one request, without sleeping. *)
Theorem rate_limit_with_malformed_hint_gives_up (fuel : nat) (net : transport) (n : nat)
    (method : string) (r : response) (j : json) :
  supported_method method = true ->
  net n = Answered r ->
  status_code r = 429 \/ status_code r = 423 ->
  json_of r = Some j ->
  malformed_hint j = true ->
  retry_request (S fuel) net n method = (Returned JNone, [Request n; LogUnexpected]).
Proof.
  intros Hm Hn Hs Hj Hbad. cbn [retry_request]. rewrite Hm, Hn. simpl.
  replace ((status_code r =? 200) || (status_code r =? 201)) with false
    by (symmetry; destruct Hs as [-> | ->]; reflexivity).
  replace ((status_code r =? 429) || (status_code r =? 423)) with true
    by (symmetry; destruct Hs as [-> | ->]; reflexivity).
  assert (Hw : exists e, rate_limit_wait r = Raise e).
  { unfold rate_limit_wait. rewrite Hj. unfold malformed_hint in Hbad.
    destruct j as [a|l|d]; [eauto..|].
    destruct (dict_get "metadata" d) as [[a|l|md]|]; [eauto..| |discriminate].
    destruct (dict_get "wait" md) as [w|]; [|discriminate].
    unfold rate_limit_sleep.
    destruct w as [[| | | |]|l|d']; simpl in Hbad; try discriminate; eauto. }
  destruct Hw as [e ->]. reflexivity.
Qed.

Lemma rate_limit_with_malformed_hint_gives_up_witness :
  retry_request 4 (fun _ => Answered {| status_code := 429; text := "[]";
                                        json_of := Some (JList []) |}) 0 "GET" =
  (Returned JNone, [Request 0%nat; LogUnexpected]).
Proof.
  apply (rate_limit_with_malformed_hint_gives_up 3 _ 0 "GET"
           {| status_code := 429; text := "[]"; json_of := Some (JList []) |} (JList [])).
  - reflexivity.
  - reflexivity.
  - now left.
  - reflexivity.
  - reflexivity.
Defined.

End ClientFacts.

(** ** The request cache: hits, expiry, invalidation *)

Module CacheMoreFacts.
Import Py Utility Jde Notions UtilityMore JdeHelperMore MoreNotions.

(** What [set_in_lru_cache] stores for a response. *)
Lemma set_in_lru_cache_absent (now : Z) (key : string) (v : json) (t : cache_table) :
  t !! key = None ->
  set_in_lru_cache now key v t =
  <[key := {| cached := Text (Some (match v with JList [x] => x | _ => v end));
              timestamp := now |}]> t.
Proof. intros Hk. unfold set_in_lru_cache. now rewrite Hk. Qed.

(** The client never returns the empty list. *)
Lemma retry_request_not_empty_list (fuel : nat) (net : transport) (n : nat) (method : string)
    (v : json) (evs : list event) :
  retry_request fuel net n method = (Returned v, evs) -> is_empty_list v = false.
Proof.
  revert n v evs. induction fuel as [|fuel IH]; intros n v evs Hrun; [discriminate|].
  destruct (ClientFacts.retry_request_returned_cases _ _ _ _ _ _ Hrun)
    as [[-> _]|[(r & _ & _ & _ & _ & He & _)|(r & w & evs' & _ & _ & _ & Hr & _)]]; eauto.
Qed.

(** A [GET] that finds nothing under its key asks the network and stores
    what it received. *)
Lemma lru_miss_stores `{PyStdlib} (fuel : nat) (net : transport) (t_get t_set : Z)
    (t : cache_table) (url : string) (payload : json)
    (params : option (list (string * json))) (v : json) (evs : list event) :
  t !! _create_cache_key url params payload = None ->
  retry_request fuel net 0 "GET" = (Returned v, evs) ->
  v <> JNone ->
  retry_request_lru fuel net t_get t_set t url "GET" payload params =
  (Returned v,
   <[_create_cache_key url params payload :=
       {| cached := Text (Some (match v with JList [x] => x | _ => v end));
          timestamp := t_set |}]> t,
   evs).
Proof.
  intros Hk Hrun Hv. unfold retry_request_lru. simpl.
  unfold get_from_lru_cache. rewrite Hk. simpl. rewrite Hrun.
  rewrite (retry_request_not_empty_list _ _ _ _ _ _ Hrun).
  assert (Hn : is_none v = false).
  { destruct v as [[| | | |]| |]; try reflexivity. now destruct Hv. }
  rewrite Hn. simpl. now rewrite set_in_lru_cache_absent.
Qed.

(** A [GET] that finds a fresh document under its key returns it without a
    request. *)
Lemma lru_hit `{PyStdlib} (fuel : nat) (net : transport) (t_get t_set : Z)
    (t : cache_table) (url : string) (payload : json)
    (params : option (list (string * json))) (row : cache_row) (v : json) :
  t !! _create_cache_key url params payload = Some row ->
  fresh t_get row = true ->
  cached row = Text (Some v) ->
  v <> JNone -> v <> JList [] -> (forall s, v <> JAtom (PyStr s)) ->
  retry_request_lru fuel net t_get t_set t url "GET" payload params = (Returned v, t, []).
Proof.
  intros Hk Hf Hc Hn He Hs. unfold retry_request_lru. simpl.
  unfold get_from_lru_cache. rewrite Hk, Hf, Hc.
  destruct v as [[| | | |]|[|x l]|d]; simpl; try reflexivity.
  - now destruct Hn.
  - now destruct (Hs s).
  - now destruct He.
Qed.

(** X5: the second of two [GET]s for the same URL, parameters and payload
    within the hour is answered from the cache, without a request; what it
    returns is what was stored, so the only element [x] of a one-element
    list where the first call returned the list [[x]]. *)
Theorem second_get_is_served_from_cache `{PyStdlib} (fuel fuel2 : nat) (net net2 : transport)
    (t_get t_set t_get2 t_set2 : Z) (t : cache_table) (url : string) (payload : json)
    (params : option (list (string * json))) (v : json) (evs : list event) :
  let stored := match v with JList [x] => x | _ => v end in
  t !! _create_cache_key url params payload = None ->
  retry_request fuel net 0 "GET" = (Returned v, evs) ->
  v <> JNone ->
  t_get2 < t_set + 3600 ->
  stored <> JNone -> stored <> JList [] -> (forall s, stored <> JAtom (PyStr s)) ->
  exists t1,
    retry_request_lru fuel net t_get t_set t url "GET" payload params = (Returned v, t1, evs) /\
    retry_request_lru fuel2 net2 t_get2 t_set2 t1 url "GET" payload params
    = (Returned stored, t1, []).
Proof.
  intros stored Hk Hrun Hv Ht Hn He Hs. eexists. split.
  - now apply lru_miss_stores.
  - eapply lru_hit; eauto.
    + apply lookup_insert_eq.
    + unfold fresh. simpl. lia.
    + reflexivity.
Qed.

Lemma second_get_is_served_from_cache_witness :
  exists t1,
    @retry_request_lru plain_stdlib 2 (fun _ => Answered (ok_response (JList [JAtom (PyInt 7)])))
      0 0 ∅ "http://h/p" "GET" JNone None
    = (Returned (JList [JAtom (PyInt 7)]), t1, [Request 0%nat]) /\
    @retry_request_lru plain_stdlib 0 (fun _ => RequestFailed) 10 10 t1 "http://h/p" "GET"
      JNone None
    = (Returned (JAtom (PyInt 7)), t1, []).
Proof.
  apply (@second_get_is_served_from_cache plain_stdlib 2 0
           (fun _ => Answered (ok_response (JList [JAtom (PyInt 7)]))) (fun _ => RequestFailed)
           0 0 10 10 ∅ "http://h/p" JNone None (JList [JAtom (PyInt 7)]) [Request 0%nat]).
  - reflexivity.
  - reflexivity.
  - discriminate.
  - lia.
  - discriminate.
  - discriminate.
  - discriminate.
Defined.

(** X6: an entry that has expired is never replaced: a [GET] that finds a
    row older than an hour under its key asks the network and leaves the
    table as it was whatever it received, so every later call asks the
    network again. *)
Theorem expired_entry_is_never_refreshed `{PyStdlib} (fuel : nat) (net : transport)
    (t_get t_set : Z) (t : cache_table) (url : string) (payload : json)
    (params : option (list (string * json))) (row : cache_row) :
  t !! _create_cache_key url params payload = Some row ->
  timestamp row + 3600 <= t_get ->
  retry_request_lru fuel net t_get t_set t url "GET" payload params =
  (fst (retry_request fuel net 0 "GET"), t, snd (retry_request fuel net 0 "GET")).
Proof.
  intros Hk Hold. unfold retry_request_lru. simpl.
  unfold get_from_lru_cache. rewrite Hk.
  replace (fresh t_get row) with false by (symmetry; unfold fresh; lia).
  simpl. destruct (retry_request fuel net 0 "GET") as [[v|] evs] eqn:Hrun; [|reflexivity].
  simpl. match goal with |- context [if ?c then _ else _] => destruct c end; [|reflexivity].
  unfold set_in_lru_cache. now rewrite Hk.
Qed.

Lemma expired_entry_is_never_refreshed_witness :
  let t : cache_table :=
    <[@_create_cache_key plain_stdlib "http://h/p" None JNone :=
        {| cached := Text (Some (JAtom (PyInt 1))); timestamp := 0 |}]> ∅ in
  @retry_request_lru plain_stdlib 2 (fun _ => Answered (ok_response (JAtom (PyInt 2))))
    3600 3600 t "http://h/p" "GET" JNone None
  = (Returned (JAtom (PyInt 2)), t, [Request 0%nat]).
Proof.
  intros t.
  apply (@expired_entry_is_never_refreshed plain_stdlib 2
           (fun _ => Answered (ok_response (JAtom (PyInt 2)))) 3600 3600 t "http://h/p" JNone None
           {| cached := Text (Some (JAtom (PyInt 1))); timestamp := 0 |}).
  - apply lookup_insert_eq.
  - simpl. lia.
Defined.

(** X7: a request whose method is not [GET] neither reads nor writes the
    cache: it returns what [retry_request] returns and leaves the table as
    it was. *)
Theorem other_methods_bypass_the_cache `{PyStdlib} (fuel : nat) (net : transport)
    (t_get t_set : Z) (t : cache_table) (url method : string) (payload : json)
    (params : option (list (string * json))) :
  method <> "GET" ->
  retry_request_lru fuel net t_get t_set t url method payload params =
  (fst (retry_request fuel net 0 method), t, snd (retry_request fuel net 0 method)).
Proof.
  intros Hm. unfold retry_request_lru.
  destruct (String.eqb_spec method "GET") as [->|_]; [now destruct Hm|].
  destruct (retry_request fuel net 0 method) as [[v|] evs]; [|reflexivity].
  simpl. now rewrite andb_false_r.
Qed.

Lemma other_methods_bypass_the_cache_witness :
  @retry_request_lru plain_stdlib 2 (fun _ => Answered (ok_response (JAtom (PyInt 2))))
    0 0 ∅ "http://h/p" "POST" JNone None
  = (Returned (JAtom (PyInt 2)), ∅, [Request 0%nat]).
Proof.
  apply (@other_methods_bypass_the_cache plain_stdlib 2
           (fun _ => Answered (ok_response (JAtom (PyInt 2)))) 0 0 ∅ "http://h/p" "POST"
           JNone None).
  discriminate.
Defined.

(** X8: after [invalidate_lru_cache] the next [GET] for the same URL,
    parameters and payload asks the network, and a response other than
    [None] is stored afresh; the entries of other keys are left alone. *)
Theorem invalidate_forces_a_fresh_request `{PyStdlib} (fuel : nat) (net : transport)
    (t_get t_set : Z) (t : cache_table) (url : string) (payload : json)
    (params : option (list (string * json))) :
  let key := _create_cache_key url params payload in
  let t0 := invalidate_lru_cache url params payload t in
  (forall k, k <> key -> t0 !! k = t !! k) /\
  exists t1,
    retry_request_lru fuel net t_get t_set t0 url "GET" payload params =
    (fst (retry_request fuel net 0 "GET"), t1, snd (retry_request fuel net 0 "GET")) /\
    (forall v, fst (retry_request fuel net 0 "GET") = Returned v -> v <> JNone ->
       t1 !! key = Some {| cached := Text (Some (match v with JList [x] => x | _ => v end));
                           timestamp := t_set |}).
Proof.
  intros key t0. split.
  - intros k Hk. unfold t0, invalidate_lru_cache. simpl. now apply lookup_delete_ne.
  - assert (H0 : t0 !! key = None).
    { unfold t0, invalidate_lru_cache. simpl. apply lookup_delete_eq. }
    destruct (retry_request fuel net 0 "GET") as [[v|] evs] eqn:Hrun.
    + destruct (is_none v) eqn:Hn.
      * exists t0. split.
        -- unfold retry_request_lru. simpl. unfold get_from_lru_cache.
           fold key. rewrite H0. simpl. rewrite Hrun, Hn. reflexivity.
        -- simpl. intros v' [= <-] Hv. destruct v as [[| | | |]| |]; try discriminate.
           now destruct Hv.
      * eexists. split.
        -- apply lru_miss_stores; eauto. intros ->. discriminate.
        -- simpl. intros v' [= <-] _. apply lookup_insert_eq.
    + exists t0. split.
      * unfold retry_request_lru. simpl. unfold get_from_lru_cache.
        fold key. rewrite H0. simpl. rewrite Hrun. reflexivity.
      * simpl. discriminate.
Qed.

(** X9: reading the first element with [safe_get_from_response] gives the
    same whether the response comes from the network or has gone through
    the cache, as long as a one-element list does not hold a list. *)
Theorem safe_get_same_through_cache (now later : Z) (key : string) (t : cache_table)
    (v : json) :
  t !! key = None ->
  later < now + 3600 ->
  (forall x, v = JList [x] -> forall l, x <> JList l) ->
  safe_get_from_response (fst (get_from_lru_cache later key (set_in_lru_cache now key v t))) 0
  = safe_get_from_response v 0.
Proof.
  intros Hk Ht Hx. rewrite set_in_lru_cache_absent by exact Hk.
  unfold get_from_lru_cache. rewrite lookup_insert_eq.
  replace (fresh later _) with true by (symmetry; unfold fresh; simpl; lia).
  simpl. destruct v as [a|[|x [|y l]]|d]; simpl; try reflexivity.
  specialize (Hx x eq_refl).
  destruct x as [a|l|d]; simpl; try reflexivity. now destruct (Hx l).
Qed.

Lemma safe_get_same_through_cache_witness :
  safe_get_from_response
    (fst (get_from_lru_cache 1 "k" (set_in_lru_cache 0 "k" (JList [JDict []]) ∅))) 0
  = safe_get_from_response (JList [JDict []]) 0.
Proof.
  apply (safe_get_same_through_cache 0 1 "k" ∅ (JList [JDict []])).
  - reflexivity.
  - lia.
  - intros x [= <-] l. discriminate.
Defined.

(** X10: [fetch_existing_ingredient] finds the same product in the cache as
    on the network: when the products endpoint answers with a list whose
    first element is an object, a second lookup of the same name within the
    hour makes no request and yields what the first one yielded. *)
Theorem ingredient_lookup_same_from_cache `{PyStdlib} (fuel fuel2 : nat) (net net2 : transport)
    (t_get t_set t_get2 t_set2 : Z) (t : cache_table) (url name : string)
    (d : list (string * json)) (rest : list json) (evs : list event) :
  t !! _create_cache_key url (Some (ingredient_params name)) JNone = None ->
  retry_request fuel net 0 "GET" = (Returned (JList (JDict d :: rest)), evs) ->
  t_get2 < t_set + 3600 ->
  exists t1,
    fetch_existing_ingredient fuel net t_get t_set t url name
    = (Some (select_ingredient (JDict d) name), t1, evs) /\
    fetch_existing_ingredient fuel2 net2 t_get2 t_set2 t1 url name
    = (Some (select_ingredient (JDict d) name), t1, []).
Proof.
  intros Hk Hrun Ht. eexists. unfold fetch_existing_ingredient. split.
  - rewrite (lru_miss_stores _ _ _ _ _ _ _ _ _ _ Hk Hrun) by discriminate. reflexivity.
  - set (stored := match rest with [] => JDict d | _ => JList (JDict d :: rest) end).
    rewrite (lru_hit fuel2 net2 t_get2 t_set2 _ url JNone (Some (ingredient_params name))
               {| cached := Text (Some stored); timestamp := t_set |} stored).
    + unfold stored. destruct rest; reflexivity.
    + apply lookup_insert_eq.
    + unfold fresh. simpl. lia.
    + reflexivity.
    + unfold stored. destruct rest; discriminate.
    + unfold stored. destruct rest; discriminate.
    + unfold stored. destruct rest; discriminate.
Qed.

Lemma ingredient_lookup_same_from_cache_witness :
  exists t1,
    @fetch_existing_ingredient plain_stdlib 2
      (fun _ => Answered (ok_response (JList [JDict [("name", JAtom (PyStr "Flour"))]])))
      0 0 ∅ "http://h/products" "flour"
    = (Some (JDict [("name", JAtom (PyStr "Flour"))]), t1, [Request 0%nat]) /\
    @fetch_existing_ingredient plain_stdlib 0 (fun _ => RequestFailed) 10 10 t1
      "http://h/products" "flour"
    = (Some (JDict [("name", JAtom (PyStr "Flour"))]), t1, []).
Proof.
  apply (@ingredient_lookup_same_from_cache plain_stdlib 2 0
           (fun _ => Answered (ok_response (JList [JDict [("name", JAtom (PyStr "Flour"))]])))
           (fun _ => RequestFailed) 0 0 10 10 ∅ "http://h/products" "flour"
           [("name", JAtom (PyStr "Flour"))] [] [Request 0%nat]).
  - reflexivity.
  - reflexivity.
  - lia.
Defined.

End CacheMoreFacts.

(** ** The cache key: the types of the leaves *)

Module CacheKeyMoreFacts.
Import Py Utility Notions MoreNotions.

Lemma normalize_dict_stringify (j : json) : normalize_dict (stringify j) = normalize_dict j.
Proof.
  induction j as [a|l IH|d IH] using CacheKeyFacts.json_induction.
  - destruct a; reflexivity.
  - simpl. f_equal. rewrite List.map_map. apply List.map_ext_in.
    intros x Hx. rewrite List.Forall_forall in IH. now apply IH.
  - simpl. do 2 f_equal. rewrite List.map_map. apply List.map_ext_in.
    intros x Hx. rewrite List.Forall_forall in IH. simpl. f_equal. now apply IH.
Qed.

Lemma map_dict_set {A B : Type} (h : A -> B) (k : string) (v : A) (d : list (string * A)) :
  List.map (fun kv => (fst kv, h (snd kv))) (dict_set k v d) =
  dict_set k (h v) (List.map (fun kv => (fst kv, h (snd kv))) d).
Proof.
  induction d as [|[k' v'] d IH]; simpl; [reflexivity|].
  destruct (String.eqb k' k); simpl; [reflexivity|]. now rewrite IH.
Qed.

Lemma map_dict_update {A B : Type} (h : A -> B) (p base : list (string * A)) :
  List.map (fun kv => (fst kv, h (snd kv))) (dict_update base p) =
  dict_update (List.map (fun kv => (fst kv, h (snd kv))) base)
              (List.map (fun kv => (fst kv, h (snd kv))) p).
Proof.
  unfold dict_update. revert base.
  induction p as [|[k v] p IH]; intros base; simpl; [reflexivity|].
  now rewrite IH, map_dict_set.
Qed.

Lemma normalize_dict_update_stringify (base p : list (string * json)) :
  normalize_dict (JDict (dict_update base (stringify_items p))) =
  normalize_dict (JDict (dict_update base p)).
Proof.
  simpl. do 2 f_equal. rewrite !map_dict_update. f_equal.
  unfold stringify_items. rewrite List.map_map. apply List.map_ext.
  intros [k v]. simpl. now rewrite normalize_dict_stringify.
Qed.

(** X11: the key looks at the leaves of the parameters and of the payload
    through [str] only: replacing every leaf by its [str], as in [200] and
    ["200"] or [True] and ["True"], gives the same key, hence the same
    cache entry. *)
Theorem create_cache_key_ignores_leaf_types `{PyStdlib} (url : string)
    (params : list (string * json)) (payload : json) :
  (forall a, payload = JAtom a -> a = PyNone) ->
  _create_cache_key url (Some (stringify_items params)) (stringify payload) =
  _create_cache_key url (Some params) payload.
Proof.
  intros Hp. unfold _create_cache_key.
  set (base := fold_left _ (url_query url) []).
  assert (Hpar :
    match (match Some (stringify_items params) with
           | Some (x :: p) => dict_update base (x :: p)
           | _ => base
           end) with
    | [] => NDict []
    | _ => normalize_dict (JDict match Some (stringify_items params) with
                                 | Some (x :: p) => dict_update base (x :: p)
                                 | _ => base
                                 end)
    end =
    match (match Some params with
           | Some (x :: p) => dict_update base (x :: p)
           | _ => base
           end) with
    | [] => NDict []
    | _ => normalize_dict (JDict match Some params with
                                 | Some (x :: p) => dict_update base (x :: p)
                                 | _ => base
                                 end)
    end).
  { assert (Hn : forall l, match l with
                           | [] => NDict []
                           | _ => normalize_dict (JDict l)
                           end = normalize_dict (JDict l)) by (intros [|? ?]; reflexivity).
    rewrite !Hn. destruct params as [|x p]; [reflexivity|].
    change (stringify_items (x :: p)) with ((fst x, stringify (snd x)) :: stringify_items p).
    apply (normalize_dict_update_stringify base (x :: p)). }
  assert (Hpay :
    (if json_truthy (stringify payload) then normalize_dict (stringify payload) else NDict []) =
    (if json_truthy payload then normalize_dict payload else NDict [])).
  { rewrite normalize_dict_stringify.
    destruct payload as [a|[|x l]|[|x d]]; try reflexivity.
    now rewrite (Hp a eq_refl). }
  cbv zeta. rewrite Hpar, Hpay. reflexivity.
Qed.

Lemma create_cache_key_ignores_leaf_types_witness :
  @_create_cache_key plain_stdlib "http://h/p" (Some [("size", JAtom (PyStr "200"))]) JNone =
  @_create_cache_key plain_stdlib "http://h/p" (Some [("size", JAtom (PyInt 200))]) JNone.
Proof.
  apply (@create_cache_key_ignores_leaf_types plain_stdlib "http://h/p"
           [("size", JAtom (PyInt 200))] JNone).
  intros a [= <-]. reflexivity.
Defined.

End CacheKeyMoreFacts.

(** ** Runs of [post_data_to_jde] *)

Module RunFacts.
Import Py Utility Jde Notions MoreNotions.

(** The rows of an identity after an upsert, whatever the ledger holds. *)
Lemma rows_of_upsert (r : row) (t : table) :
  rows_of (unique_transaction_id r) (upsert r t) =
  match rows_of (unique_transaction_id r) t with
  | [] => [r]
  | x :: rest => do_update x r :: rest
  end.
Proof.
  unfold rows_of. induction t as [|x t IH]; simpl.
  - now rewrite String.eqb_refl.
  - destruct (String.eqb_spec (unique_transaction_id x) (unique_transaction_id r)) as [E|E]; simpl.
    + rewrite E, String.eqb_refl. reflexivity.
    + destruct (String.eqb_spec (unique_transaction_id x) (unique_transaction_id r));
        [contradiction|]. exact IH.
Qed.

Lemma is_done_upsert_same (r : row) (t : table) :
  is_done (unique_transaction_id r) (upsert r t) = String.eqb (status r) "done".
Proof.
  unfold is_done. rewrite rows_of_upsert.
  destruct (rows_of (unique_transaction_id r) t); reflexivity.
Qed.

Lemma is_done_upsert_other (uid : string) (r : row) (t : table) :
  unique_transaction_id r <> uid -> is_done uid (upsert r t) = is_done uid t.
Proof. intros Hne. unfold is_done. now rewrite LedgerFacts.rows_of_upsert_other. Qed.

(** Under the unique constraint an identity has at most one row. *)
Lemma rows_of_unique (uid : string) (t : table) :
  unique_constraint t -> rows_of uid t = [] \/ exists x, rows_of uid t = [x].
Proof.
  unfold unique_constraint, rows_of. induction t as [|x t IH]; simpl; intros U; [now left|].
  apply List.NoDup_cons_iff in U as [Hx U].
  destruct (String.eqb_spec (unique_transaction_id x) uid) as [E|E]; [|auto].
  right. exists x. f_equal. subst uid.
  now apply (proj2 (LedgerFacts.rows_of_nil_iff (unique_transaction_id x) t)).
Qed.

(** On a ledger that satisfies the unique constraint the guard of
    [post_data_to_jde] (first row of the identity, then [status == 'done'])
    and the guard of the interactive dispatchers ([... AND status = 'done'])
    give the same answer. *)
Lemma guards_agree (uid : string) (t : table) :
  unique_constraint t -> is_done_filtered uid t = is_done uid t.
Proof.
  intros U. unfold is_done_filtered, is_done.
  destruct (rows_of_unique uid t U) as [-> | [x ->]]; [reflexivity|].
  simpl. destruct (String.eqb (status x) "done"); reflexivity.
Qed.

(** *** One step of the loop *)

(** A step either posts nothing and leaves the ledger alone, or posts one
    payload and records the answer it gets. *)
Lemma process_item_cases `{PyStdlib} (E : Dag.env) (r : Dag.run) (it : Dag.item) :
  let f := Dag.process_item E r it in
  let uid := Dag.f_unique_transaction_id (Dag.value it) in
  ((is_done uid (Dag.ledger r) = true \/ loud it = false) /\
   Dag.sent (run_of f) = Dag.sent r /\ Dag.ledger (run_of f) = Dag.ledger r /\
   (is_done uid (Dag.ledger r) = true \/ quiet it = true <-> f = Dag.Next (run_of f)))
  \/
  (is_done uid (Dag.ledger r) = false /\ loud it = true /\ quiet it = false /\
   (exists p, Dag.sent (run_of f) = (Dag.sent r ++ [p])%list) /\
   match Dag.net E (List.length (Dag.sent r)) with
   | RequestFailed =>
       f = Dag.Abort RequestException (run_of f) /\ Dag.ledger (run_of f) = Dag.ledger r
   | OtherFailure =>
       f = Dag.Abort OtherException (run_of f) /\ Dag.ledger (run_of f) = Dag.ledger r
   | Answered resp =>
       Dag.ledger (run_of f) =
       upsert (Dag.outcome_row it (Dag.response_status_text resp)
                 (if is_success (status_code resp) then "done" else "error"))
              (Dag.ledger r) /\
       (is_success (status_code resp) = true -> json_of resp = None ->
        f = Dag.Abort ValueError (run_of f)) /\
       (is_success (status_code resp) = false \/ json_of resp <> None ->
        f = Dag.Next (run_of f))
   end).
Proof.
  intros f uid. subst f uid. unfold Dag.process_item, quiet, loud. simpl.
  destruct (is_done _ _) eqn:Hd.
  { left. simpl. repeat split; auto. }
  destruct (convert_unit _) as [cu|e] eqn:Hc.
  2:{ left. simpl. repeat split; auto. intros [|]; discriminate. discriminate. }
  destruct (try! u := as_str _ in _) as [cq|e] eqn:Hq.
  2:{ left. simpl. repeat split; auto. intros [|]; discriminate. discriminate. }
  destruct (py_eq_zero _ || _ || _) eqn:Hz.
  { left. simpl. repeat split; auto. }
  destruct (as_str (Dag.f_ingredient_name _)) as [name|e] eqn:Hn.
  2:{ left. simpl. repeat split; auto. intros [|]; discriminate. discriminate. }
  right. split; [reflexivity|]. split; [reflexivity|]. split; [reflexivity|].
  destruct (Dag.net E _) as [resp| |] eqn:Hnet.
  - destruct (is_success (status_code resp)) eqn:Hs.
    + destruct (json_of resp) as [j|] eqn:Hj; simpl.
      * split; [eauto|]. split; [reflexivity|]. split; [discriminate|reflexivity].
      * split; [eauto|]. split; [reflexivity|]. split; [reflexivity|].
        intros [|]; [discriminate|contradiction].
    + simpl. split; [eauto|]. split; [reflexivity|]. split; [discriminate|reflexivity].
  - simpl. split; [eauto|]. split; reflexivity.
  - simpl. split; [eauto|]. split; reflexivity.
Qed.

Lemma process_item_keeps_done `{PyStdlib} (E : Dag.env) (r : Dag.run) (it : Dag.item)
    (uid : string) :
  is_done uid (Dag.ledger r) = true ->
  is_done uid (Dag.ledger (run_of (Dag.process_item E r it))) = true.
Proof.
  intros Hd.
  destruct (process_item_cases E r it) as [(_ & _ & -> & _)|(Hnd & _ & _ & _ & Hnet)]; [exact Hd|].
  destruct (Dag.net E _) as [resp| |].
  - destruct Hnet as (-> & _). rewrite is_done_upsert_other; [exact Hd|].
    simpl. intros <-. congruence.
  - destruct Hnet as (_ & ->). exact Hd.
  - destruct Hnet as (_ & ->). exact Hd.
Qed.

Lemma post_loop_keeps_done `{PyStdlib} (E : Dag.env) (items : list Dag.item) (r : Dag.run)
    (uid : string) :
  is_done uid (Dag.ledger r) = true ->
  is_done uid (Dag.ledger (run_of (Dag.post_loop E items r))) = true.
Proof.
  revert r. induction items as [|it items IH]; intros r Hd; simpl; [exact Hd|].
  pose proof (process_item_keeps_done E r it uid Hd) as Hstep.
  destruct (Dag.process_item E r it) as [r'|e r']; simpl in *; auto.
Qed.

(** X12: [done] is final: an identity that the ledger holds as done stays
    done through any run of [post_data_to_jde], whatever the items and
    whatever the destination answers. *)
Theorem done_is_final `{PyStdlib} (E : Dag.env) (items : list Dag.item) (t : table)
    (uid : string) :
  is_done uid t = true ->
  is_done uid (Dag.ledger (run_of (Dag.post_data_to_jde E items t))) = true.
Proof. intros Hd. unfold Dag.post_data_to_jde. now apply post_loop_keeps_done. Qed.

Lemma done_is_final_witness :
  is_done "Flour_LOT1_V1_5"
    (Dag.ledger (run_of (@Dag.post_data_to_jde plain_stdlib (dag_env 500) [flour_item]
                           [sample_row "done" "ok"]))) = true.
Proof.
  apply (@done_is_final plain_stdlib (dag_env 500) [flour_item] [sample_row "done" "ok"]
           "Flour_LOT1_V1_5").
  reflexivity.
Defined.

(** *** Running the same items again *)

(** After a run that the destination accepted throughout, every item is
    done or is one that is never posted. *)
Lemma post_loop_settles `{PyStdlib} (E : Dag.env) (items : list Dag.item) (r r' : Dag.run) :
  (forall n resp, Dag.net E n = Answered resp -> is_success (status_code resp) = true) ->
  Dag.post_loop E items r = Dag.Next r' ->
  forall it, In it items ->
    is_done (Dag.f_unique_transaction_id (Dag.value it)) (Dag.ledger r') = true \/
    quiet it = true.
Proof.
  intros Hacc. revert r. induction items as [|it0 items IH]; intros r Hrun it Hin; [destruct Hin|].
  simpl in Hrun. destruct (Dag.process_item E r it0) as [r1|e r1] eqn:Hstep; [|discriminate].
  destruct Hin as [<-|Hin]; [|now apply (IH r1)].
  assert (Hr' : r' = run_of (Dag.post_loop E items r1)) by now rewrite Hrun.
  pose proof (process_item_cases E r it0) as Hc. rewrite Hstep in Hc. simpl in Hc.
  destruct Hc as [(_ & _ & Hl & Hiff)|(_ & _ & _ & _ & Hnet)].
  - destruct (proj2 Hiff eq_refl) as [Hd|Hq]; [|now right].
    left. rewrite Hr'. apply post_loop_keeps_done. now rewrite Hl.
  - left. rewrite Hr'. apply post_loop_keeps_done.
    destruct (Dag.net E _) as [resp| |] eqn:Hn.
    + destruct Hnet as (-> & _). rewrite (Hacc _ _ Hn).
      apply (is_done_upsert_same (Dag.outcome_row it0 (Dag.response_status_text resp) "done")).
    + destruct Hnet as (Habs & _). discriminate.
    + destruct Hnet as (Habs & _). discriminate.
Qed.

(** A run over items that are all done or never posted posts nothing and
    leaves the ledger alone. *)
Lemma post_loop_idle `{PyStdlib} (E : Dag.env) (items : list Dag.item) (r : Dag.run) :
  (forall it, In it items ->
     is_done (Dag.f_unique_transaction_id (Dag.value it)) (Dag.ledger r) = true \/
     quiet it = true) ->
  exists r', Dag.post_loop E items r = Dag.Next r' /\
             Dag.ledger r' = Dag.ledger r /\ Dag.sent r' = Dag.sent r.
Proof.
  revert r. induction items as [|it items IH]; intros r Hall; simpl; [eauto|].
  destruct (process_item_cases E r it) as [(_ & Hs & Hl & Hiff)|(Hnd & _ & Hnq & _)].
  - rewrite (proj1 Hiff (Hall it (or_introl eq_refl))).
    destruct (IH (run_of (Dag.process_item E r it))) as (r' & Hrun & Hl' & Hs').
    + intros it' Hin. rewrite Hl. apply Hall. now right.
    + exists r'. rewrite Hrun, Hl', Hs', Hl, Hs. auto.
  - destruct (Hall it (or_introl eq_refl)); congruence.
Qed.

(** X13: a run is idempotent: when [post_data_to_jde] has gone through a list
    of items against a destination that accepts what it is sent, a second
    run over the same items posts nothing and leaves the ledger as the
    first run left it, whatever the destination would answer. *)
Theorem second_run_posts_nothing `{PyStdlib} (E E2 : Dag.env) (items : list Dag.item)
    (t : table) (r : Dag.run) :
  (forall n resp, Dag.net E n = Answered resp -> is_success (status_code resp) = true) ->
  Dag.post_data_to_jde E items t = Dag.Next r ->
  exists r2, Dag.post_data_to_jde E2 items (Dag.ledger r) = Dag.Next r2 /\
             Dag.sent r2 = [] /\ Dag.ledger r2 = Dag.ledger r.
Proof.
  intros Hacc Hrun. unfold Dag.post_data_to_jde in *.
  destruct (post_loop_idle E2 items
              {| Dag.ledger := Dag.ledger r; Dag.sent := []; Dag.resp_arr := [] |})
    as (r2 & Hrun2 & Hl & Hs).
  - simpl. now apply (post_loop_settles E items _ r Hacc Hrun).
  - exists r2. auto.
Qed.

Lemma second_run_posts_nothing_witness :
  exists r2,
    @Dag.post_data_to_jde plain_stdlib (dag_env 500) [flour_item]
      (Dag.ledger (run_of (@Dag.post_data_to_jde plain_stdlib accepting_env [flour_item] [])))
    = Dag.Next r2 /\
    Dag.sent r2 = [] /\
    Dag.ledger r2 =
    Dag.ledger (run_of (@Dag.post_data_to_jde plain_stdlib accepting_env [flour_item] [])).
Proof.
  apply (@second_run_posts_nothing plain_stdlib accepting_env (dag_env 500) [flour_item] []
           (run_of (@Dag.post_data_to_jde plain_stdlib accepting_env [flour_item] []))).
  - intros n resp [= <-]. reflexivity.
  - reflexivity.
Defined.

(** *** Errors and exceptions *)



(** X15: an exception ends the run: when the transport fails on an item
    that is posted, or the destination accepts it with a body that is not
    JSON, [post_data_to_jde] stops there, the items after it are not
    attempted.  The transport failure leaves no row for the item; the
    accepted item is recorded as done before the run ends. *)
Theorem exception_ends_the_run `{PyStdlib} (E : Dag.env) (r : Dag.run) (it : Dag.item)
    (rest : list Dag.item) :
  let uid := Dag.f_unique_transaction_id (Dag.value it) in
  let r1 := run_of (Dag.process_item E r it) in
  Dag.sent r1 <> Dag.sent r ->
  (Dag.net E (List.length (Dag.sent r)) = RequestFailed ->
   Dag.post_loop E (it :: rest) r = Dag.Abort RequestException r1 /\
   Dag.ledger r1 = Dag.ledger r) /\
  (forall resp,
     Dag.net E (List.length (Dag.sent r)) = Answered resp ->
     is_success (status_code resp) = true -> json_of resp = None ->
     Dag.post_loop E (it :: rest) r = Dag.Abort ValueError r1 /\
     is_done uid (Dag.ledger r1) = true).
Proof.
  intros uid r1 Hsent.
  destruct (process_item_cases E r it) as [(_ & Hsame & _)|(_ & _ & _ & _ & Hrec)];
    [contradiction|].
  fold r1 in Hrec. split.
  - intros Hnet. rewrite Hnet in Hrec. destruct Hrec as (Hf & Hl).
    simpl. rewrite Hf. auto.
  - intros resp Hnet Hs Hj. rewrite Hnet, Hs in Hrec. destruct Hrec as (Hl & Hf & _).
    simpl. rewrite (Hf eq_refl Hj). split; [reflexivity|].
    rewrite Hl.
    apply (is_done_upsert_same (Dag.outcome_row it (Dag.response_status_text resp) "done")).
Qed.

Lemma exception_ends_the_run_witness :
  let E := {| Dag.net := fun _ => RequestFailed; Dag.today := today_ |} in
  @Dag.post_loop plain_stdlib E [flour_item; flour_item] fresh_run
  = Dag.Abort RequestException (run_of (@Dag.process_item plain_stdlib E fresh_run flour_item))
  /\ Dag.ledger (run_of (@Dag.process_item plain_stdlib E fresh_run flour_item)) = [].
Proof.
  intros E.
  apply (proj1 (@exception_ends_the_run plain_stdlib E fresh_run flour_item [flour_item]
                  ltac:(discriminate))).
  reflexivity.
Defined.

(** *** Invariants of the ledger *)

Lemma take_chars_length (n : nat) (s : string) : (String.length (take_chars n s) <= n)%nat.
Proof.
  revert s. induction n as [|n IH]; intros s; simpl; [lia|].
  destruct s as [|c s]; simpl; [lia|]. specialize (IH s). lia.
Qed.

Lemma upsert_status_text_fits (r : row) (t : table) :
  (String.length (status_text r) <= 699)%nat ->
  status_text_fits t -> status_text_fits (upsert r t).
Proof.
  unfold status_text_fits. intros Hr. induction t as [|x t IH]; simpl; intros Ht.
  - constructor; [exact Hr|constructor].
  - apply List.Forall_cons_iff in Ht as [Hx Ht].
    destruct (String.eqb _ _); constructor; auto.
Qed.

Lemma process_item_invariant `{PyStdlib} (P : table -> Prop) (E : Dag.env) (r : Dag.run)
    (it : Dag.item) :
  (forall t resp st, P t -> P (upsert (Dag.outcome_row it (Dag.response_status_text resp) st) t)) ->
  P (Dag.ledger r) -> P (Dag.ledger (run_of (Dag.process_item E r it))).
Proof.
  intros Hup HP.
  destruct (process_item_cases E r it) as [(_ & _ & -> & _)|(_ & _ & _ & _ & Hrec)]; [exact HP|].
  destruct (Dag.net E _) as [resp| |].
  - destruct Hrec as (-> & _). now apply Hup.
  - destruct Hrec as (_ & ->). exact HP.
  - destruct Hrec as (_ & ->). exact HP.
Qed.

Lemma post_loop_invariant `{PyStdlib} (P : table -> Prop) (E : Dag.env)
    (items : list Dag.item) (r : Dag.run) :
  (forall it t resp st, In it items -> P t ->
     P (upsert (Dag.outcome_row it (Dag.response_status_text resp) st) t)) ->
  P (Dag.ledger r) -> P (Dag.ledger (run_of (Dag.post_loop E items r))).
Proof.
  revert r. induction items as [|it items IH]; intros r Hup HP; simpl; [exact HP|].
  assert (Hstep : P (Dag.ledger (run_of (Dag.process_item E r it)))).
  { apply process_item_invariant; [|exact HP]. intros. apply Hup; [now left|assumption]. }
  destruct (Dag.process_item E r it) as [r'|e r']; simpl in *; [|exact Hstep].
  apply IH; [|exact Hstep]. intros. apply Hup; [now right|assumption].
Qed.

(** X16: the ledger keeps its unique constraint and its column width through
    a run of [post_data_to_jde]: no identity gets a second row, and no
    status text stored is longer than 699 characters, whatever the
    destination answers. *)
Theorem run_keeps_ledger_wellformed `{PyStdlib} (E : Dag.env) (items : list Dag.item)
    (t : table) :
  unique_constraint t -> status_text_fits t ->
  unique_constraint (Dag.ledger (run_of (Dag.post_data_to_jde E items t))) /\
  status_text_fits (Dag.ledger (run_of (Dag.post_data_to_jde E items t))).
Proof.
  intros U F. unfold Dag.post_data_to_jde. split.
  - apply post_loop_invariant; [|exact U]. intros. now apply LedgerFacts.upsert_unique.
  - apply post_loop_invariant; [|exact F]. intros.
    apply upsert_status_text_fits; [|assumption]. simpl.
    unfold Dag.response_status_text. apply take_chars_length.
Qed.

Lemma run_keeps_ledger_wellformed_witness :
  unique_constraint
    (Dag.ledger (run_of (@Dag.post_data_to_jde plain_stdlib (dag_env 500) [flour_item] []))) /\
  status_text_fits
    (Dag.ledger (run_of (@Dag.post_data_to_jde plain_stdlib (dag_env 500) [flour_item] []))).
Proof.
  apply (@run_keeps_ledger_wellformed plain_stdlib (dag_env 500) [flour_item] []).
  - constructor.
  - constructor.
Defined.

(** X17: a run touches only the identities of its items: the rows of every
    other identity are after the run what they were before, and the run
    posts at most one payload per item. *)
Theorem run_touches_only_its_items `{PyStdlib} (E : Dag.env) (items : list Dag.item)
    (t : table) (uid : string) :
  ~ In uid (List.map (fun it => Dag.f_unique_transaction_id (Dag.value it)) items) ->
  rows_of uid (Dag.ledger (run_of (Dag.post_data_to_jde E items t))) = rows_of uid t /\
  (List.length (Dag.sent (run_of (Dag.post_data_to_jde E items t))) <= List.length items)%nat.
Proof.
  intros Hnot. unfold Dag.post_data_to_jde. split.
  - apply (post_loop_invariant (fun t' => rows_of uid t' = rows_of uid t)); [|reflexivity].
    intros it t' resp st Hin Ht'. rewrite LedgerFacts.rows_of_upsert_other; [exact Ht'|].
    simpl. intros <-. apply Hnot. apply List.in_map_iff. eauto.
  - clear Hnot.
    assert (Hgen : forall r,
      (List.length (Dag.sent (run_of (Dag.post_loop E items r)))
       <= List.length (Dag.sent r) + List.length items)%nat).
    { induction items as [|it items IH]; intros r; simpl; [lia|].
      assert (Hstep : (List.length (Dag.sent (run_of (Dag.process_item E r it)))
                       <= S (List.length (Dag.sent r)))%nat).
      { destruct (process_item_cases E r it) as [(_ & -> & _)|(_ & _ & _ & [p ->] & _)];
          [lia|]. rewrite List.length_app. simpl. lia. }
      destruct (Dag.process_item E r it) as [r'|e r']; simpl in *; [|lia].
      specialize (IH r'). lia. }
    apply (Hgen {| Dag.ledger := t; Dag.sent := []; Dag.resp_arr := [] |}).
Qed.

Lemma run_touches_only_its_items_witness :
  rows_of "Sugar_LOT2_V1_3"
    (Dag.ledger (run_of (@Dag.post_data_to_jde plain_stdlib (dag_env 500) [flour_item] [])))
  = rows_of "Sugar_LOT2_V1_3" [] /\
  (List.length (Dag.sent (run_of (@Dag.post_data_to_jde plain_stdlib (dag_env 500)
                                    [flour_item] []))) <= List.length [flour_item])%nat.
Proof.
  apply (@run_touches_only_its_items plain_stdlib (dag_env 500) [flour_item] []
           "Sugar_LOT2_V1_3").
  simpl. intros [Heq|[]]. discriminate.
Defined.

End RunFacts.

(** ** The parser *)

Module ParserFacts.
Import Py Utility Jde Notions MoreNotions.

(** *** [collect] *)

Lemma collect_app {A B : Type} (f : A -> result (list B)) (l1 l2 : list A) :
  Dag.collect f (l1 ++ l2)%list =
  (try! a := Dag.collect f l1 in try! b := Dag.collect f l2 in Ok (a ++ b)%list).
Proof.
  induction l1 as [|x l1 IH]; simpl.
  - now destruct (Dag.collect f l2).
  - destruct (f x) as [a|e]; simpl; [|reflexivity]. rewrite IH.
    destruct (Dag.collect f l1) as [b|e]; simpl; [|reflexivity].
    destruct (Dag.collect f l2) as [c|e]; simpl; [|reflexivity].
    now rewrite List.app_assoc.
Qed.

Lemma collect_forall2 {A B C : Type} (R : B -> C -> Prop) (f : A -> result (list B))
    (h : A -> list C) (l : list A) (out : list B) :
  (forall x o, In x l -> f x = Ok o -> Forall2 R o (h x)) ->
  Dag.collect f l = Ok out -> Forall2 R out (flat_map h l).
Proof.
  revert out. induction l as [|x l IH]; simpl; intros out Hf Hc.
  - injection Hc as <-. constructor.
  - destruct (f x) as [a|e] eqn:Hx; simpl in Hc; [|discriminate].
    destruct (Dag.collect f l) as [b|e] eqn:Hl; simpl in Hc; [|discriminate].
    injection Hc as <-. apply List.Forall2_app; eauto.
Qed.

Lemma collect_raises {A B : Type} (f : A -> result (list B)) (l : list A) (e : exn) :
  Dag.collect f l = Raise e -> exists x, In x l /\ f x = Raise e.
Proof.
  induction l as [|x l IH]; simpl; [discriminate|].
  destruct (f x) as [a|e'] eqn:Hx; simpl.
  - destruct (Dag.collect f l) as [b|e'']; simpl; [discriminate|].
    intros [= <-]. destruct (IH eq_refl) as (y & Hy & Hfy). eauto.
  - intros [= <-]. eauto.
Qed.

Lemma collect_ok {A B : Type} (f : A -> result (list B)) (l : list A) (out : list B) :
  Dag.collect f l = Ok out -> forall x, In x l -> exists o, f x = Ok o.
Proof.
  revert out. induction l as [|x l IH]; simpl; intros out Hc y Hy; [destruct Hy|].
  destruct (f x) as [a|e] eqn:Hx; simpl in Hc; [|discriminate].
  destruct (Dag.collect f l) as [b|e] eqn:Hl; simpl in Hc; [|discriminate].
  destruct Hy as [<-|Hy]; eauto.
Qed.

Lemma collect_total {A B : Type} (f : A -> result (list B)) (l : list A) :
  (forall x, In x l -> exists o, f x = Ok o) -> exists out, Dag.collect f l = Ok out.
Proof.
  induction l as [|x l IH]; simpl; intros Hf; [eauto|].
  destruct (Hf x (or_introl eq_refl)) as [a ->].
  destruct IH as [b ->]; [auto|]. simpl. eauto.
Qed.

(** *** The dicts built from the ingredients *)

Lemma dict_get_app {A : Type} (k : string) (a b : list (string * A)) :
  dict_get k (a ++ b)%list =
  match dict_get k a with
  | Some v => Some v
  | None => dict_get k b
  end.
Proof.
  induction a as [|[k' v] a IH]; simpl; [reflexivity|].
  destruct (String.eqb k' k); [reflexivity|exact IH].
Qed.

(** In a dict filled by assignments the last assignment to a key wins. *)
Lemma dict_get_assignments {A B : Type} (kf : A -> string) (vf : A -> B) (k : string)
    (l : list A) (acc : list (string * B)) :
  dict_get k (fold_left (fun acc x => dict_set (kf x) (vf x) acc) l acc) =
  match dict_get k (List.map (fun x => (kf x, vf x)) (List.rev l)) with
  | Some v => Some v
  | None => dict_get k acc
  end.
Proof.
  revert acc. induction l as [|x l IH]; intros acc; simpl; [reflexivity|].
  rewrite IH, List.map_app, dict_get_app, CacheKeyFacts.dict_get_set. simpl.
  destruct (dict_get k (List.map _ (List.rev l))); [reflexivity|].
  destruct (String.eqb (kf x) k); reflexivity.
Qed.

Lemma dict_get_declared {A B : Type} (kf : A -> string) (vf : A -> B) (k : string)
    (l : list A) :
  dict_get k (List.map (fun x => (kf x, vf x)) l) = None <-> ~ In k (List.map kf l).
Proof.
  induction l as [|x l IH]; simpl; [tauto|].
  destruct (String.eqb_spec (kf x) k) as [E|E]; [|tauto].
  split; [discriminate|]. intros Hn. destruct Hn. now left.
Qed.

(** *** One addition *)

Lemma parse_addition_site (e : Dag.action_entry) (batch_summary : list Dag.batch_record)
    (l : Dag.lot_entry) (v : Dag.vessel_entry) (a : string * pyval) (o : list Dag.item) :
  let ingredient_summary :=
    fold_left (fun acc ie => dict_set (py_str (Dag.ing__id (Dag.ingredient ie)))
                                      (Dag.productName (Dag.ingredient ie)) acc)
              (Dag.ingredients e) [] in
  let ingredient_units :=
    fold_left (fun acc ie => dict_set (py_str (Dag.ing__id (Dag.ingredient ie)))
                                      (Dag.additionUnit (Dag.ingredient ie)) acc)
              (Dag.ingredients e) [] in
  Dag.parse_addition (Dag.action__id e) ingredient_summary ingredient_units batch_summary l v a
  = Ok o ->
  Forall2 item_of_site o
    (List.map (fun a => (e, l, v, a))
       (List.filter (fun a => negb (Dag.skip_quantity (snd a))) [a])).
Proof.
  intros ingredient_summary ingredient_units. destruct a as [id q].
  unfold Dag.parse_addition. simpl.
  destruct (Dag.skip_quantity q); simpl.
  - intros [= <-]. constructor.
  - destruct (dict_get id ingredient_summary) as [name|] eqn:Hname; [|discriminate].
    destruct (dict_get id ingredient_units) as [unit|] eqn:Hunit; [|discriminate].
    intros [= <-]. constructor; [|constructor].
    unfold ingredient_summary in Hname. unfold ingredient_units in Hunit.
    rewrite dict_get_assignments in Hname, Hunit. simpl in Hname, Hunit.
    unfold item_of_site. simpl.
    destruct (dict_get id (List.map _ (List.rev (Dag.ingredients e)))) eqn:H1 in Hname;
      [|discriminate].
    destruct (dict_get id (List.map _ (List.rev (Dag.ingredients e)))) eqn:H2 in Hunit;
      [|discriminate].
    rewrite H1, H2, Hname, Hunit. repeat split.
Qed.

Lemma flat_map_filter_singletons {A B : Type} (p : A -> bool) (g : A -> B) (l : list A) :
  flat_map (fun a => List.map g (List.filter p [a])) l = List.map g (List.filter p l).
Proof.
  induction l as [|x l IH]; [reflexivity|]. cbn [flat_map]. rewrite IH.
  simpl. now destruct (p x).
Qed.

Lemma parse_entry_sites (e : Dag.action_entry) (o : list Dag.item) :
  Dag.parse_entry e = Ok o -> Forall2 item_of_site o (addition_sites [e]).
Proof.
  unfold Dag.parse_entry, addition_sites. simpl. rewrite List.app_nil_r.
  destruct (Dag.is_addition (Dag.actionType e)); [|intros [= <-]; constructor].
  apply collect_forall2. intros l o1 _. apply collect_forall2. intros v o2 _ Hc.
  rewrite <- flat_map_filter_singletons.
  revert Hc. apply collect_forall2. intros a o3 _ Ha.
  revert Ha. apply parse_addition_site.
Qed.

(** X18: the parser is entrywise: the items of a document are those of its
    first part followed by those of the rest, and an exception in the
    first part is the exception of the whole. *)
Theorem parse_is_entrywise (data1 data2 : list Dag.action_entry) :
  Dag.parse_bakery_system_json (data1 ++ data2)%list =
  (try! a := Dag.parse_bakery_system_json data1 in
   try! b := Dag.parse_bakery_system_json data2 in
   Ok (a ++ b)%list).
Proof. apply collect_app. Qed.

(** X19: when the parser returns, its items are, one for one and in the
    order of the document, the additions of the [ADDITION] entries whose
    quantity is not skipped: each item carries the ids, the lot and the
    vessel of its addition, the name and the unit last declared for its
    ingredient, the quantity rounded to nine decimals, and the identity
    built from name, lot number, vessel code and quantity. *)
Theorem parse_items_are_the_additions (data : list Dag.action_entry) (items : list Dag.item) :
  Dag.parse_bakery_system_json data = Ok items ->
  Forall2 item_of_site items (addition_sites data).
Proof.
  unfold Dag.parse_bakery_system_json. apply collect_forall2.
  intros e o _ He. apply parse_entry_sites in He.
  unfold addition_sites in He. simpl in He. now rewrite List.app_nil_r in He.
Qed.

Lemma parse_items_are_the_additions_witness :
  Forall2 item_of_site
    [ {| Dag.key := "Ingredient:i1:lot:l1:vessel:v1";
         Dag.value := Dag.value flour_item |} ]
    (addition_sites [addition_of (PyInt 5)]).
Proof.
  apply (parse_items_are_the_additions [addition_of (PyInt 5)]).
  reflexivity.
Defined.

(** *** Ingredients that are not declared *)

Lemma collect_raises_key_error {A B : Type} (f : A -> result (list B)) (l : list A) :
  (forall x e, In x l -> f x = Raise e -> e = KeyError) ->
  (exists x e, In x l /\ f x = Raise e) ->
  Dag.collect f l = Raise KeyError.
Proof.
  intros Honly (x & e & Hx & Hfx).
  destruct (Dag.collect f l) as [out|e'] eqn:Hc.
  - destruct (collect_ok f l out Hc x Hx) as [o Ho]. congruence.
  - destruct (collect_raises f l e' Hc) as (y & Hy & Hfy).
    now rewrite (Honly y e' Hy Hfy).
Qed.

Lemma parse_addition_outcome (action_id : pyval)
    (ingredient_summary ingredient_units : list (string * pyval))
    (batch_summary : list Dag.batch_record) (l : Dag.lot_entry) (v : Dag.vessel_entry)
    (a : string * pyval) :
  match Dag.parse_addition action_id ingredient_summary ingredient_units batch_summary l v a with
  | Ok _ =>
      Dag.skip_quantity (snd a) = true \/
      (dict_get (fst a) ingredient_summary <> None /\ dict_get (fst a) ingredient_units <> None)
  | Raise e =>
      e = KeyError /\ Dag.skip_quantity (snd a) = false /\
      (dict_get (fst a) ingredient_summary = None \/ dict_get (fst a) ingredient_units = None)
  end.
Proof.
  destruct a as [id q]. unfold Dag.parse_addition. simpl.
  destruct (Dag.skip_quantity q); [now left|].
  destruct (dict_get id ingredient_summary); [|auto].
  destruct (dict_get id ingredient_units); [|auto].
  right. split; discriminate.
Qed.

Lemma declared_iff {B : Type} (vf : Dag.ingredient_entry -> B) (e : Dag.action_entry)
    (id : string) :
  dict_get id
    (fold_left (fun acc ie => dict_set (py_str (Dag.ing__id (Dag.ingredient ie))) (vf ie) acc)
       (Dag.ingredients e) []) = None <-> ~ In id (declared_ids e).
Proof.
  rewrite dict_get_assignments. simpl.
  destruct (dict_get id (List.map _ (List.rev (Dag.ingredients e)))) eqn:Hg.
  - split; [discriminate|]. intros Hn. exfalso.
    assert (Hnone : dict_get id
              (List.map (fun ie => (py_str (Dag.ing__id (Dag.ingredient ie)), vf ie))
                 (List.rev (Dag.ingredients e))) = None).
    { apply dict_get_declared. rewrite List.map_rev, <- List.in_rev. exact Hn. }
    congruence.
  - split; [|reflexivity]. intros _.
    apply dict_get_declared in Hg. now rewrite List.map_rev, <- List.in_rev in Hg.
Qed.

Lemma in_addition_sites (data : list Dag.action_entry) (e : Dag.action_entry)
    (l : Dag.lot_entry) (v : Dag.vessel_entry) (a : string * pyval) :
  In (e, l, v, a) (addition_sites data) <->
  In e data /\ Dag.is_addition (Dag.actionType e) = true /\ In l (Dag.lots e) /\
  In v (Dag.vessels l) /\ In a (Dag.additions v) /\ Dag.skip_quantity (snd a) = false.
Proof.
  unfold addition_sites. rewrite List.in_flat_map. split.
  - intros (e' & He' & Hin). destruct (Dag.is_addition (Dag.actionType e')) eqn:Hadd; [|destruct Hin].
    apply List.in_flat_map in Hin as (l' & Hl' & Hin).
    apply List.in_flat_map in Hin as (v' & Hv' & Hin).
    apply List.in_map_iff in Hin as (a' & [= -> -> -> ->] & Ha').
    apply List.filter_In in Ha' as [Ha' Hs].
    repeat split; auto. now destruct (Dag.skip_quantity (snd a)).
  - intros (He & Hadd & Hl & Hv & Ha & Hs). exists e. split; [exact He|]. rewrite Hadd.
    apply List.in_flat_map. exists l. split; [exact Hl|].
    apply List.in_flat_map. exists v. split; [exact Hv|].
    apply List.in_map. apply List.filter_In. split; [exact Ha|]. now rewrite Hs.
Qed.

(** X20: the parser returns exactly when every addition it keeps names an
    ingredient that its entry declares.  One addition that names an
    undeclared ingredient makes the whole call raise [KeyError], so no item
    of the document is produced. *)
Theorem parse_needs_declared_ingredients (data : list Dag.action_entry) :
  ((forall e l v a, In (e, l, v, a) (addition_sites data) -> In (fst a) (declared_ids e)) ->
   exists items, Dag.parse_bakery_system_json data = Ok items) /\
  (forall e l v a,
     In (e, l, v, a) (addition_sites data) -> ~ In (fst a) (declared_ids e) ->
     Dag.parse_bakery_system_json data = Raise KeyError).
Proof.
  unfold Dag.parse_bakery_system_json. split.
  - intros Hall. apply collect_total. intros e He. unfold Dag.parse_entry.
    destruct (Dag.is_addition (Dag.actionType e)) eqn:Hadd; [|eauto].
    apply collect_total. intros l Hl. apply collect_total. intros v Hv.
    apply collect_total. intros a Ha.
    match goal with |- exists o, ?c = Ok o => pose proof (parse_addition_outcome
      (Dag.action__id e)
      (fold_left (fun acc ie => dict_set (py_str (Dag.ing__id (Dag.ingredient ie)))
                                         (Dag.productName (Dag.ingredient ie)) acc)
                 (Dag.ingredients e) [])
      (fold_left (fun acc ie => dict_set (py_str (Dag.ing__id (Dag.ingredient ie)))
                                         (Dag.additionUnit (Dag.ingredient ie)) acc)
                 (Dag.ingredients e) [])
      (flat_map (Dag.batch_records (Dag.action__id e)) (Dag.ingredients e)) l v a) as Hout;
      destruct c as [o|ex] eqn:Hc end; [eauto|].
    destruct Hout as (_ & Hs & Hnone). exfalso.
    assert (Hdecl : In (fst a) (declared_ids e)).
    { apply (Hall e l v a). apply in_addition_sites. repeat split; auto. }
    destruct Hnone as [Hn|Hn]; apply declared_iff in Hn; contradiction.
  - intros e l v a Hsite Hdecl.
    apply in_addition_sites in Hsite as (He & Hadd & Hl & Hv & Ha & Hs).
    assert (Honly : forall (e0 : Dag.action_entry) ex,
              Dag.parse_entry e0 = Raise ex -> ex = KeyError).
    { intros e0 ex. unfold Dag.parse_entry.
      destruct (Dag.is_addition (Dag.actionType e0)); [|discriminate].
      intros Hc. apply collect_raises in Hc as (l0 & _ & Hc).
      apply collect_raises in Hc as (v0 & _ & Hc).
      apply collect_raises in Hc as (a0 & _ & Hc).
      match type of Hc with ?c = _ => match c with
        Dag.parse_addition ?x1 ?x2 ?x3 ?x4 ?x5 ?x6 ?x7 =>
          pose proof (parse_addition_outcome x1 x2 x3 x4 x5 x6 x7) as Hout end end.
      rewrite Hc in Hout. tauto. }
    apply collect_raises_key_error; [intros; eauto|].
    assert (Hraise : exists ex, Dag.parse_entry e = Raise ex).
    { destruct (Dag.parse_entry e) as [o|ex] eqn:Hpe; [|eauto]. exfalso.
      unfold Dag.parse_entry in Hpe. rewrite Hadd in Hpe.
      destruct (collect_ok _ _ _ Hpe l Hl) as [o1 Hc1].
      destruct (collect_ok _ _ _ Hc1 v Hv) as [o2 Hc2].
      destruct (collect_ok _ _ _ Hc2 a Ha) as [o3 Hc3].
      match type of Hc3 with ?c = _ => match c with
        Dag.parse_addition ?x1 ?x2 ?x3 ?x4 ?x5 ?x6 ?x7 =>
          pose proof (parse_addition_outcome x1 x2 x3 x4 x5 x6 x7) as Hout end end.
      rewrite Hc3 in Hout. destruct Hout as [Hsk|[Hsome _]]; [congruence|].
      apply Hsome. now apply declared_iff. }
    destruct Hraise as [ex Hex]. eauto.
Qed.

Lemma parse_needs_declared_ingredients_witness :
  let entry :=
    {| Dag.actionType := PyStr "ADDITION"; Dag.action__id := PyStr "a1";
       Dag.ingredients := [];
       Dag.lots := [ {| Dag.lot__id := PyStr "l1"; Dag.lotNumber := PyStr "LOT1";
                        Dag.vessels := [vessel_with (PyInt 5)] |} ] |} in
  Dag.parse_bakery_system_json [addition_of (PyInt 5); entry] = Raise KeyError.
Proof.
  intros entry.
  apply (proj2 (parse_needs_declared_ingredients [addition_of (PyInt 5); entry]) entry
           {| Dag.lot__id := PyStr "l1"; Dag.lotNumber := PyStr "LOT1";
              Dag.vessels := [vessel_with (PyInt 5)] |}
           (vessel_with (PyInt 5)) ("i1", PyInt 5)).
  - simpl. right. left. reflexivity.
  - simpl. intros [].
Defined.

End ParserFacts.

(** ** The interactive dispatchers *)

Module HelperFacts.
Import Py Utility Jde JdeHelper Notions JdeHelperMore MoreNotions.

Lemma is_done_filtered_upsert_done (r : row) (t : table) :
  unique_constraint t -> status r = "done" ->
  is_done_filtered (unique_transaction_id r) (upsert r t) = true.
Proof.
  intros U Hst. unfold is_done_filtered.
  destruct (DispatchFacts.upsert_writes_row r t U) as (x & -> & Hx & _).
  simpl. now rewrite Hx, Hst.
Qed.

Lemma prepare_early_fails (E : env) (b : batch_data) (early : dispatch_result) :
  prepare E b = Ok (inl early) -> success early = false.
Proof.
  unfold prepare.
  destruct (convert_unit (bd_unit b)) as [cu|e]; simpl; [|discriminate].
  destruct (String.eqb cu ""); [now intros [= <-]|].
  destruct (as_str (bd_ingredient_name b)) as [name|e]; simpl; [|discriminate].
  destruct (lot_number_of b name) as [[lot|]|e]; simpl; [| |discriminate].
  - destruct (credentials_configured E); simpl; [discriminate|now intros [= <-]].
  - now intros [= <-].
Qed.

(** What [dispatch_single_batch_to_jde] does once the batch has passed the
    checks: the payload it posts is the one [prepare] built. *)
Lemma dispatch_single_cases `{PyStdlib} (E : env) (b : batch_data) (t : table) :
  let '(res, t', posted) := dispatch_single_batch_to_jde E b t in
  (success res = false /\ t' = t /\ posted = [] /\
   (missing_fields b <> [] \/ zero_or_null (bd_quantity b) = true \/
    is_done_filtered (batch_identity b) t = true \/
    (exists e, prepare E b = Raise e) \/ (exists early, prepare E b = Ok (inl early))))
  \/
  (missing_fields b = [] /\ zero_or_null (bd_quantity b) = false /\
   is_done_filtered (batch_identity b) t = false /\
   exists p, prepare E b = Ok (inr p) /\ posted = [p] /\
     match net E 0%nat with
     | Answered resp =>
         if is_success (status_code resp) then
           res = Dispatched (batch_identity b) (response_status_text resp) p /\
           t' = upsert {| action_id := bd_action_id b;
                          ingredient_id := bd_ingredient_id b;
                          lot_id := bd_batch_id b;
                          vessel_id := PyNone;
                          vessel_code := get_or_empty (bd_vessel_code b);
                          ingredient_name := bd_ingredient_name b;
                          addition_unit := bd_unit b;
                          status_text := response_status_text resp;
                          status := "done";
                          unique_transaction_id := batch_identity b |} t
         else
           res = JdeApiError (status_code resp) (response_status_text resp) p /\ t' = t
     | RequestFailed => res = DatabaseOrNetworkError RequestException /\ t' = t
     | OtherFailure => res = DatabaseOrNetworkError OtherException /\ t' = t
     end).
Proof.
  unfold dispatch_single_batch_to_jde. fold (batch_identity b).
  destruct (missing_fields b) eqn:Hm.
  2:{ left. repeat split. left. discriminate. }
  destruct (zero_or_null _) eqn:Hz.
  { left. repeat split. auto. }
  destruct (is_done_filtered _ _) eqn:Hd.
  { left. repeat split. auto. }
  destruct (prepare E b) as [[early|p]|e] eqn:Hp.
  - left. repeat split; eauto 6 using prepare_early_fails.
  - destruct (net E 0%nat) as [resp| |]; [destruct (is_success (status_code resp))| |];
      (right; split; [reflexivity|]; split; [reflexivity|]; split; [reflexivity|];
       exists p; split; [reflexivity|]; split; [reflexivity|]; split; reflexivity).
  - left. repeat split. eauto 6.
Qed.

Lemma prepared_identity_as_prepared (b : batch_data) :
  prepared_identity (as_prepared b) = Ok (batch_identity b).
Proof. reflexivity. Qed.

(** X21: an identity that the ledger holds as done is refused by every
    dispatcher: [post_data_to_jde] skips the item, the two interactive
    dispatchers return an error, the preview builds no payload; none of
    them posts anything or touches the ledger. *)
Theorem done_blocks_every_dispatcher `{PyStdlib} (t : table) (uid : string) :
  unique_constraint t ->
  is_done uid t = true ->
  (forall (E : Dag.env) (it : Dag.item) (r : Dag.run),
     Dag.ledger r = t -> Dag.f_unique_transaction_id (Dag.value it) = uid ->
     exists r', Dag.process_item E r it = Dag.Next r' /\
                Dag.ledger r' = t /\ Dag.sent r' = Dag.sent r) /\
  (forall (E : env) (b : batch_data),
     batch_identity b = uid ->
     exists res, dispatch_single_batch_to_jde E b t = (res, t, []) /\ success res = false) /\
  (forall (E : env) (payload : json) (b : prepared_batch),
     prepared_identity b = Ok uid ->
     exists res, dispatch_prepared_payload_to_jde E payload b t = (res, t, []) /\
                 prepared_success res = false) /\
  (forall (today : string) (b : batch_data) (p : jde_payload),
     batch_identity b = uid -> prepare_jde_payload today b t <> Preview p).
Proof.
  intros U Hd.
  assert (Hf : is_done_filtered uid t = true) by now rewrite RunFacts.guards_agree.
  split; [|split; [|split]].
  - intros E it r Hl Hu.
    destruct (RunFacts.process_item_cases E r it) as [(_ & Hs & Hl' & Hiff)|(Hnd & _)].
    + exists (run_of (Dag.process_item E r it)). rewrite Hl', Hs, Hl.
      repeat split. apply Hiff. left. now rewrite Hl, Hu.
    + rewrite Hl, Hu in Hnd. congruence.
  - intros E b Hu. pose proof (dispatch_single_cases E b t) as Hc.
    destruct (dispatch_single_batch_to_jde E b t) as [[res t'] posted].
    destruct Hc as [(Hs & -> & -> & _)|(_ & _ & Hnd & _)]; [eauto|].
    rewrite Hu in Hnd. congruence.
  - intros E payload b Hu. unfold dispatch_prepared_payload_to_jde.
    destruct (credentials_configured E); simpl; [|eauto].
    rewrite Hu, Hf. eauto.
  - intros today b p Hu. unfold prepare_jde_payload. fold (batch_identity b).
    destruct (missing_fields b); [|discriminate].
    destruct (zero_or_null _); [discriminate|].
    rewrite Hu, Hf. discriminate.
Qed.

Lemma done_blocks_every_dispatcher_witness :
  exists res,
    @dispatch_single_batch_to_jde plain_stdlib (helper_env 200) (flour_batch (PyInt 5))
      [sample_row "done" "ok"] = (res, [sample_row "done" "ok"], []) /\
    success res = false.
Proof.
  apply (proj1 (proj2 (@done_blocks_every_dispatcher plain_stdlib [sample_row "done" "ok"]
                         "Flour_LOT1_V1_5"
                         ltac:(unfold unique_constraint; simpl; repeat constructor; intros [])
                         eq_refl))
           (helper_env 200) (flour_batch (PyInt 5))).
  reflexivity.
Defined.

(** X22: a batch is dispatched once: after [dispatch_single_batch_to_jde]
    has succeeded, the same batch is refused as already dispatched by
    [dispatch_single_batch_to_jde], by [dispatch_prepared_payload_to_jde]
    whatever payload comes with it, and by [prepare_jde_payload]; nothing
    more is posted and the ledger stays as the first call left it. *)
Theorem dispatched_batch_is_not_repeated `{PyStdlib} (E E2 : env) (b : batch_data)
    (t t' : table) (res : dispatch_result) (posted : list jde_payload) (payload : json)
    (today2 : string) :
  unique_constraint t ->
  dispatch_single_batch_to_jde E b t = (res, t', posted) ->
  success res = true ->
  dispatch_single_batch_to_jde E2 b t' = (AlreadyDispatched (batch_identity b), t', []) /\
  (credentials_configured E2 = true ->
   dispatch_prepared_payload_to_jde E2 payload (as_prepared b) t' =
   (PreparedAlreadyDispatched (batch_identity b), t', [])) /\
  prepare_jde_payload today2 b t' = PreviewAlreadyDispatched (batch_identity b).
Proof.
  intros U Hrun Hs. pose proof (dispatch_single_cases E b t) as Hc. rewrite Hrun in Hc.
  destruct Hc as [(Hf & _)|(Hm & Hz & _ & p & _ & _ & Hnet)]; [congruence|].
  assert (Hdone : is_done_filtered (batch_identity b) t' = true).
  { destruct (net E 0%nat) as [resp| |].
    - destruct (is_success (status_code resp)).
      + destruct Hnet as (_ & ->).
        match goal with |- context [upsert ?r t] =>
          apply (is_done_filtered_upsert_done r t U eq_refl) end.
      + destruct Hnet as (-> & _). discriminate.
    - destruct Hnet as (-> & _). discriminate.
    - destruct Hnet as (-> & _). discriminate. }
  split; [|split].
  - unfold dispatch_single_batch_to_jde. fold (batch_identity b).
    now rewrite Hm, Hz, Hdone.
  - intros Hcred. unfold dispatch_prepared_payload_to_jde.
    now rewrite Hcred, prepared_identity_as_prepared, Hdone.
  - unfold prepare_jde_payload. fold (batch_identity b). now rewrite Hm, Hz, Hdone.
Qed.

Lemma dispatched_batch_is_not_repeated_witness :
  let t' := snd (fst (@dispatch_single_batch_to_jde plain_stdlib (helper_env 200)
                        (flour_batch (PyInt 5)) [])) in
  @dispatch_single_batch_to_jde plain_stdlib (helper_env 200) (flour_batch (PyInt 5)) t'
  = (AlreadyDispatched "Flour_LOT1_V1_5", t', []).
Proof.
  intros t'.
  apply (proj1 (@dispatched_batch_is_not_repeated plain_stdlib (helper_env 200) (helper_env 200)
                  (flour_batch (PyInt 5)) [] t'
                  (fst (fst (@dispatch_single_batch_to_jde plain_stdlib (helper_env 200)
                               (flour_batch (PyInt 5)) [])))
                  (snd (@dispatch_single_batch_to_jde plain_stdlib (helper_env 200)
                          (flour_batch (PyInt 5)) []))
                  JNone today_
                  ltac:(constructor) eq_refl eq_refl)).
Defined.

(** X23: the preview shows what would be posted: the payload that
    [dispatch_single_batch_to_jde] posts for a batch is the payload that
    [prepare_jde_payload] returns for it on the same ledger and day. *)
Theorem preview_shows_what_is_posted `{PyStdlib} (E : env) (b : batch_data) (t t' : table)
    (res : dispatch_result) (posted : list jde_payload) (p : jde_payload) :
  dispatch_single_batch_to_jde E b t = (res, t', posted) ->
  In p posted ->
  prepare_jde_payload (today E) b t = Preview p.
Proof.
  intros Hrun Hin. pose proof (dispatch_single_cases E b t) as Hc. rewrite Hrun in Hc.
  destruct Hc as [(_ & _ & -> & _)|(Hm & Hz & Hd & p' & Hp & -> & _)]; [destruct Hin|].
  destruct Hin as [<-|[]].
  unfold prepare_jde_payload. fold (batch_identity b). rewrite Hm, Hz, Hd.
  revert Hp. unfold prepare, preview_payload, convert_unit, lot_number_of.
  destruct (as_str (bd_unit b)) as [u|e]; simpl; [|discriminate].
  destruct (String.eqb (convert_unit_to_jde u) ""); [discriminate|].
  destruct (as_str (bd_ingredient_name b)) as [name|e]; simpl; [|discriminate].
  destruct (if negb (py_truthy (get_or_empty (bd_lot_number b))) && _ then _ else _)
    as [lot|e]; simpl; [|discriminate].
  destruct (py_truthy lot); simpl; [|discriminate].
  destruct (credentials_configured E); simpl; [|discriminate].
  now intros [= <-].
Qed.

Lemma preview_shows_what_is_posted_witness :
  exists p,
    snd (@dispatch_single_batch_to_jde plain_stdlib (helper_env 500) (flour_batch (PyInt 5)) [])
    = [p] /\
    prepare_jde_payload today_ (flour_batch (PyInt 5)) [] = Preview p.
Proof.
  eexists. split; [reflexivity|].
  apply (@preview_shows_what_is_posted plain_stdlib (helper_env 500) (flour_batch (PyInt 5)) []
           _ _ _ _ eq_refl).
  now left.
Defined.

(** X24: [dispatch_prepared_payload_to_jde] records a dispatch as
    [dispatch_single_batch_to_jde] does: on the batch data that the single
    dispatch succeeded with, it sends the payload it is given, whatever the
    edits, and leaves the same ledger. *)
Theorem prepared_dispatch_records_like_single `{PyStdlib} (E : env) (b : batch_data)
    (t t' : table) (uid status_text : string) (p : jde_payload) (posted : list jde_payload)
    (payload : json) :
  dispatch_single_batch_to_jde E b t = (Dispatched uid status_text p, t', posted) ->
  dispatch_prepared_payload_to_jde E payload (as_prepared b) t =
  (PreparedDispatched uid status_text payload, t', [payload]).
Proof.
  intros Hrun. pose proof (dispatch_single_cases E b t) as Hc. rewrite Hrun in Hc.
  destruct Hc as [(Hf & _)|(Hm & Hz & Hd & p' & Hp & _ & Hnet)]; [discriminate|].
  assert (Hcred : credentials_configured E = true).
  { revert Hp. unfold prepare.
    destruct (convert_unit (bd_unit b)) as [cu|e]; simpl; [|discriminate].
    destruct (String.eqb cu ""); [discriminate|].
    destruct (as_str (bd_ingredient_name b)) as [name|e]; simpl; [|discriminate].
    destruct (lot_number_of b name) as [[lot|]|e]; simpl; try discriminate.
    now destruct (credentials_configured E). }
  unfold dispatch_prepared_payload_to_jde.
  rewrite Hcred, prepared_identity_as_prepared, Hd. simpl.
  destruct (net E 0%nat) as [resp| |].
  - destruct (is_success (status_code resp)).
    + destruct Hnet as ([= <- <- <-] & ->). reflexivity.
    + destruct Hnet as (Habs & _). discriminate.
  - destruct Hnet as (Habs & _). discriminate.
  - destruct Hnet as (Habs & _). discriminate.
Qed.

Lemma prepared_dispatch_records_like_single_witness :
  exists uid status_text t',
    @dispatch_prepared_payload_to_jde plain_stdlib (helper_env 200) (JDict [])
      (as_prepared (flour_batch (PyInt 5))) []
    = (PreparedDispatched uid status_text (JDict []), t', [JDict []]) /\
    uid = "Flour_LOT1_V1_5".
Proof.
  do 3 eexists. split.
  - eapply (@prepared_dispatch_records_like_single plain_stdlib (helper_env 200)
              (flour_batch (PyInt 5)) []). reflexivity.
  - reflexivity.
Defined.

(** X25: a prepared dispatch whose batch data lacks [action_id],
    [ingredient_id] or [batch_id] posts the payload and records nothing:
    after the destination has accepted the payload the missing key raises,
    the call reports an error and the ledger is left as it was, so the same
    call posts again. *)
Theorem prepared_dispatch_without_ids_is_not_recorded `{PyStdlib} (E : env) (payload : json)
    (b : prepared_batch) (t : table) (uid : string) (resp : response) :
  credentials_configured E = true ->
  prepared_identity b = Ok uid ->
  is_done_filtered uid t = false ->
  net E 0%nat = Answered resp ->
  is_success (status_code resp) = true ->
  pb_action_id b = None \/ pb_ingredient_id b = None \/ pb_batch_id b = None ->
  dispatch_prepared_payload_to_jde E payload b t =
  (PreparedNetworkOrDatabaseError KeyError, t, [payload]).
Proof.
  intros Hcred Hid Hnd Hnet Hs Hmiss. unfold dispatch_prepared_payload_to_jde.
  rewrite Hcred, Hid, Hnd, Hnet, Hs. simpl.
  unfold prepared_row.
  destruct (pb_action_id b); [|reflexivity].
  destruct (pb_ingredient_id b); [|reflexivity].
  destruct (pb_batch_id b); [|reflexivity].
  destruct Hmiss as [|[|]]; discriminate.
Qed.

Lemma prepared_dispatch_without_ids_is_not_recorded_witness :
  let b := {| pb_action_id := None; pb_ingredient_id := Some (PyStr "i1");
              pb_ingredient_name := Some (PyStr "Flour"); pb_batch_id := Some (PyStr "b1");
              pb_quantity := Some (PyInt 5); pb_unit := Some (PyStr "kg");
              pb_lot_number := Some (PyStr "LOT1"); pb_vessel_code := Some (PyStr "V1") |} in
  @dispatch_prepared_payload_to_jde plain_stdlib (helper_env 200) (JDict []) b []
  = (PreparedNetworkOrDatabaseError KeyError, [], [JDict []]).
Proof.
  intros b.
  apply (@prepared_dispatch_without_ids_is_not_recorded plain_stdlib (helper_env 200) (JDict [])
           b [] "Flour_LOT1_V1_5"
           {| status_code := 200; text := "Internal Server Error"; json_of := None |}).
  - reflexivity.
  - reflexivity.
  - reflexivity.
  - reflexivity.
  - reflexivity.
  - now left.
Defined.

(** The interactive dispatchers write the ledger only when they report
    success, and post at most one payload per call. *)
Lemma failed_dispatch_leaves_ledger `{PyStdlib} (E : env) (t : table) :
  (forall (b : batch_data) res t' posted,
     dispatch_single_batch_to_jde E b t = (res, t', posted) ->
     (success res = false -> t' = t) /\ (List.length posted <= 1)%nat) /\
  (forall (payload : json) (b : prepared_batch) res t' posted,
     dispatch_prepared_payload_to_jde E payload b t = (res, t', posted) ->
     (prepared_success res = false -> t' = t) /\ (List.length posted <= 1)%nat).
Proof.
  split.
  - intros b res t' posted Hrun. pose proof (dispatch_single_cases E b t) as Hc.
    rewrite Hrun in Hc.
    destruct Hc as [(_ & -> & -> & _)|(_ & _ & _ & p & _ & -> & Hnet)]; [simpl; auto|].
    split; [|simpl; lia]. intros Hf.
    destruct (net E 0%nat) as [resp| |]; [|tauto|tauto].
    destruct (is_success (status_code resp)); [|tauto].
    destruct Hnet as (-> & _). discriminate.
  - intros payload b res t' posted. unfold dispatch_prepared_payload_to_jde.
    destruct (credentials_configured E); simpl; [|intros [= <- <- <-]; simpl; auto].
    destruct (prepared_identity b) as [uid|e]; [|intros [= <- <- <-]; simpl; auto].
    destruct (is_done_filtered uid t); [intros [= <- <- <-]; simpl; auto|].
    destruct (net E 0%nat) as [resp| |]; [|intros [= <- <- <-]; simpl; auto..].
    destruct (is_success (status_code resp)); [|intros [= <- <- <-]; simpl; auto].
    destruct (prepared_row b _ uid); intros [= <- <- <-]; simpl; split; auto; discriminate.
Qed.

End HelperFacts.

(** ** The tasks of the DAG *)

Module TaskFacts.
Import Py Utility Notions DagTasks MoreNotions.

(** X26: [fetch_bakery_system_task] never hands data to the parser: whatever
    the API answers, once the client has returned the task raises
    [AirflowSkipException].  [fetch_from_bakery_system_api] returns the JSON
    text of the list, and the task then requires a list. *)
Theorem fetch_task_always_skips (json_dumps : json -> string) (fuel : nat) (net : transport) :
  fst (fetch_bakery_system_task json_dumps fuel net) =
  match fst (retry_request fuel net 0 "GET") with
  | Returned _ => AirflowSkipException
  | Unfinished => TaskUnfinished
  end.
Proof.
  unfold fetch_bakery_system_task, fetch_from_bakery_system_api.
  destruct (retry_request fuel net 0 "GET") as [[v|] evs]; [|reflexivity].
  destruct v as [a|l|d]; reflexivity.
Qed.

Lemma has_underscore_cons (c : ascii) (a : string) :
  has_underscore (String c a) = if Ascii.eqb c "_"%char then true else has_underscore a.
Proof.
  unfold has_underscore. cbn [before_underscore].
  destruct (Ascii.eqb c "_"%char); [reflexivity|].
  destruct (String.eqb_spec (before_underscore a) a) as [E|E];
    destruct (String.eqb_spec (String c (before_underscore a)) (String c a)) as [E'|E'];
    congruence.
Qed.

Lemma append_cons (c : ascii) (s t : string) : String c s +:+ t = String c (s +:+ t).
Proof. reflexivity. Qed.

Lemma before_underscore_app (a b : string) :
  before_underscore (a +:+ b) =
  if has_underscore a then before_underscore a else a +:+ before_underscore b.
Proof.
  induction a as [|c a IH]; [reflexivity|].
  rewrite has_underscore_cons, append_cons. cbn [before_underscore].
  destruct (Ascii.eqb c "_"%char); [reflexivity|].
  rewrite IH. now destruct (has_underscore a).
Qed.

Lemma has_underscore_before (s : string) : has_underscore (before_underscore s) = false.
Proof.
  induction s as [|c s IH]; [reflexivity|]. cbn [before_underscore].
  destruct (Ascii.eqb c "_"%char) eqn:Hc; [reflexivity|].
  now rewrite has_underscore_cons, Hc.
Qed.

Lemma append_empty_r (s : string) : s +:+ "" = s.
Proof. induction s as [|c s IH]; [reflexivity|]. now rewrite append_cons, IH. Qed.

Lemma stical_loop_urls {A : Type} (url : string) (idx : nat) (items : list A) :
  stical_loop url idx items =
  List.map (fun ix => (before_underscore url +:+ "_" +:+ string_of_Z (Z.of_nat (fst ix)), snd ix))
    (List.combine (List.seq idx (List.length items)) items).
Proof.
  revert url idx. induction items as [|item rest IH]; intros url idx; simpl; [reflexivity|].
  f_equal. rewrite IH. apply List.map_ext. intros [i x]. simpl. f_equal. f_equal.
  rewrite before_underscore_app, has_underscore_before.
  rewrite append_cons. cbn [before_underscore]. apply append_empty_r.
Qed.

(** X27: [post_backup_data_to_stical_api] posts every item once, in order,
    the [i]-th to [<target>/bakeryopsnb_<i>] as long as the target URL
    contains no underscore; when it does, every item goes to the part of
    the target before its first underscore, followed by [_<i>]. *)
Theorem stical_backup_urls {A : Type} (stical_target_api : string) (items : list A) :
  List.map snd (post_backup_data_to_stical_api stical_target_api items) = items /\
  List.map fst (post_backup_data_to_stical_api stical_target_api items) =
  List.map (fun i =>
              (if has_underscore stical_target_api
               then before_underscore stical_target_api
               else stical_target_api +:+ "/bakeryopsnb")
              +:+ "_" +:+ string_of_Z (Z.of_nat i))
    (List.seq 0 (List.length items)).
Proof.
  unfold post_backup_data_to_stical_api. rewrite stical_loop_urls.
  rewrite !List.map_map. simpl. split.
  - generalize 0%nat. induction items as [|x items IH]; intros n; simpl; [reflexivity|].
    now rewrite IH.
  - rewrite before_underscore_app. simpl.
    generalize 0%nat. induction items as [|x items IH]; intros n; simpl; [reflexivity|].
    now rewrite IH.
Qed.

End TaskFacts.

(** ** Units *)

Module UnitFacts.
Import Py Utility Jde Notions UtilityMore MoreNotions.

(** X28: a unit that [validate_unit] accepts survives the round trip: turned
    into a data-lake unit by [convert_unit(..., 'from_jde')] and back by
    [convert_unit(..., 'to_jde')] it is the JDE unit it stood for, its
    upper-case form. *)
Theorem validated_unit_round_trip (u : string) :
  u <> "" ->
  validate_unit (PyStr u) = Ok tt ->
  convert_unit_to_jde (convert_unit_from_jde u) = uppercase u.
Proof.
  intros Hne. unfold validate_unit. simpl.
  destruct (String.eqb_spec u "") as [->|_]; [now destruct Hne|]. simpl.
  unfold is_jde, convert_unit_from_jde, unit_map.
  generalize (uppercase u) as U. intros U.
  rewrite !CacheKeyFacts.dict_get_cons.
  repeat match goal with
         | |- context [String.eqb ?k U] =>
             destruct (String.eqb_spec k U) as [<-|?]; [intros _; reflexivity|]
         end.
  simpl. discriminate.
Qed.

Lemma validated_unit_round_trip_witness :
  convert_unit_to_jde (convert_unit_from_jde "lt") = uppercase "lt".
Proof.
  apply (validated_unit_round_trip "lt").
  - discriminate.
  - reflexivity.
Defined.

(** The other way round: a data-lake unit of the unit table, turned into
    its JDE unit and back, is itself. *)
Lemma datalake_unit_round_trip (v : string) :
  In v (List.map snd unit_map) ->
  convert_unit_from_jde (convert_unit_to_jde v) = v.
Proof.
  unfold unit_map. simpl.
  intros Hin. repeat (destruct Hin as [<-|Hin]; [reflexivity|]). destruct Hin.
Qed.

End UnitFacts.

(** ** Quantities *)

Module QuantityFacts.
Import Py Utility Jde Notions MoreNotions.

(** X29: a quantity below half a billionth vanishes: when the decimal
    reading of the quantity is [c * 10^e] with [2 * c * 10^(e + 9) < 1],
    [preserve_quantity_precision] returns a zero, and the item the parser
    builds from it is not posted by [post_data_to_jde], although the parser
    did not skip it. *)
Theorem tiny_quantity_rounds_to_zero `{PyStdlib} (q : pyval) (neg : bool) (c e : Z) :
  Decimal (py_str q) = Some (D_fin neg c e) ->
  0 <= c -> e < -9 -> 2 * c < 10 ^ (- 9 - e) ->
  preserve_quantity_precision q = F_fin neg 0 0 /\
  (forall (E : Dag.env) (r : Dag.run) (it : Dag.item),
     Dag.f_change_value (Dag.value it) = PyFloat (preserve_quantity_precision q) ->
     Dag.sent (run_of (Dag.process_item E r it)) = Dag.sent r /\
     Dag.ledger (run_of (Dag.process_item E r it)) = Dag.ledger r).
Proof.
  intros Hd Hc He Hsmall.
  assert (Hp : preserve_quantity_precision q = F_fin neg 0 0).
  { unfold preserve_quantity_precision. rewrite Hd. unfold quantize9_half_up.
    replace (-9 <=? e) with false by (symmetry; apply Z.leb_gt; lia).
    assert (Hr : round_half_up c (10 ^ (- 9 - e)) = 0).
    { unfold round_half_up. apply Z.div_small. lia. }
    rewrite Hr. reflexivity. }
  split; [exact Hp|].
  intros E r it Hv.
  destruct (RunFacts.process_item_cases E r it) as [(_ & Hs & Hl & _)|(_ & Hloud & _)];
    [auto|].
  exfalso. revert Hloud. unfold loud. rewrite Hv, Hp. simpl.
  destruct (convert_unit _); [|discriminate].
  destruct (try! u := as_str _ in _); discriminate.
Qed.

Lemma tiny_quantity_rounds_to_zero_witness :
  Dag.skip_quantity (PyStr "0.0000000004") = false /\
  preserve_quantity_precision (PyStr "0.0000000004") = F_fin false 0 0.
Proof.
  split; [reflexivity|].
  apply (proj1 (@tiny_quantity_rounds_to_zero plain_stdlib (PyStr "0.0000000004") false 4 (-10)
                  eq_refl ltac:(lia) ltac:(lia) ltac:(reflexivity))).
Defined.

End QuantityFacts.

(** ** Integer quantities *)

Module IntQuantityFacts.
Import Py Utility Jde Notions MoreNotions.

(** *** Digit strings *)

Lemma string_of_uint_digits (d : Decimal.uint) :
  all_digits (NilEmpty.string_of_uint d) = true.
Proof. induction d; simpl; auto. Qed.

Lemma take_digits_acc (d : Decimal.uint) (acc : positive) (n : nat) :
  take_digits (Z.pos acc) n (NilEmpty.string_of_uint d) =
  (Z.pos (Pos.of_uint_acc d acc),
   (n + String.length (NilEmpty.string_of_uint d))%nat, "").
Proof.
  revert acc n. induction d; intros acc n; cbn [NilEmpty.string_of_uint Pos.of_uint_acc];
    [simpl; now rewrite Nat.add_0_r|..];
    cbn [take_digits]; change (is_digit _) with true; cbv iota;
    match goal with
    | |- take_digits ?a _ _ = (Z.pos (Pos.of_uint_acc _ ?b), _, _) =>
        replace a with (Z.pos b)
          by (match goal with
              | |- context [digit_val ?c] =>
                  let v := eval vm_compute in (digit_val c) in change (digit_val c) with v
              end; lia)
    end;
    rewrite IHd; cbn [String.length]; f_equal; f_equal; lia.
Qed.

Lemma take_digits_zero (d : Decimal.uint) (n : nat) :
  take_digits 0 n (NilEmpty.string_of_uint d) =
  (Z.of_N (Pos.of_uint d), (n + String.length (NilEmpty.string_of_uint d))%nat, "").
Proof.
  revert n. induction d; intros n; cbn [NilEmpty.string_of_uint Pos.of_uint];
    [simpl; now rewrite Nat.add_0_r| |..];
    cbn [take_digits]; change (is_digit _) with true; cbv iota;
    match goal with
    | |- context [digit_val ?c] =>
        let v := eval vm_compute in (10 * 0 + digit_val c) in
        change (10 * 0 + digit_val c) with v
    end;
    [rewrite IHd|rewrite take_digits_acc..]; cbn [String.length]; f_equal; f_equal; lia.
Qed.

Lemma string_of_uint_nonempty (d : Decimal.uint) :
  d <> Decimal.Nil -> NilEmpty.string_of_uint d <> "".
Proof. destruct d; simpl; congruence. Qed.

Lemma digit_cases (c : ascii) :
  is_digit c = true ->
  In c ["0"; "1"; "2"; "3"; "4"; "5"; "6"; "7"; "8"; "9"]%char.
Proof.
  destruct c as [[] [] [] [] [] [] [] []]; intros Hd; try discriminate Hd; simpl; tauto.
Qed.

Ltac digit_case c H :=
  apply digit_cases in H; simpl in H;
  repeat (destruct H as [<-|H]; [try reflexivity|]); try destruct H.

Lemma rstrip_by_keeps (p : ascii -> bool) (s : string) :
  (forall c, is_digit c = true -> p c = false) ->
  all_digits s = true -> rstrip_by p s = s.
Proof.
  intros Hp. induction s as [|c s IH]; simpl; [reflexivity|].
  intros Hd. apply andb_prop in Hd as [Hc Hs]. rewrite (IH Hs).
  destruct s; [now rewrite (Hp c Hc)|reflexivity].
Qed.

Lemma remove_underscores_digits (s : string) :
  all_digits s = true -> remove_underscores s = s.
Proof.
  induction s as [|c s IH]; simpl; [reflexivity|].
  intros Hd. apply andb_prop in Hd as [Hc Hs]. rewrite (IH Hs).
  digit_case c Hc.
Qed.

Lemma lowercase_digits (s : string) : all_digits s = true -> lowercase s = s.
Proof.
  induction s as [|c s IH]; simpl; [reflexivity|].
  intros Hd. apply andb_prop in Hd as [Hc Hs]. rewrite (IH Hs).
  digit_case c Hc.
Qed.

Lemma digit_not_space (c : ascii) : is_digit c = true -> is_space c = false.
Proof. intros Hc. digit_case c Hc. Qed.

(** [Decimal] reads a run of digits, with or without a minus sign, as the
    integer it spells. *)
Lemma Decimal_digits (neg : bool) (s : string) (v : Z) :
  all_digits s = true -> s <> "" ->
  take_digits 0 0 s = (v, String.length s, "") ->
  Decimal ((if neg then "-" else "") +:+ s) = Some (D_fin neg v 0).
Proof.
  intros Hd Hne Htd. destruct s as [|c s]; [now destruct Hne|].
  pose proof Hd as Hd'. simpl in Hd'. apply andb_prop in Hd' as [Hc Hs].
  assert (Hstrip : strip ((if neg then "-" else "") +:+ String c s)
                   = (if neg then "-" else "") +:+ String c s).
  { unfold strip. destruct neg.
    - change ("-" +:+ String c s) with (String "-" (String c s)).
      change (rstrip_by is_space (String "-" (String c s)))
        with (match rstrip_by is_space (String c s) with
              | EmptyString => if is_space "-" then EmptyString else String "-" EmptyString
              | r => String "-" r
              end).
      rewrite (rstrip_by_keeps is_space (String c s) digit_not_space Hd).
      reflexivity.
    - change ("" +:+ String c s) with (String c s).
      rewrite (rstrip_by_keeps is_space (String c s) digit_not_space Hd).
      cbn [lstrip]. now rewrite (digit_not_space c Hc). }
  unfold Decimal. rewrite Hstrip.
  assert (Hsign : parse_sign (remove_underscores ((if neg then "-" else "") +:+ String c s))
                  = (neg, String c s)).
  { destruct neg.
    - change ("-" +:+ String c s) with (String "-" (String c s)).
      change (remove_underscores (String "-" (String c s)))
        with (String "-" (remove_underscores (String c s))).
      now rewrite (remove_underscores_digits (String c s) Hd).
    - change ("" +:+ String c s) with (String c s).
      rewrite (remove_underscores_digits (String c s) Hd).
      clear - Hc. digit_case c Hc. }
  rewrite Hsign. rewrite (lowercase_digits (String c s) Hd).
  assert (Hname : (String.eqb (String c s) "inf" || String.eqb (String c s) "infinity") = false
                  /\ String.prefix "nan" (String c s) = false
                  /\ String.prefix "snan" (String c s) = false).
  { clear - Hc. digit_case c Hc; repeat split; reflexivity. }
  destruct Hname as (-> & -> & ->). simpl andb. cbv iota.
  unfold parse_number. rewrite Htd. simpl. reflexivity.
Qed.

Lemma Decimal_string_of_Z (z : Z) :
  Decimal (string_of_Z z) = Some (D_fin (z <? 0) (Z.abs z) 0).
Proof.
  assert (Hpos : forall (p : positive) (neg : bool),
            Decimal ((if neg then "-" else "") +:+ NilEmpty.string_of_uint (Pos.to_uint p))
            = Some (D_fin neg (Z.pos p) 0)).
  { intros p neg. apply Decimal_digits.
    - apply string_of_uint_digits.
    - apply string_of_uint_nonempty, DecimalPos.Unsigned.to_uint_nonnil.
    - rewrite take_digits_zero, DecimalPos.Unsigned.of_to. reflexivity. }
  assert (Hnil : forall p, NilZero.string_of_uint (Pos.to_uint p)
                           = NilEmpty.string_of_uint (Pos.to_uint p)).
  { intros p. pose proof (DecimalPos.Unsigned.to_uint_nonnil p) as Hn.
    destruct (Pos.to_uint p); [now destruct Hn|reflexivity..]. }
  destruct z as [|p|p]; unfold string_of_Z; simpl Z.to_int; cbn [NilZero.string_of_int].
  - reflexivity.
  - rewrite Hnil. apply (Hpos p false).
  - rewrite Hnil. apply (Hpos p true).
Qed.

(** *** Integers as floats *)

Lemma round_half_even_exact (k d : Z) : 0 < d -> round_half_even (k * d) d = k.
Proof.
  intros Hd. unfold round_half_even.
  rewrite Z.mod_mul, Z.div_mul by lia.
  replace (2 * 0 ?= d) with Lt by (symmetry; apply Z.compare_lt_iff; lia).
  reflexivity.
Qed.

Lemma round_half_even_one (n : Z) : round_half_even n 1 = n.
Proof.
  pose proof (round_half_even_exact n 1 ltac:(lia)) as Hx.
  now rewrite Z.mul_1_r in Hx.
Qed.

Lemma float_of_ratio_int (neg : bool) (a : Z) :
  0 < a < 2 ^ 53 ->
  float_of_ratio neg a 1 = F_fin neg (a * 2 ^ (52 - Z.log2 a)) (Z.log2 a - 52).
Proof.
  intros Ha. unfold float_of_ratio, ilog2_ratio, pow2_le.
  replace (a =? 0) with false by (symmetry; apply Z.eqb_neq; lia).
  change (Z.log2 1) with 0. rewrite Z.sub_0_r.
  pose proof (Z.log2_nonneg a) as Hg0.
  destruct (Z.log2_spec a ltac:(lia)) as [Hlo Hhi].
  assert (Hg : Z.log2 a < 53) by (apply Z.log2_lt_pow2; lia).
  set (g := Z.log2 a) in *.
  replace (0 <=? g) with true by (symmetry; apply Z.leb_le; lia).
  replace (1 * 2 ^ g <=? a) with true by (symmetry; apply Z.leb_le; lia).
  replace (Z.max (g - 52) (-1074)) with (g - 52) by lia.
  assert (Hm : (if 0 <=? g - 52
                then round_half_even a (1 * 2 ^ (g - 52))
                else round_half_even (a * 2 ^ (- (g - 52))) 1) = a * 2 ^ (52 - g)).
  { destruct (Z.leb_spec 0 (g - 52)).
    - replace (g - 52) with 0 by lia. replace (52 - g) with 0 by lia.
      change (1 * 2 ^ 0) with 1. rewrite round_half_even_one. change (2 ^ 0) with 1. lia.
    - replace (- (g - 52)) with (52 - g) by lia. apply round_half_even_one. }
  rewrite Hm.
  assert (Hlt : a * 2 ^ (52 - g) < 2 ^ 53).
  { replace 53 with (Z.succ g + (52 - g)) by lia.
    rewrite Z.pow_add_r by lia.
    apply Z.mul_lt_mono_pos_r; [apply Z.pow_pos_nonneg; lia|exact Hhi]. }
  assert (Hpos : 0 < a * 2 ^ (52 - g)).
  { apply Z.mul_pos_pos; [lia|apply Z.pow_pos_nonneg; lia]. }
  replace (a * 2 ^ (52 - g) =? 2 ^ 53) with false by (symmetry; apply Z.eqb_neq; lia).
  replace (971 <? g - 52) with false by (symmetry; apply Z.ltb_ge; lia).
  replace (a * 2 ^ (52 - g) =? 0) with false by (symmetry; apply Z.eqb_neq; lia).
  reflexivity.
Qed.

Lemma format_9f_int (neg : bool) (a : Z) :
  0 <= a < 2 ^ 53 ->
  format_9f (float_of_ratio neg a 1) =
  (if neg then "-" else "") +:+ string_of_Z a +:+ "." +:+ "000000000".
Proof.
  intros Ha. destruct (Z.eq_dec a 0) as [->|Hne]; [now destruct neg|].
  rewrite float_of_ratio_int by lia. unfold format_9f.
  pose proof (Z.log2_nonneg a) as Hg0.
  assert (Hg : Z.log2 a < 53) by (apply Z.log2_lt_pow2; lia).
  set (g := Z.log2 a) in *.
  assert (HN : (if 0 <=? g - 52
                then a * 2 ^ (52 - g) * 2 ^ (g - 52) * 10 ^ 9
                else round_half_even (a * 2 ^ (52 - g) * 10 ^ 9) (2 ^ (- (g - 52))))
               = a * 10 ^ 9).
  { destruct (Z.leb_spec 0 (g - 52)).
    - replace (g - 52) with 0 by lia. replace (52 - g) with 0 by lia.
      change (2 ^ 0) with 1. lia.
    - replace (- (g - 52)) with (52 - g) by lia.
      replace (a * 2 ^ (52 - g) * 10 ^ 9) with (a * 10 ^ 9 * 2 ^ (52 - g)) by lia.
      apply round_half_even_exact. apply Z.pow_pos_nonneg; lia. }
  rewrite HN. rewrite Z.div_mul, Z.mod_mul by lia. reflexivity.
Qed.

(** *** Stripping the zeros *)

Lemma rstrip_by_app (p : ascii -> bool) (s t : string) :
  rstrip_by p (s +:+ t) =
  match rstrip_by p t with
  | EmptyString => rstrip_by p s
  | r => s +:+ r
  end.
Proof.
  induction s as [|c s IH].
  - change ("" +:+ t) with t. now destruct (rstrip_by p t).
  - change (String c s +:+ t) with (String c (s +:+ t)).
    cbn [rstrip_by]. rewrite IH. destruct (rstrip_by p t) as [|x r]; [reflexivity|].
    change (String c s +:+ String x r) with (String c (s +:+ String x r)).
    destruct s; reflexivity.
Qed.

Lemma digit_not_point (c : ascii) : is_digit c = true -> Ascii.eqb "." c = false.
Proof. intros Hc. digit_case c Hc. Qed.

Lemma all_digits_string_of_Z (a : Z) : 0 <= a -> all_digits (string_of_Z a) = true.
Proof.
  intros Ha. destruct a as [|p|p]; [reflexivity| |lia].
  unfold string_of_Z. simpl. 
  pose proof (DecimalPos.Unsigned.to_uint_nonnil p) as Hn.
  pose proof (string_of_uint_digits (Pos.to_uint p)) as Hd.
  destruct (Pos.to_uint p); [now destruct Hn|exact Hd..].
Qed.

Lemma strip_trailing_zeros (neg : bool) (a : Z) :
  0 <= a ->
  rstrip_char "." (rstrip_char "0" ((if neg then "-" else "") +:+ string_of_Z a +:+ "."
                                    +:+ "000000000"))
  = (if neg then "-" else "") +:+ string_of_Z a.
Proof.
  intros Ha. unfold rstrip_char.
  set (S := if neg then "-" else "").
  set (D := string_of_Z a).
  assert (Hassoc : S +:+ D +:+ "." +:+ "000000000" = (S +:+ D) +:+ ".000000000").
  { unfold S. destruct neg; [|reflexivity].
    change ("-" +:+ D +:+ "." +:+ "000000000") with (String "-" (D +:+ ".000000000")).
    change ("-" +:+ D) with (String "-" D). reflexivity. }
  rewrite Hassoc, rstrip_by_app.
  change (rstrip_by (Ascii.eqb "0") ".000000000") with ".". cbv iota.
  rewrite rstrip_by_app. change (rstrip_by (Ascii.eqb ".") ".") with "". cbv iota.
  rewrite rstrip_by_app.
  pose proof (all_digits_string_of_Z a Ha) as Hd. fold D in Hd.
  rewrite (rstrip_by_keeps (Ascii.eqb ".") D digit_not_point Hd).
  destruct D eqn:HD; [|reflexivity].
  exfalso. unfold D in HD. destruct a as [|q|q]; [discriminate| |lia].
  unfold string_of_Z in HD. simpl in HD.
  pose proof (DecimalPos.Unsigned.to_uint_nonnil q) as Hn.
  destruct (Pos.to_uint q); [now destruct Hn|discriminate..].
Qed.

Lemma string_of_Z_sign (z : Z) :
  (if z <? 0 then "-" else "") +:+ string_of_Z (Z.abs z) = string_of_Z z.
Proof. destruct z as [|p|p]; reflexivity. Qed.

Lemma string_of_Z_inj (z1 z2 : Z) : string_of_Z z1 = string_of_Z z2 -> z1 = z2.
Proof.
  unfold string_of_Z. intros Hs.
  assert (Hok : forall z, Z.to_int z <> Decimal.Pos Decimal.Nil /\
                          Z.to_int z <> Decimal.Neg Decimal.Nil).
  { intros [|p|p]; simpl; split; try discriminate;
      intros [= Hp]; now apply (DecimalPos.Unsigned.to_uint_nonnil p). }
  assert (Hi : Z.to_int z1 = Z.to_int z2).
  { apply (f_equal NilZero.int_of_string) in Hs.
    rewrite !NilZero.isi in Hs by apply Hok. now injection Hs. }
  destruct z1 as [|p1|p1], z2 as [|p2|p2]; simpl in Hi; try discriminate; try reflexivity.
  - injection Hi as Hi. exfalso. symmetry in Hi.
    now apply (DecimalPos.Unsigned.to_uint_nonzero p2).
  - injection Hi as Hi. exfalso. now apply (DecimalPos.Unsigned.to_uint_nonzero p1).
  - injection Hi as Hi. now apply DecimalPos.Unsigned.to_uint_inj in Hi as ->.
  - injection Hi as Hi. now apply DecimalPos.Unsigned.to_uint_inj in Hi as ->.
Qed.

Lemma normalize_int (z : Z) :
  Z.abs z < 2 ^ 53 ->
  normalize_quantity_for_transaction_id (PyInt z) = string_of_Z z.
Proof.
  intros Hz. unfold normalize_quantity_for_transaction_id.
  cbn [py_str]. rewrite Decimal_string_of_Z. cbn [float_of_decimal].
  change (0 <=? 0) with true. cbv iota. change (10 ^ 0) with 1. rewrite Z.mul_1_r.
  rewrite format_9f_int by lia.
  rewrite strip_trailing_zeros by lia.
  apply string_of_Z_sign.
Qed.

(** X30: an integer quantity is identified by its plain decimal numeral: for
    every integer below [2^53] in absolute value
    [normalize_quantity_for_transaction_id] returns the digits of the
    integer, with its sign, and nothing else.  So two such quantities that
    differ give identities that differ. *)
Theorem normalize_integer_quantity (z : Z) :
  Z.abs z < 2 ^ 53 ->
  normalize_quantity_for_transaction_id (PyInt z) = string_of_Z z /\
  (forall (z' : Z) (name lot vessel : pyval),
     Z.abs z' < 2 ^ 53 ->
     unique_transaction_id_for name lot vessel (PyInt z') =
     unique_transaction_id_for name lot vessel (PyInt z) ->
     z' = z).
Proof.
  intros Hz. split; [now apply normalize_int|].
  intros z' name lot vessel Hz' Hid.
  apply IdentityFacts.identity_equal_iff in Hid. unfold normalized in Hid.
  rewrite !normalize_int in Hid by assumption.
  now apply string_of_Z_inj.
Qed.

Lemma normalize_integer_quantity_witness :
  normalize_quantity_for_transaction_id (PyInt (-1200)) = "-1200".
Proof.
  apply (proj1 (normalize_integer_quantity (-1200) ltac:(reflexivity))).
Defined.

End IntQuantityFacts.
